(** * A cafeteria point-of-sale terminal: scan pipeline, purchase ledger,
      reservation workflow and reader discovery

    Shallow embedding of the JavaScript services
    ([services/userService.js], [services/purchaseService.js],
    [services/reservationService.js], [services/rfidService.js]), the
    [POST /complete] purchase route and the Mongoose models they use.

    Modelling conventions.
    - JavaScript numbers are IEEE 754 doubles ([float]); counters that only
      ever count up from a small value and dates (integer milliseconds, as
      [Date] values are) are [Z].
    - A Mongoose collection is a finite map from [_id] to document; the
      purchases collection is kept in insertion order.
    - Asynchronous handlers are run to completion one after the other.  A
      handler is a program in a state-and-exception monad over [World]: the
      record store, the RFID service object, the clock, the list of events
      passed to [io.emit], the log of storage calls and a schedule that says
      which of the coming storage calls fail.
    - Logger calls have no effect on the state and are left out. *)

From Stdlib Require Import ZArith QArith Qabs Qround String Ascii List Lia.
From Stdlib Require Import Permutation Sorted DecimalString Floats.
From stdpp Require Import base option list gmap strings.

Set Warnings "-inexact-float".

Local Open Scope string_scope.
Local Open Scope Z_scope.

Abbreviation ObjectId := nat (only parsing).
Abbreviation Date := Z (only parsing).

(** ** JavaScript primitives used by the services *)

Module Js.

Definition lowerChar (c : ascii) : ascii :=
  let n := nat_of_ascii c in
  if ((65 <=? n) && (n <=? 90))%nat then ascii_of_nat (n + 32) else c.

Definition upperChar (c : ascii) : ascii :=
  let n := nat_of_ascii c in
  if ((97 <=? n) && (n <=? 122))%nat then ascii_of_nat (n - 32) else c.

(** [String.prototype.toLowerCase] / [toUpperCase] on ASCII text. *)
Fixpoint toLowerCase (s : string) : string :=
  match s with
  | EmptyString => EmptyString
  | String c s' => String (lowerChar c) (toLowerCase s')
  end.

Fixpoint toUpperCase (s : string) : string :=
  match s with
  | EmptyString => EmptyString
  | String c s' => String (upperChar c) (toUpperCase s')
  end.

(** [s.includes(pat)] *)
Fixpoint includes (s pat : string) : bool :=
  String.prefix pat s ||
  match s with
  | EmptyString => false
  | String _ s' => includes s' pat
  end.

Definition isWhite (c : ascii) : bool :=
  let n := nat_of_ascii c in
  ((n =? 32) || ((9 <=? n) && (n <=? 13)))%nat.

Fixpoint dropWhite (l : list ascii) : list ascii :=
  match l with
  | c :: l' => if isWhite c then dropWhite l' else l
  | [] => []
  end.

(** [String.prototype.trim] *)
Definition trim (s : string) : string :=
  string_of_list_ascii
    (rev (dropWhite (rev (dropWhite (list_ascii_of_string s))))).

(** [a || b] where [a] may be [undefined] and the empty string is falsy. *)
Definition or_str (a : option string) (b : string) : string :=
  match a with
  | Some s => if String.eqb s "" then b else s
  | None => b
  end.

Definition or_str_opt (a b : option string) : option string :=
  match a with
  | Some s => if String.eqb s "" then b else Some s
  | None => b
  end.

(** Truthiness of a number: zero (of either sign) and [NaN] are falsy. *)
Definition truthy (x : float) : bool :=
  negb (PrimFloat.eqb x 0 || PrimFloat.is_nan x).

(** Truthiness of a number that may be [null]/[undefined]. *)
Definition truthy_num (a : option float) : bool :=
  match a with
  | Some x => truthy x
  | None => false
  end.

(** [a || b] on numbers. *)
Definition or_num (a : option float) (b : float) : float :=
  match a with
  | Some x => if truthy x then x else b
  | None => b
  end.

(** [x < y], [x > y] and [Math.abs(x)] on numbers. *)
Definition lt (x y : float) : bool := PrimFloat.ltb x y.
Definition gt (x y : float) : bool := PrimFloat.ltb y x.
Definition abs (x : float) : float := PrimFloat.abs x.

Definition decimal (n : Z) : string :=
  NilZero.string_of_uint (N.to_uint (Z.to_N n)).

Definition pad2 (n : Z) : string :=
  if n <? 10 then "0" ++ decimal n else decimal n.

(** The exact value of a finite number. *)
Definition exact (x : float) : option Q :=
  match Prim2SF x with
  | S754_zero _ => Some 0%Q
  | S754_finite s m e =>
      Some ((if s then -1 else 1) * inject_Z (Zpos m) * Qpower 2 e)%Q
  | S754_infinity _ | S754_nan => None
  end.

(** [x.toFixed(2)]: the hundredth nearest to the exact value of [x], the
    larger one at a tie.  [toString] is the conversion of a number to a
    string, which takes over for a number that is not finite or is 10^21
    or more in magnitude. *)
Definition toFixed2 (toString : float -> string) (x : float) : string :=
  match exact x with
  | None => toString x
  | Some q =>
      let sign := if negb (Qle_bool 0 q) then "-" else "" in
      if Qle_bool (inject_Z (10 ^ 21)) (Qabs q) then
        sign ++ toString (abs x)
      else
        let n := Qfloor (Qabs q * (100 # 1) + (1 # 2)) in
        sign ++ decimal (n / 100) ++ "." ++ pad2 (n mod 100)
  end.

Definition hexDigit (n : nat) : ascii :=
  match n with
  | 0 => "0" | 1 => "1" | 2 => "2" | 3 => "3" | 4 => "4" | 5 => "5"
  | 6 => "6" | 7 => "7" | 8 => "8" | 9 => "9" | 10 => "a" | 11 => "b"
  | 12 => "c" | 13 => "d" | 14 => "e" | _ => "f"
  end%char%nat.

(** [buffer.toString('hex')] *)
Fixpoint bufferToHex (b : list Byte.byte) : string :=
  match b with
  | [] => EmptyString
  | x :: b' =>
      let n := Byte.to_nat x in
      String (hexDigit (n / 16)) (String (hexDigit (n mod 16)) (bufferToHex b'))
  end%nat.

(** [buffer.toString()], one character per byte. *)
Definition bufferToString (b : list Byte.byte) : string :=
  string_of_list_byte b.

(** [parts.join(', ')] *)
Fixpoint join (sep : string) (parts : list string) : string :=
  match parts with
  | [] => ""
  | [p] => p
  | p :: rest => p ++ sep ++ join sep rest
  end.

End Js.

(** ** Data model (Mongoose schemas) *)

Inductive UserCategory := staff | student.

Definition categoryName (c : UserCategory) : string :=
  match c with staff => "staff" | student => "student" end.

Record BlockInfo := mkBlockInfo {
  reason : string;
  blockNotes : string;
  blockedAt : option Date;
  blockedBy : option ObjectId;
  expiresAt : option Date;
  autoUnblockProcessed : bool
}.

Module User.
Record t := mk {
  uid : string;
  name : string;
  class_or_year : string;
  user_category : UserCategory;
  email : string;
  gender : string;
  isActive : bool;
  lastScanAt : option Date;
  scanCount : Z;
  isBlocked : bool;
  blockInfo : BlockInfo
}.

(** [userSchema.methods.updateLastScan], before the [save]. *)
Definition touch (now : Date) (u : t) : t :=
  mk (uid u) (name u) (class_or_year u) (user_category u) (email u)
     (gender u) (isActive u) (Some now) (scanCount u + 1) (isBlocked u)
     (blockInfo u).

(** The assignments to [isBlocked] and [blockInfo] of the auto-unblock. *)
Definition clearBlock (u : t) : t :=
  mk (uid u) (name u) (class_or_year u) (user_category u) (email u)
     (gender u) (isActive u) (lastScanAt u) (scanCount u) false
     (mkBlockInfo "" "" None None None false).
(** [userSchema.methods.canAccess], at time [today]. *)
Definition canAccess (today : Date) (u : t) : bool :=
  if negb (isActive u) then false
  else if negb (isBlocked u) then true
  else match expiresAt (blockInfo u) with
       | Some e => if e <? today then false else false
       | None => false
       end.

End User.

(** Modelled from the spec: the Food model ([models/Food.js]) is not among
    the sources; a food item has a name, a category, a non-negative price,
    an availability flag and an activity flag. *)
Module Food.
Record t := mk {
  name : string;
  category : string;
  price : float;
  isAvailable : bool;
  isActive : bool
}.
End Food.

Module Parent.
Record t := mk {
  name : string;
  email : string
}.
End Parent.

Inductive MealType := breakfast | lunch | dinner | snack.

Definition mealTypeName (m : MealType) : string :=
  match m with
  | breakfast => "breakfast" | lunch => "lunch"
  | dinner => "dinner" | snack => "snack"
  end.

Inductive ReservationStatus := pending | confirmed | prepared | served | cancelled.

Module MealReservation.
Record t := mk {
  parentId : ObjectId;
  studentId : ObjectId;
  foodId : ObjectId;
  reservationDate : Date;
  quantity : float;
  mealType : MealType;
  specialInstructions : string;
  status : ReservationStatus;
  estimatedCost : float;
  actualCost : option float;
  preparedAt : option Date;
  servedAt : option Date;
  notes : string;
  servedByStation : string;
  rfidProcessedAt : option Date
}.

(** The assignments of [markServedByRFID], before the [save]. *)
Definition markServed (now : Date) (stationId : string) (r : t) : t :=
  mk (parentId r) (studentId r) (foodId r) (reservationDate r) (quantity r)
     (mealType r) (specialInstructions r) served (estimatedCost r)
     (actualCost r) (preparedAt r) (Some now) (notes r) stationId (Some now).
End MealReservation.

(** A reservation after [populate]: a reference that does not resolve is
    [null]. *)
Record PopulatedReservation := mkPopulated {
  pr_id : ObjectId;
  pr_doc : MealReservation.t;
  pr_food : option (ObjectId * Food.t);
  pr_student : option (ObjectId * User.t);
  pr_parent : option (ObjectId * Parent.t)
}.

Inductive PaymentStatus := ps_pending | ps_paid | ps_cancelled.
Inductive PaymentMethod := cash | monthly_billing.

Record PurchaseItem := mkItem {
  item_foodId : ObjectId;
  item_name : string;
  item_price : float;
  item_quantity : float;
  item_subtotal : float
}.

Module Purchase.
Record t := mk {
  userId : ObjectId;
  uid : string;
  userName : string;
  userCategory : UserCategory;
  items : list PurchaseItem;
  totalAmount : float;
  purchasedAt : Date;
  paymentStatus : PaymentStatus;
  paidAt : option Date;
  paymentMethod : PaymentMethod;
  cashAmount : option float;
  change : option float;
  notes : string;
  cafeteriaStation : string;
  processedBy : string
}.
End Purchase.

(** The object handed to [completePurchase]: a request body, or the
    [purchaseData] built by [confirmReservation].  Fields the code tests for
    absence are optional. *)
Record PurchaseData := mkPurchaseData {
  pd_userId : option ObjectId;
  pd_uid : string;
  pd_userName : string;
  pd_userCategory : option string;
  pd_items : option (list PurchaseItem);
  pd_totalAmount : float;
  pd_paymentMethod : option string;
  pd_paidAmount : option float;
  pd_cafeteriaStation : option string;
  pd_processedBy : option string;
  pd_notes : option string;
  pd_paymentStatus : option PaymentStatus
}.

Record ScanEntry := mkScan {
  scan_uid : string;
  scan_timestamp : Date;
  processed : bool
}.

(** The [user] object of a successful scan result. *)
Record UserView := mkUserView {
  uv_id : ObjectId;
  uv_uid : string;
  uv_name : string;
  uv_class_or_year : string;
  uv_user_category : UserCategory;
  uv_email : string;
  uv_gender : string;
  uv_scanCount : Z;
  uv_lastScanAt : option Date;
  uv_isActive : bool;
  uv_isBlocked : bool
}.

(** Payload of the terminal [scanResult] event, one constructor per
    [io.emit('scanResult', ...)] of [processCardScan]. *)
Inductive ScanResult :=
| UserNotFound (uid : string) (timestamp : Date)
| AccessDenied (uid : string) (message : option string)
    (userName userUid : string) (status : option string) (timestamp : Date)
| ScanSuccess (uid : string) (user : UserView)
    (reservations : list PopulatedReservation) (timestamp : Date)
    (cafeteriaName station : string)
| ProcessingError (uid : string) (timestamp : Date).

(** The [success] and [error] fields of the payload. *)
Definition sr_success (r : ScanResult) : bool :=
  match r with ScanSuccess _ _ _ _ _ _ => true | _ => false end.

Definition sr_error (r : ScanResult) : option string :=
  match r with
  | UserNotFound _ _ => Some "User not found"
  | AccessDenied _ _ _ _ _ _ => Some "Access denied"
  | ScanSuccess _ _ _ _ _ _ => None
  | ProcessingError _ _ => Some "Processing error"
  end.

(** What [completePurchase] and [confirmReservation] return. *)
Record PurchaseResult := mkPurchaseResult {
  res_purchase : Purchase.t;
  res_message : string;
  res_paymentMethod : option string;
  res_change : float
}.

Record ConfirmResult := mkConfirmResult {
  cr_reservation : PopulatedReservation;
  cr_purchase : option Purchase.t;
  cr_message : string
}.

(** Events of the real-time channel.  [io.emit] reaches every client;
    [toClient] wraps an event that [socket.emit] sends to one client. *)
Inductive Event :=
| cardScanned (uid : string) (timestamp : Date)
| scanResult (r : ScanResult)
| scanError (message error : string)
| rfidConnected (readerType : string) (timestamp : Date)
| purchaseCompleted (result : PurchaseResult)
| purchaseUpdate (result : PurchaseResult) (timestamp : Date)
| purchaseError (message error : string)
| reservationConfirmed (result : ConfirmResult)
| reservationUpdate (result : ConfirmResult) (timestamp : Date)
| reservationError (message error : string)
| toClient (socketId : string) (e : Event).

(** ** Errors *)

Inductive JsError :=
| Error (message : string)
| TypeError (message : string)
| ValidationError (model : string) (errors : list (string * string))
| StorageError (message : string).

(** [error.message] *)
Definition message (e : JsError) : string :=
  match e with
  | Error m | TypeError m | StorageError m => m
  | ValidationError model errs =>
      model ++ " validation failed: " ++
      Js.join ", " (map (fun pm => fst pm ++ ": " ++ snd pm) errs)
  end.

(** ** The world a handler runs in *)

Record Env := mkEnv {
  STATION_ID : option string;
  CAFETERIA_NAME : option string;
  RFID_READER_NAME : option string;
  MOCK_RFID_READER : option string;
  RFID_AUTO_RECONNECT : option string;
  RFID_BEEP_ON_SCAN : option string;
  (** [LocalTZA(t, isUTC)] of the host's time zone: local time minus UTC
      in milliseconds, in force at the UTC instant [t] ([isUTC = true]) or
      at the local time [t] ([isUTC = false]) *)
  LocalTZA : Z -> bool -> Z;
  (** [String(x)] for a number and [date.toLocaleDateString()] *)
  numberToString : float -> string;
  toLocaleDateString : Date -> string
}.

Record Db := mkDb {
  users : gmap nat User.t;
  foods : gmap nat Food.t;
  parents : gmap nat Parent.t;
  reservations : gmap nat MealReservation.t;
  purchases : list Purchase.t
}.

Inductive DbOp :=
| UserFindOne (uid : string)
| UserFindById (id : ObjectId)
| UserSave (id : ObjectId)
| UserFindByIdAndUpdate (id : ObjectId)
| FoodFindById (id : ObjectId)
| ReservationFindById (id : ObjectId)
| ReservationFind (studentId : ObjectId)
| ReservationSave (id : ObjectId)
| PurchaseSave.

Record ReaderConfig := mkReaderConfig {
  readerName : string;
  autoReconnect : bool;
  beepOnScan : bool
}.

Inductive ReaderHandle :=
| HardwareReader (name : string)
| MockReader.

(** The fields of the [RFIDService] object. *)
Record Rfid := mkRfid {
  reader : option ReaderHandle;
  connected : bool;
  lastScanTime : option Date;
  scanHistory : list ScanEntry;
  mockMode : bool;
  readerConfig : ReaderConfig;
  (** readers that went through [setupCardHandlers] *)
  cardHandlers : list string
}.

Record World := mkWorld {
  db : Db;
  rfid : Rfid;
  clock : Date;
  process_env : Env;
  (** whether each of the coming storage calls fails *)
  faults : list bool;
  (** storage calls made so far, oldest first *)
  dblog : list DbOp;
  (** events given to [io.emit] so far, oldest first *)
  emitted : list Event
}.

Definition set_db (d : Db) (w : World) : World :=
  mkWorld d (rfid w) (clock w) (process_env w) (faults w) (dblog w) (emitted w).

Definition set_rfid (r : Rfid) (w : World) : World :=
  mkWorld (db w) r (clock w) (process_env w) (faults w) (dblog w) (emitted w).


Definition set_users (m : gmap nat User.t) (d : Db) : Db :=
  mkDb m (foods d) (parents d) (reservations d) (purchases d).

Definition set_reservations (m : gmap nat MealReservation.t) (d : Db) : Db :=
  mkDb (users d) (foods d) (parents d) m (purchases d).

Definition set_purchases (l : list Purchase.t) (d : Db) : Db :=
  mkDb (users d) (foods d) (parents d) (reservations d) l.

(** ** State-and-exception monad *)

Inductive Outcome (A : Type) :=
| Returned (a : A)
| Thrown (e : JsError).
Arguments Returned {A} a.
Arguments Thrown {A} e.

Definition M (A : Type) : Type := World -> Outcome A * World.

Definition ret {A} (a : A) : M A := fun w => (Returned a, w).

Definition bind {A B} (m : M A) (k : A -> M B) : M B :=
  fun w =>
    match m w with
    | (Returned a, w') => k a w'
    | (Thrown e, w') => (Thrown e, w')
    end.

Definition throw {A} (e : JsError) : M A := fun w => (Thrown e, w).

(** [try { m } catch (e) { h e }] *)
Definition tryCatch {A} (m : M A) (h : JsError -> M A) : M A :=
  fun w =>
    match m w with
    | (Returned a, w') => (Returned a, w')
    | (Thrown e, w') => h e w'
    end.

Definition getWorld : M World := fun w => (Returned w, w).
Definition modify (f : World -> World) : M unit := fun w => (Returned tt, f w).

Notation "'await' x := c 'in' k" := (bind c (fun x => k))
  (at level 10, x name, c at level 100, k at level 200).
Notation "c >> k" := (bind c (fun _ => k))
  (at level 100, k at level 200, right associativity).

(** [new Date()] *)
Definition now : M Date := fun w => (Returned (clock w), w).

Definition getEnv : M Env := fun w => (Returned (process_env w), w).

(** [this.io.emit(...)] *)
Definition emit (e : Event) : M unit :=
  modify (fun w =>
    mkWorld (db w) (rfid w) (clock w) (process_env w) (faults w) (dblog w)
            (emitted w ++ [e])).

(** ** Record store *)

(** Every storage call is logged and consumes one entry of the failure
    schedule; a scheduled failure rejects the call. *)
Definition tick (op : DbOp) (w : World) : World :=
  mkWorld (db w) (rfid w) (clock w) (process_env w)
          (tail (faults w)) (dblog w ++ [op]) (emitted w).

Definition storage (op : DbOp) : M unit :=
  fun w =>
    match faults w with
    | true :: _ => (Thrown (StorageError "storage operation failed"), tick op w)
    | _ => (Returned tt, tick op w)
    end.

Definition readDb : M Db := fun w => (Returned (db w), w).
Definition writeDb (f : Db -> Db) : M unit :=
  modify (fun w => set_db (f (db w)) w).

(** *** The User, Food and MealReservation models *)

(** The filter [{ uid, isActive: true }].  The filter is cast with the
    schema before it is sent, and the schema declares [uid] with
    [trim: true]: the stored UID is compared with the trimmed argument. *)
Definition activeWithUid (uid : string) (doc : nat * User.t) : bool :=
  String.eqb (User.uid (snd doc)) (Js.trim uid) && User.isActive (snd doc).

Definition User_findOne (uid : string) : M (option (nat * User.t)) :=
  storage (UserFindOne uid) >>
  await d := readDb in
  ret (List.find (activeWithUid uid) (map_to_list (users d))).

Definition User_findById (id : ObjectId) : M (option User.t) :=
  storage (UserFindById id) >>
  await d := readDb in
  ret (users d !! id).

(** [user.save()] *)
Definition User_save (id : ObjectId) (u : User.t) : M unit :=
  storage (UserSave id) >>
  writeDb (fun d => set_users (<[id := u]> (users d)) d).

Definition User_findByIdAndUpdate (id : ObjectId) (f : User.t -> User.t)
  : M unit :=
  storage (UserFindByIdAndUpdate id) >>
  writeDb (fun d => set_users (alter f id (users d)) d).

Definition Food_findById (id : ObjectId) : M (option Food.t) :=
  storage (FoodFindById id) >>
  await d := readDb in
  ret (foods d !! id).

Definition withId {A} (m : gmap nat A) (id : ObjectId) : option (nat * A) :=
  match m !! id with
  | Some a => Some (id, a)
  | None => None
  end.

(** The three [populate] calls of the reservation queries. *)
Definition populate (d : Db) (doc : nat * MealReservation.t)
  : PopulatedReservation :=
  let r := snd doc in
  mkPopulated (fst doc) r
    (withId (foods d) (MealReservation.foodId r))
    (withId (users d) (MealReservation.studentId r))
    (withId (parents d) (MealReservation.parentId r)).

Definition MealReservation_findById (id : ObjectId)
  : M (option PopulatedReservation) :=
  storage (ReservationFindById id) >>
  await d := readDb in
  ret (match reservations d !! id with
       | Some r => Some (populate d (id, r))
       | None => None
       end).

(** [reservation.save()] *)
Definition MealReservation_save (id : ObjectId) (r : MealReservation.t)
  : M unit :=
  storage (ReservationSave id) >>
  writeDb (fun d => set_reservations (<[id := r]> (reservations d)) d).

(** Order of [.sort({ mealType: 1, reservationDate: 1 })]: meal slot names
    as strings, then dates. *)
Definition slotThenDate (a b : MealReservation.t) : bool :=
  match String.compare (mealTypeName (MealReservation.mealType a))
                       (mealTypeName (MealReservation.mealType b)) with
  | Lt => true
  | Gt => false
  | Eq => MealReservation.reservationDate a <=? MealReservation.reservationDate b
  end.

Section Sort.
Context {A : Type} (le : A -> A -> bool).

Fixpoint insertSorted (x : A) (l : list A) : list A :=
  match l with
  | [] => [x]
  | y :: l' => if le x y then x :: l else y :: insertSorted x l'
  end.

Fixpoint sortBy (l : list A) : list A :=
  match l with
  | [] => []
  | x :: l' => insertSorted x (sortBy l')
  end.
End Sort.

(** The filter of [getTodayReservations]:
    [{ studentId, reservationDate: { $gte, $lte }, status: { $in: [...] } }] *)
Definition todayQuery (userId : ObjectId) (startOfDay endOfDay : Date)
    (r : MealReservation.t) : bool :=
  Nat.eqb (MealReservation.studentId r) userId &&
  (startOfDay <=? MealReservation.reservationDate r) &&
  (MealReservation.reservationDate r <=? endOfDay) &&
  match MealReservation.status r with
  | pending | confirmed | prepared => true
  | served | cancelled => false
  end.

Definition MealReservation_find (userId : ObjectId) (startOfDay endOfDay : Date)
  : M (list PopulatedReservation) :=
  storage (ReservationFind userId) >>
  await d := readDb in
  ret (map (populate d)
         (sortBy (fun a b => slotThenDate (snd a) (snd b))
            (List.filter (fun doc => todayQuery userId startOfDay endOfDay (snd doc))
               (map_to_list (reservations d))))).

(** *** The Purchase model *)

(** The object literal given to [new Purchase(...)]. *)
Record PurchaseInput := mkPurchaseInput {
  in_userId : option ObjectId;
  in_uid : string;
  in_userName : string;
  in_userCategory : string;
  in_items : list PurchaseItem;
  in_totalAmount : float;
  in_cafeteriaStation : option string;
  in_purchasedAt : option Date;
  in_paymentStatus : option PaymentStatus;
  in_paidAt : option Date;
  in_paymentMethod : option string;
  in_cashAmount : option float;
  in_change : option float;
  in_notes : option string;
  in_processedBy : option string
}.

Definition parseCategory (s : string) : option UserCategory :=
  if String.eqb s "staff" then Some staff
  else if String.eqb s "student" then Some student
  else None.

Definition parsePaymentMethod (s : string) : option PaymentMethod :=
  if String.eqb s "cash" then Some cash
  else if String.eqb s "monthly_billing" then Some monthly_billing
  else None.

Definition requiredMsg (path : string) : string :=
  "Path `" ++ path ++ "` is required.".

Definition enumMsg (value path : string) : string :=
  "`" ++ value ++ "` is not a valid enum value for path `" ++ path ++ "`.".

Definition minMsg (env : Env) (path : string) (x : float) (bound : string)
  : string :=
  "Path `" ++ path ++ "` (" ++ numberToString env x ++
  ") is less than minimum allowed value (" ++ bound ++ ").".

Definition checkRequired (path leaf value : string) : list (string * string) :=
  if String.eqb (Js.trim value) "" then [(path, requiredMsg leaf)] else [].

(** The [min] validator passes on [value >= min]. *)
Definition checkMin (env : Env) (path leaf : string) (x bound : float)
    (boundText : string) : list (string * string) :=
  if PrimFloat.leb bound x then [] else [(path, minMsg env leaf x boundText)].

(** Validators of [purchaseItemSchema] for the item at index [i]. *)
Definition validateItem (env : Env) (i : nat) (it : PurchaseItem)
  : list (string * string) :=
  let at_ leaf := "items." ++ Js.decimal (Z.of_nat i) ++ "." ++ leaf in
  checkRequired (at_ "name") "name" (item_name it) ++
  checkMin env (at_ "price") "price" (item_price it) 0%float "0" ++
  checkMin env (at_ "quantity") "quantity" (item_quantity it) 1%float "1" ++
  checkMin env (at_ "subtotal") "subtotal" (item_subtotal it) 0%float "0".

Fixpoint validateItems (env : Env) (i : nat) (l : list PurchaseItem)
  : list (string * string) :=
  match l with
  | [] => []
  | it :: l' => validateItem env i it ++ validateItems env (S i) l'
  end.

(** Validators of [purchaseSchema], in the order in which the errors are
    reported: the paths of the document itself in schema order, then the
    paths of the items, which are validated as subdocuments. *)
Definition Purchase_validate (env : Env) (p : PurchaseInput)
  : list (string * string) :=
  (if in_userId p is None then [("userId", requiredMsg "userId")] else []) ++
  checkRequired "uid" "uid" (in_uid p) ++
  checkRequired "userName" "userName" (in_userName p) ++
  (if String.eqb (in_userCategory p) ""
   then [("userCategory", requiredMsg "userCategory")]
   else if parseCategory (in_userCategory p) is None
        then [("userCategory", enumMsg (in_userCategory p) "userCategory")]
        else []) ++
  checkMin env "totalAmount" "totalAmount" (in_totalAmount p) 0%float "0" ++
  match in_paymentMethod p with
  | Some s => if parsePaymentMethod s is None
              then [("paymentMethod", enumMsg s "paymentMethod")] else []
  | None => []
  end ++
  validateItems env 0 (in_items p).

Definition trimItem (it : PurchaseItem) : PurchaseItem :=
  mkItem (item_foodId it) (Js.trim (item_name it)) (item_price it)
         (item_quantity it) (item_subtotal it).

(** The stored document: setters ([trim]) and schema defaults applied. *)
Definition Purchase_document (t : Date) (p : PurchaseInput) : Purchase.t :=
  Purchase.mk
    (default 0%nat (in_userId p))
    (Js.trim (in_uid p))
    (Js.trim (in_userName p))
    (default student (parseCategory (in_userCategory p)))
    (map trimItem (in_items p))
    (in_totalAmount p)
    (default t (in_purchasedAt p))
    (default ps_pending (in_paymentStatus p))
    (in_paidAt p)
    (default monthly_billing (in_paymentMethod p ≫= parsePaymentMethod))
    (in_cashAmount p)
    (in_change p)
    (Js.trim (default "" (in_notes p)))
    (default "STATION_001" (in_cafeteriaStation p))
    (default "" (in_processedBy p)).

(** [new Purchase(p).save()]: validation runs before the write. *)
Definition Purchase_create (p : PurchaseInput) : M Purchase.t :=
  await env := getEnv in
  match Purchase_validate env p with
  | [] =>
      await t := now in
      let doc := Purchase_document t p in
      storage PurchaseSave >>
      writeDb (fun d => set_purchases (purchases d ++ [doc]) d) >>
      ret doc
  | errs => throw (ValidationError "Purchase" errs)
  end.

(** ** User Directory ([services/userService.js]) *)

Record AccessCheck := mkAccessCheck {
  canAccess : bool;
  ac_reason : option string;
  ac_message : option string;
  ac_expiresAt : option Date
}.

Module UserService.

Definition getUserByUID (uid : string) : M (option (nat * User.t)) :=
  tryCatch
    (await user := User_findOne uid in
     match user with
     | Some u => ret (Some u)
     | None => ret None
     end)
    (fun _ => ret None).

Definition getUserById (userId : ObjectId) : M (option User.t) :=
  tryCatch
    (await user := User_findById userId in
     match user with
     | Some u => ret (Some u)
     | None => ret None
     end)
    (fun _ => ret None).

Definition updateLastScan (userId : ObjectId) : M bool :=
  tryCatch
    (await user := User_findById userId in
     match user with
     | Some u =>
         await t := now in
         User_save userId (User.touch t u) >>
         ret true
     | None => ret false
     end)
    (fun _ => ret false).

Definition allow : AccessCheck := mkAccessCheck true None None None.

Definition inactive : AccessCheck :=
  mkAccessCheck false (Some "Account is inactive")
    (Some "This account has been deactivated. Please contact administration.")
    None.

Definition blocked (u : User.t) : AccessCheck :=
  mkAccessCheck false (Some "Account is blocked")
    (Some (Js.or_str (Some (reason (User.blockInfo u)))
                     "This account has been temporarily blocked."))
    (expiresAt (User.blockInfo u)).

Definition systemError : AccessCheck :=
  mkAccessCheck false (Some "System error")
    (Some "Unable to validate account access. Please try again.")
    None.

(** [user.blockInfo.expiresAt && new Date() > user.blockInfo.expiresAt] *)
Definition blockExpired (t : Date) (u : User.t) : bool :=
  match expiresAt (User.blockInfo u) with
  | Some e => e <? t
  | None => false
  end.

(** The check works on the in-memory document [user] (with [_id]
    [userId]) and may assign to it, so the document as the caller sees it
    afterwards is returned next to the verdict.  [user.save()] is the only
    statement of the body that can throw; the [catch] is placed around
    it. *)
Definition validateUserAccess (userId : ObjectId) (user : User.t)
  : M (AccessCheck * User.t) :=
  if negb (User.isActive user) then ret (inactive, user)
  else if User.isBlocked user then
    await t := now in
    if blockExpired t user then
      let user' := User.clearBlock user in
      tryCatch
        (User_save userId user' >> ret (allow, user'))
        (fun _ => ret (systemError, user'))
    else ret (blocked user, user)
  else ret (allow, user).




End UserService.

(** ** Purchase Ledger ([services/purchaseService.js]) *)

Definition isCash (m : option string) : bool :=
  match m with Some s => String.eqb s "cash" | None => false end.

Definition isMonthlyBilling (m : option string) : bool :=
  match m with Some s => String.eqb s "monthly_billing" | None => false end.

Module PurchaseService.

Definition calculateTotal (items : list PurchaseItem) : float :=
  fold_left
    (fun total item => total + item_price item * item_quantity item)%float
    items 0%float.

(** The per-item checks of the loop body. *)
Definition checkItem (env : Env) (item : PurchaseItem) (food : option Food.t)
  : M unit :=
  match food with
  | None => throw (Error ("Food item not found: " ++ item_name item))
  | Some f =>
      if negb (Food.isAvailable f) || negb (Food.isActive f) then
        throw (Error ("Food item not available: " ++ Food.name f))
      else if Js.gt (Js.abs (item_price item - Food.price f)%float)
                    0.01%float then
        throw (Error ("Price mismatch for " ++ Food.name f ++
                      ". Expected: $" ++ numberToString env (Food.price f) ++
                      ", Got: $" ++ numberToString env (item_price item)))
      else ret tt
  end.

(** The [catch] of the source logs and rethrows, so it is left out. *)
Fixpoint validatePurchaseItems (items : list PurchaseItem) : M bool :=
  match items with
  | [] => ret true
  | item :: rest =>
      await food := Food_findById (item_foodId item) in
      await env := getEnv in
      checkItem env item food >>
      validatePurchaseItems rest
  end.

(** Payment branching: status, paid-at, cash amount, change and notes. *)
Definition payment (env : Env) (purchaseData : PurchaseData) (t : Date)
  : M (PaymentStatus * option Date * option float * option float * string) :=
  let notes := Js.or_str (pd_notes purchaseData) "" in
  if isCash (pd_paymentMethod purchaseData) then
    match pd_paidAmount purchaseData with
    | None =>
        throw (TypeError
                 "Cannot read properties of undefined (reading 'toFixed')")
    | Some paid =>
        let notes :=
          notes ++ " | Cash payment: €" ++
          Js.toFixed2 (numberToString env) paid in
        if Js.gt paid (pd_totalAmount purchaseData) then
          let change := (paid - pd_totalAmount purchaseData)%float in
          ret (ps_paid, Some t, Some paid, Some change,
               notes ++ " | Change: €" ++
               Js.toFixed2 (numberToString env) change)
        else ret (ps_paid, Some t, Some paid, None, notes)
    end
  else if isMonthlyBilling (pd_paymentMethod purchaseData) then
    ret (ps_pending, None, None, None,
         notes ++ " | Added to monthly bill - parent will be charged")
  else ret (ps_pending, None, None, None, notes).

Definition completePurchase (purchaseData : PurchaseData) : M PurchaseResult :=
  tryCatch
    (match pd_items purchaseData with
     | None =>
         (* the first log line reads [purchaseData.items.length] *)
         throw (TypeError
                  "Cannot read properties of undefined (reading 'length')")
     | Some items =>
         match pd_userId purchaseData, items with
         | None, _ | _, [] => throw (Error "Invalid purchase data")
         | Some userId, _ :: _ =>
             let userCategory :=
               Js.or_str (pd_userCategory purchaseData) "student" in
             await t := now in
             await env := getEnv in
             await pay := payment env purchaseData t in
             let '(paymentStatus, paidAt, cashAmount, change, notes) := pay in
             await purchase :=
               Purchase_create
                 (mkPurchaseInput
                    (Some userId)
                    (pd_uid purchaseData)
                    (pd_userName purchaseData)
                    userCategory
                    items
                    (pd_totalAmount purchaseData)
                    (Some (Js.or_str
                             (Js.or_str_opt (pd_cafeteriaStation purchaseData)
                                            (STATION_ID env))
                             "STATION_001"))
                    (Some t)
                    (Some paymentStatus)
                    paidAt
                    (pd_paymentMethod purchaseData)
                    cashAmount
                    change
                    (Some notes)
                    (Some (Js.or_str (pd_processedBy purchaseData)
                                     "rfid_system"))) in
             User_findByIdAndUpdate userId (User.touch t) >>
             ret (mkPurchaseResult
                    purchase
                    (if isCash (pd_paymentMethod purchaseData)
                     then "Cash payment completed successfully"
                     else "Purchase added to monthly bill")
                    (pd_paymentMethod purchaseData)
                    (match pd_paidAmount purchaseData with
                     | Some paid =>
                         if isCash (pd_paymentMethod purchaseData) &&
                            Js.gt paid (pd_totalAmount purchaseData)
                         then (paid - pd_totalAmount purchaseData)%float
                         else 0%float
                     | None => 0%float
                     end))
         end
     end)
    (fun error =>
       match error with
       | ValidationError _ errs => throw (Error (Js.join ", " (map snd errs)))
       | _ => throw (Error (Js.or_str (Some (message error)) "Purchase failed"))
       end).

Definition getFoodById (foodId : ObjectId) : M (option Food.t) :=
  tryCatch (Food_findById foodId) (fun _ => ret None).

End PurchaseService.

(** ** [POST /complete] ([routes/purchases.js]) *)

Inductive ResponseBody :=
| Failure (error : string)
| Completed (result : PurchaseResult).

Record Response := mkResponse {
  statusCode : nat;
  body : ResponseBody
}.

Module PurchaseRoutes.

Definition badRequest (error : string) : M Response :=
  ret (mkResponse 400 (Failure error)).

(** The handler; the purchase service object is constructed at start-up
    by an empty constructor, so the [503] branch is not modelled. *)
Definition complete (req_body : PurchaseData) : M Response :=
  tryCatch
    (match pd_userId req_body, pd_items req_body with
     | None, _ | _, None | _, Some [] => badRequest "Invalid purchase data"
     | Some _, Some items =>
         if negb (isCash (pd_paymentMethod req_body) ||
                  isMonthlyBilling (pd_paymentMethod req_body)) then
           badRequest "Invalid payment method"
         else
           PurchaseService.validatePurchaseItems items >>
           let calculatedTotal := PurchaseService.calculateTotal items in
           if Js.gt (Js.abs (calculatedTotal - pd_totalAmount req_body)%float)
                    0.01%float then
             badRequest "Total amount mismatch"
           else if isCash (pd_paymentMethod req_body) &&
                   (negb (Js.truthy_num (pd_paidAmount req_body)) ||
                    match pd_paidAmount req_body with
                    | Some paid => Js.lt paid (pd_totalAmount req_body)
                    | None => false
                    end) then
             badRequest "Insufficient cash amount"
           else
             await result := PurchaseService.completePurchase req_body in
             ret (mkResponse 200 (Completed result))
     end)
    (fun error =>
       badRequest (Js.or_str (Some (message error))
                             "Failed to complete purchase")).

End PurchaseRoutes.

(** ** Reservation Workflow ([services/reservationService.js]) *)

Definition msPerDay : Z := 86400000.

(** [LocalTime(t)], [UTC(t)], [Day(t)] and [MakeTime] of the language
    specification. *)
Definition LocalTime (env : Env) (t : Z) : Z := t + LocalTZA env t true.
Definition UTC (env : Env) (t : Z) : Z := t - LocalTZA env t false.
Definition Day (t : Z) : Z := t / msPerDay.
Definition MakeTime (hour min sec ms : Z) : Z :=
  ((hour * 60 + min) * 60 + sec) * 1000 + ms.

(** [date.setHours(hour, min, sec, ms)] on a date with time value [t]: the
    new time value, which is also what the call returns. *)
Definition setHours (env : Env) (t : Date) (hour min sec ms : Z) : Date :=
  UTC env (Day (LocalTime env t) * msPerDay + MakeTime hour min sec ms).

(** [new Date(today.setHours(0, 0, 0, 0))] and
    [new Date(today.setHours(23, 59, 59, 999))]: the second call works on
    the date object the first one has moved to the start of the day. *)
Definition startOfDay (env : Env) (today : Date) : Date :=
  setHours env today 0 0 0 0.

Definition endOfDay (env : Env) (today : Date) : Date :=
  setHours env (startOfDay env today) 23 59 59 999.

(** [new Purchase(purchaseData)]: fields outside the schema are dropped. *)
Definition inputOfData (pd : PurchaseData) : PurchaseInput :=
  mkPurchaseInput
    (pd_userId pd) (pd_uid pd) (pd_userName pd)
    (default "" (pd_userCategory pd))
    (default [] (pd_items pd))
    (pd_totalAmount pd)
    (pd_cafeteriaStation pd)
    None
    (pd_paymentStatus pd)
    None
    (pd_paymentMethod pd)
    None
    None
    (pd_notes pd)
    (pd_processedBy pd).

Module ReservationService.

Definition getTodayReservations (userId : ObjectId)
  : M (list PopulatedReservation) :=
  tryCatch
    (await today := now in
     await env := getEnv in
     MealReservation_find userId (startOfDay env today) (endOfDay env today))
    (fun _ => ret []).

(** [reservation.markServedByRFID(stationId)] on the loaded document. *)
Definition markServedByRFID (r : PopulatedReservation) (stationId : string)
  : M PopulatedReservation :=
  await t := now in
  let doc := MealReservation.markServed t stationId (pr_doc r) in
  MealReservation_save (pr_id r) doc >>
  ret (mkPopulated (pr_id r) doc (pr_food r) (pr_student r) (pr_parent r)).

(** [reservation.actualCost || reservation.estimatedCost] *)
Definition cost (r : MealReservation.t) : float :=
  Js.or_num (MealReservation.actualCost r) (MealReservation.estimatedCost r).

Definition purchaseDataOf (env : Env) (t : Date) (r : MealReservation.t)
    (studentDoc : nat * User.t) (foodDoc : nat * Food.t) : PurchaseData :=
  mkPurchaseData
    (Some (fst studentDoc))
    (User.uid (snd studentDoc))
    (User.name (snd studentDoc))
    (Some (Js.or_str (Some (categoryName (User.user_category (snd studentDoc))))
                     "student"))
    (Some [mkItem (fst foodDoc) (Food.name (snd foodDoc)) (cost r)
                  (MealReservation.quantity r)
                  (cost r * MealReservation.quantity r)%float])
    (cost r * MealReservation.quantity r)%float
    None
    None
    (Some (Js.or_str (STATION_ID env) "STATION_001"))
    (Some "rfid_reservation_system")
    (Some ("Reservation fulfilled: " ++
           mealTypeName (MealReservation.mealType r) ++ " meal on " ++
           toLocaleDateString env t))
    (Some ps_pending).

(** The inner [try] block: build [purchaseData] and record the purchase,
    through the purchase service when one is passed. *)
Definition createPurchase (purchaseService : bool) (r : PopulatedReservation)
  : M Purchase.t :=
  match pr_student r with
  | None =>
      throw (TypeError "Cannot read properties of null (reading '_id')")
  | Some studentDoc =>
      match pr_food r with
      | None =>
          throw (TypeError "Cannot read properties of null (reading '_id')")
      | Some foodDoc =>
          await env := getEnv in
          await t := now in
          let purchaseData := purchaseDataOf env t (pr_doc r) studentDoc foodDoc in
          if purchaseService then
            await purchaseResult :=
              PurchaseService.completePurchase purchaseData in
            ret (res_purchase purchaseResult)
          else
            Purchase_create (inputOfData purchaseData)
      end
  end.

Definition confirmReservation (reservationId : ObjectId)
    (purchaseService : bool) : M ConfirmResult :=
  tryCatch
    (await found := MealReservation_findById reservationId in
     match found with
     | None => throw (Error "Reservation not found")
     | Some reservation =>
         match MealReservation.status (pr_doc reservation) with
         | served => throw (Error "Reservation has already been served")
         | cancelled => throw (Error "Cannot confirm a cancelled reservation")
         | _ =>
             await env := getEnv in
             await reservation :=
               markServedByRFID reservation
                 (Js.or_str (STATION_ID env) "STATION_001") in
             await purchase :=
               tryCatch
                 (createPurchase purchaseService reservation)
                 (fun purchaseError =>
                    throw (Error
                      ("Reservation served but failed to create purchase record: "
                       ++ message purchaseError))) in
             ret (mkConfirmResult
                    reservation
                    (Some purchase)
                    ("Reservation served and $" ++
                     Js.toFixed2 (numberToString env)
                       (cost (pr_doc reservation) *
                        MealReservation.quantity (pr_doc reservation))%float ++
                     " purchase recorded for payment"))
         end
     end)
    (fun error =>
       throw (Error (Js.or_str (Some (message error))
                               "Failed to confirm reservation"))).

Definition getReservationById (reservationId : ObjectId)
  : M (option PopulatedReservation) :=
  tryCatch (MealReservation_findById reservationId) (fun _ => ret None).

(** The assignments of [updateReservationStatus], before the [save].  The
    schema declares [notes] with [trim: true], and the setter runs at the
    assignment; [servedByStation] has no setter. *)
Definition applyStatus (t : Date) (station : string)
    (status : ReservationStatus) (notes : string) (r : MealReservation.t)
  : MealReservation.t :=
  match status with
  | served =>
      MealReservation.mk
        (MealReservation.parentId r) (MealReservation.studentId r)
        (MealReservation.foodId r) (MealReservation.reservationDate r)
        (MealReservation.quantity r) (MealReservation.mealType r)
        (MealReservation.specialInstructions r) served
        (MealReservation.estimatedCost r) (MealReservation.actualCost r)
        (MealReservation.preparedAt r) (Some t) (Js.trim notes) station
        (Some t)
  | _ =>
      MealReservation.mk
        (MealReservation.parentId r) (MealReservation.studentId r)
        (MealReservation.foodId r) (MealReservation.reservationDate r)
        (MealReservation.quantity r) (MealReservation.mealType r)
        (MealReservation.specialInstructions r) status
        (MealReservation.estimatedCost r) (MealReservation.actualCost r)
        (MealReservation.preparedAt r) (MealReservation.servedAt r)
        (Js.trim notes)
        (MealReservation.servedByStation r) (MealReservation.rfidProcessedAt r)
  end.

(** [updateReservationStatus(reservationId, status, notes)]; the [catch]
    logs and rethrows.  The document is loaded without [populate]. *)
Definition updateReservationStatus (reservationId : ObjectId)
    (status : ReservationStatus) (notes : string) : M MealReservation.t :=
  storage (ReservationFindById reservationId) >>
  await d := readDb in
  match reservations d !! reservationId with
  | None => throw (Error "Reservation not found")
  | Some reservation =>
      await t := now in
      await env := getEnv in
      let reservation :=
        applyStatus t (Js.or_str (STATION_ID env) "STATION_001")
                    status notes reservation in
      MealReservation_save reservationId reservation >>
      ret reservation
  end.

End ReservationService.

(** ** Reader Manager and Scan Pipeline ([services/rfidService.js]) *)

(** A card UID: a buffer or a value with its string form. *)
Inductive RawUid :=
| BufferUid (b : list Byte.byte)
| StringUid (s : string).

(** An argument that may be missing.  What a card event or a manual
    trigger hands to the pipeline as [uid] is a [Nullable RawUid]: a card
    event need not carry a UID, and the socket command passes [data.uid]
    on as it comes. *)
Inductive Nullable (A : Type) :=
| jsNull
| jsUndefined
| Given (a : A).
Arguments jsNull {A}.
Arguments jsUndefined {A}.
Arguments Given {A} a.

Definition isEnvTrue (v : option string) : bool :=
  match v with Some s => String.eqb s "true" | None => false end.

Fixpoint findIndex {A} (f : A -> bool) (l : list A) : option nat :=
  match l with
  | [] => None
  | x :: l' => if f x then Some 0%nat else S <$> findIndex f l'
  end.

Module RFIDService.

(** State set up by the constructor. *)
Definition construct (env : Env) : Rfid :=
  mkRfid None false None []
    (isEnvTrue (MOCK_RFID_READER env))
    (mkReaderConfig
       (Js.or_str (RFID_READER_NAME env) "ACR1252")
       (isEnvTrue (RFID_AUTO_RECONNECT env))
       (isEnvTrue (RFID_BEEP_ON_SCAN env)))
    [].

Definition setupCardHandlers (name : string) : M unit :=
  modify (fun w =>
    let r := rfid w in
    set_rfid (mkRfid (reader r) (connected r) (lastScanTime r)
                     (scanHistory r) (mockMode r) (readerConfig r)
                     (cardHandlers r ++ [name])) w).

(** The test of the [reader] event handler. *)
Definition isTargetReader (name : string) : bool :=
  Js.includes (Js.toLowerCase name) "acr" ||
  Js.includes (Js.toLowerCase name) "1252" ||
  Js.includes (Js.toLowerCase name) "nfc".

(** [this.nfc.on('reader', (reader) => ...)] for a reader called [name]. *)
Definition onReader (name : string) : M unit :=
  if isTargetReader name then
    modify (fun w =>
      let r := rfid w in
      set_rfid (mkRfid (Some (HardwareReader name)) true (lastScanTime r)
                       (scanHistory r) (mockMode r) (readerConfig r)
                       (cardHandlers r)) w) >>
    await t := now in
    emit (rfidConnected name t) >>
    setupCardHandlers name
  else ret tt.

Definition uidString (uid : RawUid) : string :=
  match uid with
  | BufferUid b => Js.toUpperCase (Js.bufferToHex b)
  | StringUid s => Js.toUpperCase s
  end.

(** [uid.toString()] *)
Definition uidText (uid : RawUid) : string :=
  match uid with
  | BufferUid b => Js.bufferToString b
  | StringUid s => s
  end.

(** A property read [x.name] on a value that may be missing. *)
Definition readProperty {A} (x : Nullable A) (name : string) : M A :=
  match x with
  | jsNull =>
      throw (TypeError ("Cannot read properties of null (reading '" ++
                        name ++ "')"))
  | jsUndefined =>
      throw (TypeError ("Cannot read properties of undefined (reading '" ++
                        name ++ "')"))
  | Given a => ret a
  end.

(** [this.lastScanTime = new Date()] *)
Definition setLastScanTime (t : Date) : M unit :=
  modify (fun w =>
    let r := rfid w in
    set_rfid (mkRfid (reader r) (connected r) (Some t) (scanHistory r)
                     (mockMode r) (readerConfig r) (cardHandlers r)) w).

(** [unshift] of the new entry, then the cut to the last 100 scans. *)
Definition pushScan (entry : ScanEntry) (history : list ScanEntry)
  : list ScanEntry :=
  let history := entry :: history in
  if (100 <? length history)%nat then take 100 history else history.

Definition recordScan (uid : string) (t : Date) : M unit :=
  modify (fun w =>
    let r := rfid w in
    set_rfid (mkRfid (reader r) (connected r) (lastScanTime r)
                     (pushScan (mkScan uid t false) (scanHistory r))
                     (mockMode r) (readerConfig r) (cardHandlers r)) w).

Definition setProcessed (e : ScanEntry) : ScanEntry :=
  mkScan (scan_uid e) (scan_timestamp e) true.

Definition markProcessed (uid : string) : M unit :=
  modify (fun w =>
    let r := rfid w in
    match findIndex (fun scan => String.eqb (scan_uid scan) uid)
                    (scanHistory r) with
    | Some scanIndex =>
        set_rfid (mkRfid (reader r) (connected r) (lastScanTime r)
                         (alter setProcessed scanIndex (scanHistory r))
                         (mockMode r) (readerConfig r) (cardHandlers r)) w
    | None => w
    end).

Definition userView (userId : ObjectId) (u : User.t) : UserView :=
  mkUserView userId (User.uid u) (User.name u) (User.class_or_year u)
    (User.user_category u) (User.email u) (User.gender u)
    (User.scanCount u) (User.lastScanAt u) (User.isActive u)
    (User.isBlocked u).

(** The scan time is stored before [uid] is first used.  Both the body
    and the [catch] call [uid.toString], so a missing [uid] makes the
    handler of the [catch] throw in its turn. *)
Definition processCardScan (uid : Nullable RawUid) : M unit :=
  tryCatch
    (await t := now in
     setLastScanTime t >>
     await value := readProperty uid "toString" in
     let uidString := uidString value in
     recordScan uidString t >>
     emit (cardScanned uidString t) >>
     await userData := UserService.getUserByUID uidString in
     match userData with
     | None =>
         await ts := now in
         emit (scanResult (UserNotFound uidString ts))
     | Some (userId, user) =>
         await checked := UserService.validateUserAccess userId user in
         let accessCheck := fst checked in
         let userData := snd checked in
         if negb (canAccess accessCheck) then
           await ts := now in
           emit (scanResult
                   (AccessDenied uidString (ac_message accessCheck)
                      (User.name userData) (User.uid userData)
                      (ac_reason accessCheck) ts))
         else
           await reservations :=
             ReservationService.getTodayReservations userId in
           markProcessed uidString >>
           await env := getEnv in
           await ts := now in
           emit (scanResult
                   (ScanSuccess uidString (userView userId userData)
                      reservations ts
                      (Js.or_str (CAFETERIA_NAME env) "School Cafeteria")
                      (Js.or_str (STATION_ID env) "STATION_001"))) >>
           await _ := UserService.updateLastScan userId in
           ret tt
     end)
    (fun _ =>
       await value := readProperty uid "toString" in
       await ts := now in
       emit (scanResult (ProcessingError (uidText value) ts))).

(** [reader.on('card', ...)] *)
Definition onCard (uid : Nullable RawUid) : M unit :=
  tryCatch
    (processCardScan uid)
    (fun error => emit (scanError "Failed to process card" (message error))).

Definition processManualScan (uid : Nullable RawUid) (socketId : string)
  : M unit :=
  processCardScan uid.

Definition simulateScan (uid : Nullable RawUid) : M unit :=
  await w := getWorld in
  if negb (mockMode (rfid w)) then
    throw (Error "Simulate scan only available in mock mode")
  else processCardScan uid.

Definition getScanHistory : M (list ScanEntry) :=
  await w := getWorld in
  ret (take 50 (scanHistory (rfid w))).

(** [initializeMockReader], without the announcement it schedules. *)
Definition initializeMockReader : M unit :=
  modify (fun w =>
    let r := rfid w in
    set_rfid (mkRfid (Some MockReader) true (lastScanTime r) (scanHistory r)
                     (mockMode r) (readerConfig r) (cardHandlers r)) w).

(** The callback [initializeMockReader] schedules one second ahead. *)
Definition announceMockReader : M unit :=
  await t := now in
  emit (rfidConnected "Mock ACR1252" t).

(** [initializeNFCReader]: [new NFC()] either throws [failure] or gives a
    handle on which the [reader] and [error] handlers are registered. *)
Definition initializeNFCReader (failure : option JsError) : M unit :=
  match failure with
  | Some error => throw error
  | None => ret tt
  end.

Definition initialize (failure : option JsError) : M unit :=
  tryCatch
    (await w := getWorld in
     if mockMode (rfid w) then initializeMockReader
     else initializeNFCReader failure)
    (fun _ =>
       await w := getWorld in
       if negb (mockMode (rfid w)) then initializeMockReader else ret tt).

Definition isConnected : M bool :=
  await w := getWorld in ret (connected (rfid w)).

Definition getLastScanTime : M (option Date) :=
  await w := getWorld in ret (lastScanTime (rfid w)).

(** [this.reader.name]: the object of the mock reader has no [name]. *)
Definition handleName (h : ReaderHandle) : option string :=
  match h with
  | HardwareReader name => Some name
  | MockReader => None
  end.

Record ReaderEntry := mkReaderEntry {
  re_name : option string;
  re_connected : bool;
  re_type : string
}.

Definition getConnectedReaders : M (list ReaderEntry) :=
  await w := getWorld in
  if mockMode (rfid w) then
    ret [mkReaderEntry (Some "Mock ACR1252") true "mock"]
  else
    match reader (rfid w) with
    | Some h => ret [mkReaderEntry (handleName h) (connected (rfid w)) "nfc-pcsc"]
    | None => ret []
    end.

Record Capabilities := mkCapabilities {
  cap_name : option string;
  capabilities : list string;
  cap_mock : bool;
  cap_connected : option bool
}.

Definition getReaderCapabilities : M (option Capabilities) :=
  await w := getWorld in
  if mockMode (rfid w) then
    ret (Some (mkCapabilities (Some "Mock ACR1252")
                 ["ISO14443A"; "ISO14443B"; "MIFARE"; "NTAG"] true None))
  else
    match reader (rfid w) with
    | None => ret None
    | Some h =>
        ret (Some (mkCapabilities (handleName h)
                     ["ISO14443A"; "ISO14443B"; "MIFARE"; "NTAG"; "FeliCa"]
                     false (Some (connected (rfid w)))))
    end.

End RFIDService.

(** ** Client commands on the real-time channel ([server.js]) *)

Module Server.

(** [socket.on('manualScan', ...)] *)
Definition onManualScan (socketId : string) (uid : Nullable RawUid)
  : M unit :=
  tryCatch
    (RFIDService.processManualScan uid socketId)
    (fun error =>
       emit (toClient socketId
               (scanError "Failed to process manual scan" (message error)))).

(** [socket.on('completePurchase', ...)]: the data goes to the purchase
    service as received. *)
Definition onCompletePurchase (socketId : string) (data : PurchaseData)
  : M unit :=
  tryCatch
    (await result := PurchaseService.completePurchase data in
     emit (toClient socketId (purchaseCompleted result)) >>
     await t := now in
     emit (purchaseUpdate result t))
    (fun error =>
       emit (toClient socketId
               (purchaseError "Failed to complete purchase" (message error)))).

(** [socket.on('confirmReservation', ...)] *)
Definition onConfirmReservation (socketId : string) (reservationId : ObjectId)
  : M unit :=
  tryCatch
    (await result :=
       ReservationService.confirmReservation reservationId true in
     emit (toClient socketId (reservationConfirmed result)) >>
     await t := now in
     emit (reservationUpdate result t))
    (fun error =>
       emit (toClient socketId
               (reservationError "Failed to confirm reservation"
                                 (message error)))).

End Server.

(** ** Administrator sign-in ([services/authService.js]) *)

Module AuthService.










End AuthService.

(** ** Routes ([routes/auth.js], [routes/rfid.js], [routes/users.js],
    [routes/reservations.js])

    The service objects are constructed at start-up, so the [503] branches
    are not modelled. *)

Inductive Reply (A : Type) :=
| replyOk (code : nat) (data : A)
| replyError (code : nat) (error : string).
Arguments replyOk {A} code data.
Arguments replyError {A} code error.



Module AuthRoutes.


End AuthRoutes.

Module RfidRoutes.

(** [GET /history] *)
Definition history : M (Reply (list ScanEntry)) :=
  tryCatch
    (await history := RFIDService.getScanHistory in
     ret (replyOk 200 history))
    (fun _ => ret (replyError 500 "Failed to get scan history")).

(** [POST /manual-scan]; the reply carries the UID back. *)
Definition manualScan (uid : option string) : M (Reply string) :=
  tryCatch
    (match uid with
     | None => ret (replyError 400 "UID is required")
     | Some u =>
         if String.eqb u "" then ret (replyError 400 "UID is required")
         else
           await w := getWorld in
           if negb (mockMode (rfid w)) then
             ret (replyError 400 "Manual scan only available in mock mode")
           else
             RFIDService.simulateScan (Given (StringUid u)) >>
             ret (replyOk 200 u)
     end)
    (fun error =>
       ret (replyError 500 (Js.or_str (Some (message error))
                                      "Manual scan failed"))).

End RfidRoutes.

Module UserRoutes.


(** [GET /:id] *)
Definition byId (id : ObjectId) : M (Reply User.t) :=
  tryCatch
    (await user := UserService.getUserById id in
     match user with
     | None => ret (replyError 404 "User not found")
     | Some u => ret (replyOk 200 u)
     end)
    (fun error =>
       ret (replyError 500 (Js.or_str (Some (message error))
                                      "Failed to get user"))).

End UserRoutes.

Module ReservationRoutes.

(** [GET /user/:userId/today] *)
Definition today (userId : ObjectId) : M (Reply (list PopulatedReservation)) :=
  tryCatch
    (await reservations := ReservationService.getTodayReservations userId in
     ret (replyOk 200 reservations))
    (fun _ => ret (replyError 500 "Failed to get reservations")).

(** [POST /:id/confirm] *)
Definition confirm (id : ObjectId) : M (Reply ConfirmResult) :=
  tryCatch
    (await result := ReservationService.confirmReservation id true in
     ret (replyOk 200 result))
    (fun error =>
       ret (replyError 400 (Js.or_str (Some (message error))
                                      "Failed to confirm reservation"))).

(** [GET /:id] *)
Definition byId (id : ObjectId) : M (Reply PopulatedReservation) :=
  tryCatch
    (await reservation := ReservationService.getReservationById id in
     match reservation with
     | None => ret (replyError 404 "Reservation not found")
     | Some r => ret (replyOk 200 r)
     end)
    (fun _ => ret (replyError 500 "Failed to get reservation")).

End ReservationRoutes.

(** * Properties *)

(** ** Reasoning about handlers *)

(** [m] changes nothing but the record store, the failure schedule and the
    storage log. *)
Definition sameShell (w w' : World) : Prop :=
  emitted w' = emitted w /\ rfid w' = rfid w /\
  clock w' = clock w /\ process_env w' = process_env w.

Definition storeOnly {A} (m : M A) : Prop :=
  forall w, sameShell w (snd (m w)).

(** [m] always returns normally. *)
Definition neverThrows {A} (m : M A) : Prop :=
  forall w, exists a, fst (m w) = Returned a.

(** What the User Directory answers for [uid] in world [w]: nothing when
    the lookup fails, else the first active person with that UID. *)
Definition resolve (uid : string) (w : World) : option (nat * User.t) :=
  if hd false (faults w) then None
  else List.find (activeWithUid uid) (map_to_list (users (db w))).

(** Identity of a scan-history entry: UID and timestamp. *)
Definition scanKey (e : ScanEntry) : string * Date :=
  (scan_uid e, scan_timestamp e).

(** The UID index of the person collection is unique. *)
Definition uidUnique (m : gmap nat User.t) : Prop :=
  forall i j a b,
    m !! i = Some a -> m !! j = Some b -> User.uid a = User.uid b -> i = j.

(** A denial that reports the inactive-account branch of the access check. *)
Definition inactiveDenial (r : ScanResult) : Prop :=
  match r with
  | AccessDenied _ _ _ _ status _ => status = Some "Account is inactive"
  | _ => False
  end.

(** Runs of the terminal.  [Trace w0 keys w]: from [w0] the process reached
    [w], having put the scans [keys] (most recent first) through the
    pipeline.  Between scans anything may happen to the world (other
    handlers, the clock, the store, a scan that comes without a UID) except
    a write to the scan history, which only the pipeline owns. *)
Inductive Trace (w0 : World) : list (string * Date) -> World -> Prop :=
| trace_start : Trace w0 [] w0
| trace_scan keys w uid :
    Trace w0 keys w ->
    Trace w0 ((RFIDService.uidString uid, clock w) :: keys)
             (snd (RFIDService.processCardScan (Given uid) w))
| trace_other keys w w' :
    Trace w0 keys w ->
    scanHistory (rfid w') = scanHistory (rfid w) ->
    Trace w0 keys w'.

(** *** A sample terminal

    One active person with card [A1B2], one food item and one pending lunch
    reservation for today (3.50 for 2 units), on a station in mock mode. *)

Definition sampleEnv : Env :=
  mkEnv None None None (Some "true") None None (fun _ _ => 0)
        (fun _ => "<number>") (fun _ => "<date>").

Definition noBlock : BlockInfo := mkBlockInfo "" "" None None None false.

Definition alice : User.t :=
  User.mk "A1B2" "Alice" "5A" student "alice@example.org" "female"
          true None 0 false noBlock.

Definition soup : Food.t := Food.mk "Soup" "lunch" 3.5%float true true.

Definition sampleNoon : Date := 86400000 * 20000 + 43200000.

Definition booking : MealReservation.t :=
  MealReservation.mk 7 1 10 (86400000 * 20000 + 3600000) 2%float lunch ""
    pending 3.5%float None None None "" "" None.

Definition sampleDb : Db :=
  mkDb {[ 1%nat := alice ]} {[ 10%nat := soup ]}
       {[ 7%nat := Parent.mk "Pat" "pat@example.org" ]}
       {[ 100%nat := booking ]} [].

Definition sampleWorld : World :=
  mkWorld sampleDb (RFIDService.construct sampleEnv) sampleNoon sampleEnv
          [] [] [].

(** The acceptance test as the specification words it: the advertised name
    contains the configured device family name, compared without regard to
    case. *)
Definition matchesConfigured (cfg : ReaderConfig) (name : string) : bool :=
  Js.includes (Js.toLowerCase name) (Js.toLowerCase (readerName cfg)).

(** The service object after a reader called [name] has been accepted. *)
Definition accepted (name : string) (r : Rfid) : Rfid :=
  mkRfid (Some (HardwareReader name)) true (lastScanTime r) (scanHistory r)
         (mockMode r) (readerConfig r) (cardHandlers r ++ [name]).

(** Blocked until one hour before [sampleNoon]. *)
Definition lapsedBlock : BlockInfo :=
  mkBlockInfo "Unpaid balance" "" (Some (sampleNoon - 86400000)) (Some 3%nat)
              (Some (sampleNoon - 3600000)) false.

(** An active person whose block has lapsed, and the same person
    deactivated. *)
Definition bob : User.t :=
  User.mk "C3D4" "Bob" "6B" student "bob@example.org" "male"
          true None 4 true lapsedBlock.

Definition bobDeactivated : User.t :=
  User.mk "C3D4" "Bob" "6B" student "bob@example.org" "male"
          false None 4 true lapsedBlock.

(** The calendar date the local clock shows at the instant [t], as a day
    number. *)
Definition localDate (env : Env) (t : Date) : Z := Day (LocalTime env t).


(** The instant at which the local clock reads [ms] milliseconds past
    midnight on the day [day]. *)
Definition localInstant (env : Env) (day ms : Z) : Date :=
  UTC env (day * msPerDay + ms).

(** The day of [today] is an ordinary one in the host's time zone: the
    local date never goes back as time passes; the instants the zone gives
    for midnight and for the last millisecond of today's date do lie on
    that date; and the instants just before and just after lie on other
    dates.  A day with a change of offset (daylight saving), 23 or 25 hours
    long, is ordinary too, unless the change sets the clock back across
    midnight. *)
Definition ordinaryDay (env : Env) (today : Date) : Prop :=
  let first := localInstant env (localDate env today) 0 in
  let last := localInstant env (localDate env today) (msPerDay - 1) in
  (forall u v, u <= v -> localDate env u <= localDate env v) /\
  localDate env first = localDate env today /\
  localDate env last = localDate env today /\
  localDate env (first - 1) < localDate env today /\
  localDate env today < localDate env (last + 1).






(** [m] leaves the component [f] of the world as it was. *)
Definition preserves {A B} (f : World -> B) (m : M A) : Prop :=
  forall w, f (snd (m w)) = f w.

(** The Purchase schema accepts a document with these validated fields. *)
Definition schemaAccepts (env : Env) (userId : ObjectId)
    (uid userName userCategory : string) (items : list PurchaseItem)
    (totalAmount : float) (paymentMethod : option string) : Prop :=
  Purchase_validate env
    (mkPurchaseInput (Some userId) uid userName userCategory items totalAmount
                     None None None None paymentMethod None None None None)
  = [].

(** A request for two soups at 3.50, and variations of it. *)
Definition twoSoups : list PurchaseItem :=
  [mkItem 10 "Soup" 3.5%float 2%float 7%float].

Definition cashRequest (total : float) (paid : option float) : PurchaseData :=
  mkPurchaseData (Some 1%nat) "A1B2" "Alice" (Some "student") (Some twoSoups)
                 total (Some "cash") paid None None None None.

(** Two soups paid in cash with 3.00 tendered, and two soups on the
    monthly bill submitted with a total of 5.00. *)
Definition shortCash : PurchaseData := cashRequest 7 (Some 3%float).

Definition wrongTotal : PurchaseData :=
  mkPurchaseData (Some 1%nat) "A1B2" "Alice" (Some "student") (Some twoSoups)
                 5%float (Some "monthly_billing") None None None None None.

(** A free item, and a cash request for it with nothing tendered. *)
Definition water : Food.t := Food.mk "Water" "drinks" 0%float true true.

Definition freeRequest : PurchaseData :=
  mkPurchaseData (Some 1%nat) "A1B2" "Alice" (Some "student")
                 (Some [mkItem 11 "Water" 0%float 1%float 0%float])
                 0%float (Some "cash") (Some 0%float) None None None None.

Definition freeWorld : World :=
  set_db (mkDb (users sampleDb) (<[11%nat := water]> (foods sampleDb))
               (parents sampleDb) (reservations sampleDb) []) sampleWorld.

(** The cost of a reservation as the specification words it: the actual
    cost if one is recorded, else the estimate. *)
Definition recordedCost (r : MealReservation.t) : float :=
  match MealReservation.actualCost r with
  | Some c => c
  | None => MealReservation.estimatedCost r
  end.

(** The line item a served reservation is billed with. *)
Definition billedItem (r : MealReservation.t) (food : Food.t) (price : float)
  : PurchaseItem :=
  mkItem (MealReservation.foodId r) (Js.trim (Food.name food)) price
         (MealReservation.quantity r)
         (price * MealReservation.quantity r)%float.

(** The sample reservation with an actual cost of 0 recorded (a meal given
    free of charge), and the terminal holding it. *)
Definition compedBooking : MealReservation.t :=
  MealReservation.mk 7 1 10 (86400000 * 20000 + 3600000) 2%float lunch ""
    pending 3.5%float (Some 0%float) None None "" "" None.

Definition compedWorld : World :=
  set_db (set_reservations {[ 100%nat := compedBooking ]} sampleDb) sampleWorld.

(** A terminal whose only person is the deactivated one. *)
Definition inactiveWorld : World :=
  set_db (set_users {[ 2%nat := bobDeactivated ]} sampleDb) sampleWorld.

(** *** Vocabulary for the further properties *)

(** The verdict of the access check at time [t], and the document as the
    caller sees it afterwards, when the write of a lapsed block fails
    ([writeFails]) or succeeds. *)
Definition verdict (t : Date) (writeFails : bool) (u : User.t)
  : AccessCheck * User.t :=
  if negb (User.isActive u) then (UserService.inactive, u)
  else if User.isBlocked u then
    if UserService.blockExpired t u then
      (if writeFails then UserService.systemError else UserService.allow,
       User.clearBlock u)
    else (UserService.blocked u, u)
  else (UserService.allow, u).

(** The answer of the query of [getTodayReservations] on a store. *)
Definition todayList (d : Db) (env : Env) (today : Date) (userId : ObjectId)
  : list PopulatedReservation :=
  map (populate d)
    (sortBy (fun a b => slotThenDate (snd a) (snd b))
       (List.filter
          (fun doc => todayQuery userId (startOfDay env today)
                                 (endOfDay env today) (snd doc))
          (map_to_list (reservations d)))).

(** Everything in the store but the person collection is the same. *)
Definition sameButUsers (d d' : Db) : Prop :=
  foods d' = foods d /\ parents d' = parents d /\
  reservations d' = reservations d /\ purchases d' = purchases d.

(** A terminal whose only person is [bob], at noon (block lapsed) and two
    hours earlier (block in force). *)
Definition bobWorld : World :=
  set_db (set_users {[ 2%nat := bob ]} sampleDb) sampleWorld.


(** [bobWorld] with the next storage call scheduled to fail. *)
Definition bobWorldFailing : World :=
  mkWorld (db bobWorld) (rfid bobWorld) sampleNoon sampleEnv [true] [] [].

(** Two soups for 7.00 on the monthly bill, for [alice] and for a person id
    with no record. *)
Definition billingRequest : PurchaseData :=
  mkPurchaseData (Some 1%nat) "A1B2" "Alice" (Some "student") (Some twoSoups)
                 7%float (Some "monthly_billing") None None None
                 (Some "tray 4") None.

Definition strangerRequest : PurchaseData :=
  mkPurchaseData (Some 9%nat) "FFFF" "Nobody" None (Some twoSoups)
                 7%float (Some "monthly_billing") None None None None None.

(** A request the Purchase schema rejects on three counts: a blank person
    name, a negative total and an item with a negative price. *)
Definition badSoup : list PurchaseItem :=
  [mkItem 10 "Soup" (-1)%float 2%float 7%float].

Definition malformedRequest : PurchaseData :=
  mkPurchaseData (Some 1%nat) "A1B2" "  " (Some "student") (Some badSoup)
                 (-7)%float (Some "monthly_billing") None None None None None.

(** [sampleWorld] with the second storage call from now scheduled to fail. *)
Definition secondCallFails : World :=
  mkWorld sampleDb (rfid sampleWorld) sampleNoon sampleEnv [false; true] [] [].

(** The validation errors the Purchase schema reports for these fields. *)
Definition schemaErrors (env : Env) (userId : ObjectId)
    (uid userName userCategory : string) (items : list PurchaseItem)
    (totalAmount : float) (paymentMethod : option string)
  : list (string * string) :=
  Purchase_validate env
    (mkPurchaseInput (Some userId) uid userName userCategory items totalAmount
                     None None None None paymentMethod None None None None).

(** A cash request with an empty basket. *)
Definition emptyBasket : PurchaseData :=
  mkPurchaseData (Some 1%nat) "A1B2" "Alice" None (Some []) 0%float
                 (Some "cash") (Some 5%float) None None None None.

(** The distance between two prices, as the code computes it, exceeds the
    tolerance of 0.01. *)
Definition pricesDiffer (a b : float) : bool :=
  PrimFloat.ltb 0.01 (PrimFloat.abs (a - b)).

(** What [validatePurchaseItems] checks of one item against the food
    catalogue: the food exists, is available and active, and the item's
    price does not differ from the catalogue price. *)
Definition catalogueAccepts (d : Db) (item : PurchaseItem) : Prop :=
  exists food,
    foods d !! item_foodId item = Some food /\
    Food.isAvailable food = true /\ Food.isActive food = true /\
    pricesDiffer (item_price item) (Food.price food) = false.

(** The storage calls of a validation that reaches every item. *)
Definition lookupsOf (items : list PurchaseItem) : list DbOp :=
  map (fun item => FoodFindById (item_foodId item)) items.

(** An item whose name and quantity disagree with everything on record. *)
Definition oddSoup : PurchaseItem :=
  mkItem 10 "Caviar" 3.5%float (-3)%float 1000%float.

(** Why [confirmReservation] refuses a reservation before it writes
    anything, if it does. *)
Definition refusal (found : option MealReservation.t) : option string :=
  match found with
  | None => Some "Reservation not found"
  | Some r =>
      match MealReservation.status r with
      | served => Some "Reservation has already been served"
      | cancelled => Some "Cannot confirm a cancelled reservation"
      | _ => None
      end
  end.

(** [sampleWorld] with [booking] made for a person who has no record. *)
Definition orphanBooking : MealReservation.t :=
  MealReservation.mk 7 5 10 (86400000 * 20000 + 3600000) 2%float lunch ""
    pending 3.5%float None None None "" "" None.

Definition orphanWorld : World :=
  set_db (set_reservations {[ 100%nat := orphanBooking ]} sampleDb) sampleWorld.

(** [sampleWorld] with [booking] cancelled. *)
Definition cancelledBooking : MealReservation.t :=
  MealReservation.mk 7 1 10 (86400000 * 20000 + 3600000) 2%float lunch ""
    cancelled 3.5%float None None None "" "" None.

Definition cancelledWorld : World :=
  set_db (set_reservations {[ 100%nat := cancelledBooking ]} sampleDb)
         sampleWorld.

(** A terminal configured for the hardware reader. *)
Definition hardwareEnv : Env :=
  mkEnv None None None None None None (fun _ _ => 0)
        (fun _ => "<number>") (fun _ => "<date>").

Definition hardwareWorld : World :=
  mkWorld sampleDb (RFIDService.construct hardwareEnv) sampleNoon hardwareEnv
          [] [] [].


(** ** Basic facts *)

Lemma sameShell_refl w : sameShell w w.
Proof. repeat split. Qed.

Lemma sameShell_trans w1 w2 w3 :
  sameShell w1 w2 -> sameShell w2 w3 -> sameShell w1 w3.
Proof.
  intros (a1 & b1 & c1 & d1) (a2 & b2 & c2 & d2).
  repeat split; congruence.
Qed.

Lemma storeOnly_ret {A} (a : A) : storeOnly (ret a).
Proof. intros w. apply sameShell_refl. Qed.

Lemma storeOnly_throw {A} e : storeOnly (@throw A e).
Proof. intros w. apply sameShell_refl. Qed.

Lemma storeOnly_bind {A B} (m : M A) (k : A -> M B) :
  storeOnly m -> (forall a, storeOnly (k a)) -> storeOnly (bind m k).
Proof.
  intros Hm Hk w. unfold bind. specialize (Hm w).
  destruct (m w) as [[a | e] w1]; simpl in *; [| exact Hm].
  eapply sameShell_trans; [exact Hm | apply Hk].
Qed.

Lemma storeOnly_tryCatch {A} (m : M A) (h : JsError -> M A) :
  storeOnly m -> (forall e, storeOnly (h e)) -> storeOnly (tryCatch m h).
Proof.
  intros Hm Hh w. unfold tryCatch. specialize (Hm w).
  destruct (m w) as [[a | e] w1]; simpl in *; [exact Hm |].
  eapply sameShell_trans; [exact Hm | apply Hh].
Qed.

Lemma storeOnly_storage op : storeOnly (storage op).
Proof.
  intros w. unfold storage.
  destruct (faults w) as [| [] ?]; repeat split.
Qed.

Lemma storeOnly_readDb : storeOnly readDb.
Proof. intros w. apply sameShell_refl. Qed.

Lemma storeOnly_writeDb f : storeOnly (writeDb f).
Proof. intros w. repeat split. Qed.

Lemma storeOnly_now : storeOnly now.
Proof. intros w. apply sameShell_refl. Qed.

Lemma storeOnly_getEnv : storeOnly getEnv.
Proof. intros w. apply sameShell_refl. Qed.

Create HintDb frame.
#[local] Hint Resolve storeOnly_ret storeOnly_throw storeOnly_storage
  storeOnly_readDb storeOnly_writeDb storeOnly_now storeOnly_getEnv : frame.

(** Walks through a handler built from binds, catches and case splits. *)
Ltac frame :=
  repeat first
    [ progress intros
    | solve [auto with frame]
    | apply storeOnly_bind
    | apply storeOnly_tryCatch
    | match goal with
      | |- storeOnly (match ?x with _ => _ end) => destruct x
      | |- storeOnly (if ?b then _ else _) => destruct b
      | |- storeOnly (let _ := _ in _) => cbv zeta
      end ].

Lemma neverThrows_ret {A} (a : A) : neverThrows (ret a).
Proof. intros w. now exists a. Qed.

Lemma neverThrows_tryCatch {A} (m : M A) (h : JsError -> M A) :
  (forall e, neverThrows (h e)) -> neverThrows (tryCatch m h).
Proof.
  intros Hh w. unfold tryCatch.
  destruct (m w) as [[a | e] w1]; simpl; [now exists a | apply Hh].
Qed.

(** A computation that never throws and stays within the store can be
    stepped over. *)
Lemma step_over {A} (m : M A) w :
  neverThrows m -> storeOnly m ->
  exists a w', m w = (Returned a, w') /\ sameShell w w'.
Proof.
  intros Hn Hs. destruct (Hn w) as [a Ha]. specialize (Hs w).
  destruct (m w) as [o w']. simpl in *. subst o. now exists a, w'.
Qed.

(** *** The User Directory stays within the store and never throws *)

Lemma getUserByUID_storeOnly u : storeOnly (UserService.getUserByUID u).
Proof. unfold UserService.getUserByUID, User_findOne. frame. Qed.

Lemma getUserByUID_neverThrows u : neverThrows (UserService.getUserByUID u).
Proof. apply neverThrows_tryCatch. intros e. apply neverThrows_ret. Qed.

Lemma updateLastScan_storeOnly id : storeOnly (UserService.updateLastScan id).
Proof. unfold UserService.updateLastScan, User_findById, User_save. frame. Qed.

Lemma updateLastScan_neverThrows id :
  neverThrows (UserService.updateLastScan id).
Proof. apply neverThrows_tryCatch. intros e. apply neverThrows_ret. Qed.

Lemma validateUserAccess_storeOnly id u :
  storeOnly (UserService.validateUserAccess id u).
Proof. unfold UserService.validateUserAccess, User_save. frame. Qed.

Lemma validateUserAccess_neverThrows id u :
  neverThrows (UserService.validateUserAccess id u).
Proof.
  unfold UserService.validateUserAccess. intros w.
  destruct (negb (User.isActive u)); [eexists; reflexivity |].
  destruct (User.isBlocked u); [| eexists; reflexivity].
  unfold bind, now. simpl.
  destruct (UserService.blockExpired (clock w) u); [| eexists; reflexivity].
  apply neverThrows_tryCatch. intros e. apply neverThrows_ret.
Qed.

Lemma getTodayReservations_storeOnly id :
  storeOnly (ReservationService.getTodayReservations id).
Proof.
  unfold ReservationService.getTodayReservations, MealReservation_find. frame.
Qed.

Lemma getTodayReservations_neverThrows id :
  neverThrows (ReservationService.getTodayReservations id).
Proof. apply neverThrows_tryCatch. intros e. apply neverThrows_ret. Qed.

Lemma getUserByUID_run u w :
  UserService.getUserByUID u w = (Returned (resolve u w), tick (UserFindOne u) w).
Proof.
  unfold UserService.getUserByUID, User_findOne, resolve, tryCatch, bind, storage, readDb, ret.
  destruct (faults w) as [| [] fs]; simpl; try reflexivity;
    destruct (List.find _ _); reflexivity.
Qed.

Lemma resolve_active u w id usr :
  resolve u w = Some (id, usr) ->
  User.isActive usr = true /\ User.uid usr = Js.trim u /\
  users (db w) !! id = Some usr.
Proof.
  unfold resolve. destruct (hd false (faults w)); [discriminate |].
  intros H. apply List.find_some in H as [Hin Hp].
  unfold activeWithUid in Hp. simpl in Hp.
  apply andb_prop in Hp as [Hu Ha].
  apply String.eqb_eq in Hu.
  repeat split; auto.
  apply elem_of_map_to_list. apply list_elem_of_In. exact Hin.
Qed.

Lemma scanKey_alter i l :
  map scanKey (alter RFIDService.setProcessed i l) = map scanKey l.
Proof.
  revert i. induction l as [| e l IH]; intros [| i]; simpl; try reflexivity.
  f_equal. apply IH.
Qed.

Lemma pushScan_head e h : exists h', RFIDService.pushScan e h = e :: h'.
Proof.
  unfold RFIDService.pushScan. destruct (100 <? length (e :: h))%nat; simpl; eauto.
Qed.

Lemma validateUserAccess_run id usr w :
  exists ac usr' w',
    UserService.validateUserAccess id usr w = (Returned (ac, usr'), w') /\
    sameShell w w' /\
    (User.isActive usr = true -> ac_reason ac <> Some "Account is inactive").
Proof.
  destruct (step_over (UserService.validateUserAccess id usr) w
              (validateUserAccess_neverThrows id usr)
              (validateUserAccess_storeOnly id usr)) as ([ac usr'] & w' & E & S).
  exists ac, usr', w'. repeat split; try apply S; auto.
  intros Ha. revert E. unfold UserService.validateUserAccess.
  rewrite Ha. simpl.
  destruct (User.isBlocked usr).
  - cbv [bind now tryCatch User_save storage writeDb modify ret].
    destruct (UserService.blockExpired (clock w) usr).
    + destruct (faults w) as [| [] ?]; simpl; intros E; inversion E; subst; discriminate.
    + intros E; inversion E; subst; discriminate.
  - intros E; inversion E; subst; discriminate.
Qed.

Lemma findIndex_head {A} (f : A -> bool) x l :
  f x = true -> findIndex f (x :: l) = Some 0%nat.
Proof. intros H. simpl. now rewrite H. Qed.

Lemma processCardScan_run uid w :
  let u := RFIDService.uidString uid in
  let t := clock w in
  exists r w',
    RFIDService.processCardScan (Given uid) w = (Returned tt, w') /\
    emitted w' = (emitted w ++ [cardScanned u t; scanResult r])%list /\
    clock w' = clock w /\ process_env w' = process_env w /\
    map scanKey (scanHistory (rfid w')) =
      map scanKey (RFIDService.pushScan (mkScan u t false) (scanHistory (rfid w))) /\
    match resolve u w with
    | None =>
        r = UserNotFound u t /\ db w' = db w /\
        dblog w' = (dblog w ++ [UserFindOne u])%list
    | Some (id, usr) =>
        (exists m n i s, r = AccessDenied u m n i s t /\
                         s <> Some "Account is inactive") \/
        (exists v l c st, r = ScanSuccess u v l t c st)
    end.
Proof.
  intros u t.
  unfold RFIDService.processCardScan.
  cbv [tryCatch bind now RFIDService.setLastScanTime RFIDService.readProperty
       ret RFIDService.recordScan emit modify getEnv];
    cbn [rfid set_rfid reader connected lastScanTime scanHistory mockMode
         readerConfig cardHandlers db clock process_env faults dblog emitted].
  fold u. fold t.
  rewrite getUserByUID_run.
  match goal with |- context [resolve u ?w1] => change (resolve u w1) with (resolve u w) end.
  destruct (resolve u w) as [[id usr] |] eqn:R.
  2:{ eexists _, _. split; [reflexivity |]. cbn. rewrite <- app_assoc. repeat split. }
  apply resolve_active in R as (Hact & _ & _).
  match goal with |- context [UserService.validateUserAccess id usr ?w1] =>
    destruct (validateUserAccess_run id usr w1) as (ac & usr' & w2 & E & S2 & Hr);
    rewrite E end.
  cbn [fst snd].
  destruct S2 as (Se & Sr & Sc & Sv). cbn in Se, Sr, Sc, Sv.
  destruct (negb (canAccess ac)).
  { eexists _, _. split; [reflexivity |]. cbn.
    rewrite Se, Sr, Sc, Sv, <- app_assoc. cbn. fold t.
    repeat split. left. eexists _, _, _, _. split; [reflexivity | auto]. }
  destruct (step_over (ReservationService.getTodayReservations id) w2
              (getTodayReservations_neverThrows id)
              (getTodayReservations_storeOnly id)) as (l & w3 & E3 & Se3 & Sr3 & Sc3 & Sv3).
  rewrite E3.
  unfold RFIDService.markProcessed. cbv [modify]. cbv beta.
  rewrite Sr3, Sr. cbn [scanHistory].
  destruct (pushScan_head (mkScan u t false) (scanHistory (rfid w))) as [h' Hh].
  rewrite Hh.
  rewrite findIndex_head by (cbn; apply String.eqb_refl).
  match goal with |- context [UserService.updateLastScan id ?w4] =>
    destruct (step_over (UserService.updateLastScan id) w4
                (updateLastScan_neverThrows id)
                (updateLastScan_storeOnly id)) as (b & w5 & E5 & Se5 & Sr5 & Sc5 & Sv5);
    rewrite E5 end.
  cbn in Se5, Sr5, Sc5, Sv5.
  eexists _, _. split; [reflexivity |].
  rewrite Se5, Sr5, Sc5, Sv5, Se3, Sc3, Sv3, Se, Sc, Sv, <- app_assoc. cbn. fold t.
  repeat split. right. eexists _, _, _, _. reflexivity.
Qed.

(** ** Scan pipeline *)

Lemma resolve_none_of_inactive u w :
  (forall id usr, users (db w) !! id = Some usr -> User.uid usr = Js.trim u ->
                  User.isActive usr = false) ->
  resolve u w = None.
Proof.
  intros H. unfold resolve. destruct (hd false (faults w)); [reflexivity |].
  destruct (List.find _ _) as [[id usr] |] eqn:F; [| reflexivity].
  apply List.find_some in F as [Hin Hp].
  unfold activeWithUid in Hp. simpl in Hp.
  apply andb_prop in Hp as [Hu Ha]. apply String.eqb_eq in Hu.
  apply list_elem_of_In, elem_of_map_to_list in Hin.
  rewrite (H id usr Hin Hu) in Ha. discriminate.
Qed.

(** C5.  A scan whose UID the User Directory does not resolve emits the
    in-progress event and the terminal "User not found" result and stops:
    the only storage call is the person lookup (no reservation query), and
    the record store, hence every person's scan counter and last-scan
    timestamp, is left as it was. *)
Theorem unknown_uid_stops_after_lookup (uid : RawUid) (w : World) :
  fst (UserService.getUserByUID (RFIDService.uidString uid) w) = Returned None ->
  exists w',
    RFIDService.processCardScan (Given uid) w = (Returned tt, w') /\
    emitted w' =
      (emitted w ++
       [cardScanned (RFIDService.uidString uid) (clock w);
        scanResult (UserNotFound (RFIDService.uidString uid) (clock w))])%list /\
    dblog w' = (dblog w ++ [UserFindOne (RFIDService.uidString uid)])%list /\
    db w' = db w /\
    users (db w') = users (db w).
Proof.
  rewrite getUserByUID_run. cbn [fst]. intros [= R].
  destruct (processCardScan_run uid w) as (r & w' & E & Hem & _ & _ & _ & Hres).
  rewrite R in Hres. destruct Hres as (-> & Hdb & Hlog).
  exists w'. rewrite Hdb. auto.
Qed.

(** Scans that come with a UID.  Every such run of the pipeline returns
    normally and adds exactly two events, the in-progress [cardScanned]
    event followed by one terminal [scanResult]; the card handler, the
    manual trigger (also as the socket command reaches it) and, in mock
    mode, the simulated scan are the same computation. *)
Lemma scan_emits_progress_then_one_result (uid : RawUid) (w : World) :
  (exists r w',
     RFIDService.processCardScan (Given uid) w = (Returned tt, w') /\
     emitted w' =
       (emitted w ++
        [cardScanned (RFIDService.uidString uid) (clock w); scanResult r])%list) /\
  RFIDService.onCard (Given uid) w = RFIDService.processCardScan (Given uid) w /\
  (forall socketId,
     RFIDService.processManualScan (Given uid) socketId w =
     RFIDService.processCardScan (Given uid) w /\
     Server.onManualScan socketId (Given uid) w = RFIDService.processCardScan (Given uid) w) /\
  (mockMode (rfid w) = true ->
   RFIDService.simulateScan (Given uid) w = RFIDService.processCardScan (Given uid) w).
Proof.
  destruct (processCardScan_run uid w) as (r & w' & E & Hem & _).
  split; [exists r, w'; auto |].
  split; [unfold RFIDService.onCard, tryCatch; now rewrite E |].
  split.
  { intros socketId. split; [reflexivity |].
    unfold Server.onManualScan, RFIDService.processManualScan, tryCatch.
    now rewrite E. }
  intros Hm. unfold RFIDService.simulateScan, bind, getWorld.
  now rewrite Hm.
Qed.

(** C9, at the failing input.  When the socket command [manualScan]
    arrives without a [uid], the pipeline is entered with [undefined]: it
    stores the scan time, fails at [uid.toString] and fails there again in
    its own [catch], so it throws without having emitted the in-progress
    event or any terminal [scanResult]; the scan history is as before.  The
    socket handler turns the error into one [scanError] for the calling
    client, and that is all that is emitted. *)
Theorem scan_without_uid_emits_no_result (socketId : string) (w : World) :
  exists w1 w2,
    RFIDService.processCardScan jsUndefined w =
      (Thrown
         (TypeError
            "Cannot read properties of undefined (reading 'toString')"), w1) /\
    emitted w1 = emitted w /\
    scanHistory (rfid w1) = scanHistory (rfid w) /\
    lastScanTime (rfid w1) = Some (clock w) /\
    db w1 = db w /\
    Server.onManualScan socketId jsUndefined w = (Returned tt, w2) /\
    emitted w2 =
      (emitted w ++
       [toClient socketId
          (scanError "Failed to process manual scan"
             "Cannot read properties of undefined (reading 'toString')")])%list.
Proof.
  eexists _, _. split; [reflexivity |].
  repeat split.
Qed.

(** A scan without a UID leaves the scan history alone, whether [uid] is
    [null] or [undefined]. *)
Lemma scan_without_uid_keeps_history (uid : Nullable RawUid) (w : World) :
  (forall value, uid <> Given value) ->
  scanHistory (rfid (snd (RFIDService.processCardScan uid w))) =
    scanHistory (rfid w) /\
  emitted (snd (RFIDService.processCardScan uid w)) = emitted w /\
  exists m, fst (RFIDService.processCardScan uid w) = Thrown (TypeError m).
Proof.
  intros H. destruct uid as [| | value]; [| | now destruct (H value)].
  all: repeat split; eexists; reflexivity.
Qed.

Lemma scan_never_reports_inactive (uid : Nullable RawUid) w r :
  In (scanResult r) (emitted (snd (RFIDService.processCardScan uid w))) ->
  ~ In (scanResult r) (emitted w) ->
  ~ inactiveDenial r.
Proof.
  destruct uid as [| | uid]; [intros H Hn; now destruct Hn ..|].
  destruct (processCardScan_run uid w) as (r0 & w' & E & Hem & _ & _ & _ & Hres).
  rewrite E. cbn [snd]. rewrite Hem. intros Hin Hold.
  apply in_app_or in Hin as [Hin | Hin]; [contradiction |].
  destruct Hin as [Hin | [Hin | []]]; [discriminate |].
  injection Hin as <-.
  destruct (resolve _ w) as [[id usr] |].
  - destruct Hres as [(m & n & i & s & -> & Hs) | (v & l & c & st & ->)];
      simpl; auto.
  - destruct Hres as (-> & _). simpl. auto.
Qed.

(** C10.  When the card's UID (as the lookup reads it: upper-cased by the
    pipeline, trimmed by the filter) belongs to a stored person whose
    activity flag is false, the scan ends in the "User not found" result;
    and no scan whatsoever ends in a denial for an inactive account, because
    the lookup only returns active persons. *)
Theorem inactive_person_scans_as_not_found
    (uid : RawUid) (w : World) (id : ObjectId) (usr : User.t) :
  uidUnique (users (db w)) ->
  users (db w) !! id = Some usr ->
  User.uid usr = Js.trim (RFIDService.uidString uid) ->
  User.isActive usr = false ->
  (exists w',
     RFIDService.processCardScan (Given uid) w = (Returned tt, w') /\
     emitted w' =
       (emitted w ++
        [cardScanned (RFIDService.uidString uid) (clock w);
         scanResult (UserNotFound (RFIDService.uidString uid) (clock w))])%list /\
     sr_error (UserNotFound (RFIDService.uidString uid) (clock w)) =
       Some "User not found") /\
  (forall uid0 w0 r,
     In (scanResult r) (emitted (snd (RFIDService.processCardScan uid0 w0))) ->
     ~ In (scanResult r) (emitted w0) ->
     ~ inactiveDenial r).
Proof.
  intros Huniq Hid Huid Hact. split; [| apply scan_never_reports_inactive].
  assert (R : resolve (RFIDService.uidString uid) w = None).
  { apply resolve_none_of_inactive. intros j b Hj Hb.
    assert (j = id) as -> by (eapply Huniq; eauto; congruence).
    congruence. }
  destruct (processCardScan_run uid w) as (r & w' & E & Hem & _ & _ & _ & Hres).
  rewrite R in Hres. destruct Hres as (-> & _).
  exists w'. auto.
Qed.

(** ** Scan history *)

Lemma pushScan_take e h : RFIDService.pushScan e h = take 100 (e :: h).
Proof.
  unfold RFIDService.pushScan.
  destruct (100 <? length (e :: h))%nat eqn:L; [reflexivity |].
  apply Nat.ltb_ge in L. symmetry. apply take_ge. exact L.
Qed.

Lemma take_cons_take {A} n (k : A) ks :
  take (S n) (k :: take (S n) ks) = take (S n) (k :: ks).
Proof.
  cbn [take]. f_equal. rewrite take_take. f_equal. lia.
Qed.

Lemma pushScan_keys e h keys :
  map scanKey h = take 100 keys ->
  map scanKey (RFIDService.pushScan e h) = take 100 (scanKey e :: keys).
Proof.
  intros H. rewrite pushScan_take.
  change (map scanKey (take 100 (e :: h))) with (scanKey <$> take 100 (e :: h)).
  change (scanKey <$> h = take 100 keys) in H.
  rewrite fmap_take, fmap_cons, H. apply (take_cons_take 99).
Qed.

(** C6.  From the state the constructor sets up, whatever scans are
    processed and whatever else happens in between, the scan history holds
    at most 100 entries, and they are exactly the 100 most recent scans,
    newest first. *)
Theorem scan_history_keeps_latest_100
    (w0 w : World) (keys : list (string * Date)) :
  rfid w0 = RFIDService.construct (process_env w0) ->
  Trace w0 keys w ->
  (length (scanHistory (rfid w)) <= 100)%nat /\
  map scanKey (scanHistory (rfid w)) = take 100 keys.
Proof.
  intros Hinit Htr.
  assert (Hk : map scanKey (scanHistory (rfid w)) = take 100 keys).
  { induction Htr as [| keys w uid Htr IH | keys w w' Htr IH Hsame].
    - rewrite Hinit. reflexivity.
    - destruct (processCardScan_run uid w)
        as (r & w' & E & _ & _ & _ & Hh & _).
      rewrite E. cbn [snd]. rewrite Hh.
      apply (pushScan_keys (mkScan _ _ false)). exact IH.
    - rewrite Hsame. exact IH. }
  split; [| exact Hk].
  rewrite <- (length_map scanKey), Hk, length_take. lia.
Qed.

Lemma scan_history_keeps_latest_100_witness :
  (length (scanHistory (rfid
     (snd (RFIDService.processCardScan (Given (StringUid "a1b2")) sampleWorld))))
   <= 100)%nat /\
  map scanKey (scanHistory (rfid
     (snd (RFIDService.processCardScan (Given (StringUid "a1b2")) sampleWorld)))) =
  take 100 [("A1B2", sampleNoon)].
Proof.
  apply (scan_history_keeps_latest_100 sampleWorld _ _ eq_refl
           (trace_scan sampleWorld [] sampleWorld (StringUid "a1b2")
              (trace_start sampleWorld))).
Defined.

(** ** Reader discovery *)

(** C7, as stated, fails in both directions.  With the default
    configuration (family name [ACR1252]) a reader advertising
    ["ACS ACR122U PICC"] does not match the configured name but is
    accepted; with the family name configured as ["OMNIKEY"] a reader
    advertising ["OMNIKEY 5022"] matches it but is ignored. *)
Lemma reader_match_ignores_configured_name :
  (matchesConfigured (readerConfig (rfid sampleWorld)) "ACS ACR122U PICC" = false /\
   connected (rfid (snd (RFIDService.onReader "ACS ACR122U PICC" sampleWorld)))
     = true) /\
  (let w := set_rfid (mkRfid None false None [] false
                        (mkReaderConfig "OMNIKEY" false false) []) sampleWorld in
   matchesConfigured (readerConfig (rfid w)) "OMNIKEY 5022" = true /\
   RFIDService.onReader "OMNIKEY 5022" w = (Returned tt, w)).
Proof. repeat split. Qed.

(** C7, amended.  A discovered reader is accepted (connection recorded,
    [rfidConnected] emitted, card handlers attached) exactly when its
    lower-cased name contains ["acr"], ["1252"] or ["nfc"]; any other reader
    leaves the service untouched and raises nothing.  The configured reader
    name plays no part. *)
Theorem reader_accepted_iff_name_has_known_fragment (name : string) (w : World) :
  (RFIDService.isTargetReader name = true <->
   Js.includes (Js.toLowerCase name) "acr" = true \/
   Js.includes (Js.toLowerCase name) "1252" = true \/
   Js.includes (Js.toLowerCase name) "nfc" = true) /\
  (RFIDService.isTargetReader name = true ->
   exists w',
     RFIDService.onReader name w = (Returned tt, w') /\
     rfid w' = accepted name (rfid w) /\
     emitted w' = (emitted w ++ [rfidConnected name (clock w)])%list /\
     db w' = db w) /\
  (RFIDService.isTargetReader name = false ->
   RFIDService.onReader name w = (Returned tt, w)).
Proof.
  split; [| split].
  - unfold RFIDService.isTargetReader.
    rewrite !orb_true_iff. tauto.
  - intros H. unfold RFIDService.onReader. rewrite H.
    eexists. split; [reflexivity |]. cbn. auto.
  - intros H. unfold RFIDService.onReader. now rewrite H.
Qed.

(** ** Access check *)

(** C4, as stated, fails for a deactivated person: blocked, with an expiry
    in the past, and still denied, with nothing written. *)
Lemma lapsed_block_of_inactive_person_is_denied :
  User.isBlocked bobDeactivated = true /\
  expiresAt (User.blockInfo bobDeactivated) = Some (sampleNoon - 3600000) /\
  sampleNoon - 3600000 < clock sampleWorld /\
  UserService.validateUserAccess 2 bobDeactivated sampleWorld =
    (Returned (UserService.inactive, bobDeactivated), sampleWorld) /\
  canAccess UserService.inactive = false.
Proof. repeat split. Qed.

(** C4, amended.  For a blocked person:
    - if the person is active, the expiry is set and lies in the past, and
      the store accepts the write, the check grants access, hands back the
      document with every block field reset and stores that document;
    - if no expiry is set, or the expiry is not in the past, the check
      denies access with a reason and changes nothing. *)
Theorem access_check_on_blocked_person
    (userId : ObjectId) (usr : User.t) (w : World) :
  User.isBlocked usr = true ->
  (forall e,
     expiresAt (User.blockInfo usr) = Some e -> e < clock w ->
     User.isActive usr = true -> hd false (faults w) = false ->
     exists ac usr' w',
       UserService.validateUserAccess userId usr w = (Returned (ac, usr'), w') /\
       canAccess ac = true /\
       User.isBlocked usr' = false /\
       User.blockInfo usr' = mkBlockInfo "" "" None None None false /\
       users (db w') !! userId = Some usr' /\
       dblog w' = (dblog w ++ [UserSave userId])%list) /\
  (expiresAt (User.blockInfo usr) = None \/
   (exists e, expiresAt (User.blockInfo usr) = Some e /\ clock w <= e) ->
   exists ac why,
     UserService.validateUserAccess userId usr w = (Returned (ac, usr), w) /\
     canAccess ac = false /\
     ac_reason ac = Some why).
Proof.
  intros Hb. split.
  - intros e He Hlt Ha Hf.
    unfold UserService.validateUserAccess.
    rewrite Ha, Hb. cbn [negb].
    cbv [bind now]. unfold UserService.blockExpired. rewrite He.
    apply Z.ltb_lt in Hlt. rewrite Hlt.
    cbv [tryCatch bind User_save storage writeDb modify ret].
    destruct (faults w) as [| [] fs] eqn:F; try discriminate;
      (eexists _, _, _; split; [reflexivity |]);
      cbn; rewrite lookup_insert_eq; auto 10.
  - intros Hexp.
    unfold UserService.validateUserAccess. rewrite Hb.
    destruct (User.isActive usr); cbn [negb].
    + cbv [bind now].
      assert (UserService.blockExpired (clock w) usr = false) as ->.
      { unfold UserService.blockExpired.
        destruct Hexp as [-> | (e & -> & Hle)]; [reflexivity |].
        apply Z.ltb_ge. exact Hle. }
      eexists _, _. repeat split.
    + eexists _, _. repeat split.
Qed.

Lemma access_check_on_blocked_person_witness :
  exists ac usr' w',
    UserService.validateUserAccess 2 bob sampleWorld = (Returned (ac, usr'), w') /\
    canAccess ac = true /\
    User.isBlocked usr' = false /\
    User.blockInfo usr' = mkBlockInfo "" "" None None None false /\
    users (db w') !! 2%nat = Some usr' /\
    dblog w' = (dblog sampleWorld ++ [UserSave 2])%list.
Proof.
  apply (proj1 (access_check_on_blocked_person 2 bob sampleWorld eq_refl)
           (sampleNoon - 3600000)); reflexivity.
Defined.

(** ** Today's reservations *)

Section SortFacts.
Context {A : Type} (le : A -> A -> bool).
Hypothesis le_total : forall a b, le a b = true \/ le b a = true.





End SortFacts.






(** Every day is ordinary where local time has a fixed offset from UTC. *)
Lemma fixed_offset_day_is_ordinary env offset today :
  (forall t isUTC, LocalTZA env t isUTC = offset) ->
  ordinaryDay env today.
Proof.
  intros Hz.
  unfold ordinaryDay, localInstant, localDate, LocalTime, UTC, Day, msPerDay.
  rewrite !Hz.
  repeat split; try intros u v Huv; rewrite ?Hz;
    Z.div_mod_to_equations; lia.
Qed.












(** ** Purchase ledger *)

Lemma preserves_ret {A B} (f : World -> B) (a : A) : preserves f (ret a).
Proof. now intros w. Qed.

Lemma preserves_throw {A B} (f : World -> B) e : preserves f (@throw A e).
Proof. now intros w. Qed.

Lemma preserves_bind {A B C} (f : World -> C) (m : M A) (k : A -> M B) :
  preserves f m -> (forall a, preserves f (k a)) -> preserves f (bind m k).
Proof.
  intros Hm Hk w. unfold bind. specialize (Hm w).
  destruct (m w) as [[a | e] w1]; simpl in *; [| exact Hm].
  rewrite Hk. exact Hm.
Qed.

Lemma preserves_tryCatch {A C} (f : World -> C) (m : M A) h :
  preserves f m -> (forall e, preserves f (h e)) -> preserves f (tryCatch m h).
Proof.
  intros Hm Hh w. unfold tryCatch. specialize (Hm w).
  destruct (m w) as [[a | e] w1]; simpl in *; [exact Hm |].
  rewrite Hh. exact Hm.
Qed.

Lemma storage_keeps_db op : preserves db (storage op).
Proof. intros w. unfold storage. now destruct (faults w) as [| [] ?]. Qed.

Lemma storage_keeps_clock op : preserves clock (storage op).
Proof. intros w. unfold storage. now destruct (faults w) as [| [] ?]. Qed.

Lemma storage_keeps_env op : preserves process_env (storage op).
Proof. intros w. unfold storage. now destruct (faults w) as [| [] ?]. Qed.

Section ReadOnlyValidation.
Context {B : Type} (f : World -> B).
Hypothesis storage_keeps : forall op, preserves f (storage op).

Lemma Food_findById_preserves id : preserves f (Food_findById id).
Proof.
  apply preserves_bind; [apply storage_keeps |].
  intros _. apply preserves_bind; [now intros w |].
  intros d. apply preserves_ret.
Qed.

Lemma checkItem_preserves env item food :
  preserves f (PurchaseService.checkItem env item food).
Proof.
  unfold PurchaseService.checkItem.
  destruct food as [fd |]; [| apply preserves_throw].
  destruct (_ || _); [apply preserves_throw |].
  destruct (Js.gt _ _); [apply preserves_throw | apply preserves_ret].
Qed.

Lemma validatePurchaseItems_preserves items :
  preserves f (PurchaseService.validatePurchaseItems items).
Proof.
  induction items as [| item rest IH];
    cbn [PurchaseService.validatePurchaseItems].
  - apply preserves_ret.
  - apply preserves_bind; [apply Food_findById_preserves |]. intros food.
    apply preserves_bind; [now intros w |]. intros env.
    apply preserves_bind; [apply checkItem_preserves |]. intros _. exact IH.
Qed.
End ReadOnlyValidation.

Lemma validatePurchaseItems_keeps_db items :
  preserves db (PurchaseService.validatePurchaseItems items).
Proof. apply validatePurchaseItems_preserves, storage_keeps_db. Qed.

(** With no failure scheduled, none appears. *)
Lemma validatePurchaseItems_quiet items w :
  faults w = [] ->
  faults (snd (PurchaseService.validatePurchaseItems items w)) = [].
Proof.
  revert w. induction items as [| item rest IH]; intros w Hf; [exact Hf |].
  cbn [PurchaseService.validatePurchaseItems].
  cbv [bind Food_findById storage readDb ret getEnv]. rewrite Hf.
  unfold PurchaseService.checkItem.
  destruct (foods _ !! _) as [fd |]; [| now cbn; rewrite Hf].
  destruct (_ || _); [now cbn; rewrite Hf |].
  destruct (Js.gt _ _); [now cbn; rewrite Hf |].
  apply IH. cbn. now rewrite Hf.
Qed.

(** [calculateTotal] adds price times quantity to the running total, item
    after item, in double arithmetic. *)
Lemma calculateTotal_snoc (items : list PurchaseItem) (item : PurchaseItem) :
  PurchaseService.calculateTotal (items ++ [item]) =
    (PurchaseService.calculateTotal items +
     item_price item * item_quantity item)%float.
Proof. unfold PurchaseService.calculateTotal. now rewrite fold_left_app. Qed.

(** [POST /complete] answers every request whose submitted total is more
    than 0.01 away from the computed one (both as the handler computes and
    compares them, in doubles) with a 400 response and leaves the record
    store, so the purchases, as they were; when the checks before the
    comparison pass, the error is "Total amount mismatch". *)
Lemma route_rejects_total_mismatch
    (req_body : PurchaseData) (items : list PurchaseItem) (w : World) :
  pd_items req_body = Some items ->
  Js.gt (Js.abs (PurchaseService.calculateTotal items -
                 pd_totalAmount req_body)%float) 0.01%float = true ->
  exists error w',
    PurchaseRoutes.complete req_body w =
      (Returned (mkResponse 400 (Failure error)), w') /\
    db w' = db w /\
    purchases (db w') = purchases (db w) /\
    (pd_userId req_body <> None -> items <> [] ->
     isCash (pd_paymentMethod req_body) ||
     isMonthlyBilling (pd_paymentMethod req_body) = true ->
     fst (PurchaseService.validatePurchaseItems items w) = Returned true ->
     error = "Total amount mismatch").
Proof.
  intros Hitems Hdiff.
  unfold PurchaseRoutes.complete, PurchaseRoutes.badRequest.
  rewrite Hitems.
  destruct (pd_userId req_body) as [userId |].
  2:{ eexists _, _. split; [reflexivity |]. repeat split. intros; congruence. }
  destruct items as [| item rest].
  { eexists _, _. split; [reflexivity |]. repeat split. intros; congruence. }
  set (items := item :: rest) in *.
  destruct (isCash _ || isMonthlyBilling _).
  2:{ eexists _, _. split; [reflexivity |]. repeat split. intros; congruence. }
  cbn [negb]. cbv [tryCatch bind].
  pose proof (validatePurchaseItems_keeps_db items w) as Hdb.
  destruct (PurchaseService.validatePurchaseItems items w) as [[b | e] w1];
    cbn [snd] in Hdb.
  - rewrite Hdiff. eexists _, _. split; [reflexivity |].
    rewrite Hdb. repeat split.
  - eexists _, _. split; [reflexivity |].
    rewrite Hdb. repeat split. intros; discriminate.
Qed.

Lemma completePurchase_cash
    (purchaseData : PurchaseData) (items : list PurchaseItem)
    (userId : ObjectId) (paid : float) (w : World) :
  pd_userId purchaseData = Some userId ->
  pd_items purchaseData = Some items -> items <> [] ->
  isCash (pd_paymentMethod purchaseData) = true ->
  pd_paidAmount purchaseData = Some paid ->
  schemaAccepts (process_env w) userId (pd_uid purchaseData)
    (pd_userName purchaseData)
    (Js.or_str (pd_userCategory purchaseData) "student")
    items (pd_totalAmount purchaseData) (pd_paymentMethod purchaseData) ->
  faults w = [] ->
  exists result w',
    PurchaseService.completePurchase purchaseData w = (Returned result, w') /\
    purchases (db w') = (purchases (db w) ++ [res_purchase result])%list /\
    Purchase.paymentStatus (res_purchase result) = ps_paid /\
    Purchase.paidAt (res_purchase result) = Some (clock w) /\
    Purchase.cashAmount (res_purchase result) = Some paid /\
    Purchase.change (res_purchase result) =
      (if Js.gt paid (pd_totalAmount purchaseData)
       then Some (paid - pd_totalAmount purchaseData)%float else None) /\
    res_change result =
      (if Js.gt paid (pd_totalAmount purchaseData)
       then (paid - pd_totalAmount purchaseData)%float else 0%float) /\
    Purchase.items (res_purchase result) = map trimItem items /\
    Purchase.totalAmount (res_purchase result) = pd_totalAmount purchaseData.
Proof.
  intros Hu Hi Hne Hc Hp Hs Hf.
  unfold PurchaseService.completePurchase.
  rewrite Hu, Hi, Hp.
  destruct items as [| item rest]; [congruence |].
  set (items := item :: rest) in *.
  unfold PurchaseService.payment. rewrite Hc, Hp.
  cbv [tryCatch bind now getEnv].
  destruct (Js.gt paid (pd_totalAmount purchaseData)); cbv [ret].
  all: unfold Purchase_create; cbv [bind getEnv].
  all: match goal with
       | |- context [Purchase_validate ?e ?p] =>
           replace (Purchase_validate e p) with (@nil (string * string))
             by (symmetry; exact Hs)
       end.
  all: cbv [bind now storage writeDb modify ret User_findByIdAndUpdate].
  all: cbn [faults tick set_db]; rewrite Hf; cbn [tail faults tick set_db].
  all: rewrite ?Hf; cbn [tail faults tick set_db].
  all: eexists _, _; split; [reflexivity |]; cbn; auto 10.
Qed.

(** Two inputs of [POST /complete] at the edges of the cash test.  A cash
    request for a free item with a tendered amount of 0 is rejected as
    insufficient and nothing is persisted; a cash request that tenders
    exactly the total is persisted with no change recorded ([null]). *)
Lemma cash_route_at_zero_and_at_exact_amount :
  (pd_paidAmount freeRequest = Some 0%float /\
   pd_totalAmount freeRequest = 0%float /\
   exists w',
     PurchaseRoutes.complete freeRequest freeWorld =
       (Returned (mkResponse 400 (Failure "Insufficient cash amount")), w') /\
     purchases (db w') = []) /\
  (exists result w',
     PurchaseRoutes.complete (cashRequest 7 (Some 7%float)) sampleWorld =
       (Returned (mkResponse 200 (Completed result)), w') /\
     purchases (db w') = [res_purchase result] /\
     Purchase.paymentStatus (res_purchase result) = ps_paid /\
     Purchase.change (res_purchase result) = None).
Proof.
  split.
  - split; [reflexivity |]. split; [reflexivity |].
    eexists. split; [vm_compute; reflexivity | reflexivity].
  - eexists _, _. split; [vm_compute; reflexivity |]. repeat split.
Qed.

(** The cash test of [POST /complete].  For a cash request that passes the
    checks before it (person id and items present, items validated, total
    not more than 0.01 off, as the handler computes it):
    - if the tendered amount is missing, zero or less than the total, the
      answer is 400 "Insufficient cash amount" and no purchase is persisted;
    - otherwise, if the store accepts the record, one purchase is persisted
      with status [paid], the paid-at stamp and the tendered amount; the
      stored change is tendered minus total when tendered exceeds the total
      and [null] otherwise, and the change in the response is tendered
      minus total or 0. *)
Lemma route_cash_completion
    (req_body : PurchaseData) (items : list PurchaseItem)
    (userId : ObjectId) (w : World) :
  pd_userId req_body = Some userId ->
  pd_items req_body = Some items -> items <> [] ->
  isCash (pd_paymentMethod req_body) = true ->
  fst (PurchaseService.validatePurchaseItems items w) = Returned true ->
  Js.gt (Js.abs (PurchaseService.calculateTotal items -
                 pd_totalAmount req_body)%float) 0.01%float = false ->
  (Js.truthy_num (pd_paidAmount req_body) = false \/
   (exists paid, pd_paidAmount req_body = Some paid /\
                 Js.lt paid (pd_totalAmount req_body) = true) ->
   exists w',
     PurchaseRoutes.complete req_body w =
       (Returned (mkResponse 400 (Failure "Insufficient cash amount")), w') /\
     db w' = db w /\
     purchases (db w') = purchases (db w)) /\
  (forall paid,
     pd_paidAmount req_body = Some paid ->
     Js.truthy paid = true ->
     Js.lt paid (pd_totalAmount req_body) = false ->
     schemaAccepts (process_env w) userId (pd_uid req_body)
       (pd_userName req_body) (Js.or_str (pd_userCategory req_body) "student")
       items (pd_totalAmount req_body) (pd_paymentMethod req_body) ->
     faults w = [] ->
     exists result w',
       PurchaseRoutes.complete req_body w =
         (Returned (mkResponse 200 (Completed result)), w') /\
       purchases (db w') = (purchases (db w) ++ [res_purchase result])%list /\
       Purchase.paymentStatus (res_purchase result) = ps_paid /\
       Purchase.paidAt (res_purchase result) = Some (clock w) /\
       Purchase.cashAmount (res_purchase result) = Some paid /\
       Purchase.change (res_purchase result) =
         (if Js.gt paid (pd_totalAmount req_body)
          then Some (paid - pd_totalAmount req_body)%float else None) /\
       res_change result =
         (if Js.gt paid (pd_totalAmount req_body)
          then (paid - pd_totalAmount req_body)%float else 0%float)).
Proof.
  intros Hu Hi Hne Hc Hv Hgt.
  pose proof (validatePurchaseItems_keeps_db items w) as Hdb.
  pose proof (validatePurchaseItems_preserves clock storage_keeps_clock items w)
    as Hclock.
  pose proof (validatePurchaseItems_preserves process_env storage_keeps_env
                items w) as Henv.
  pose proof (validatePurchaseItems_quiet items w) as Hquiet.
  unfold PurchaseRoutes.complete, PurchaseRoutes.badRequest.
  rewrite Hu, Hi.
  destruct items as [| item rest]; [congruence |].
  set (items := item :: rest) in *.
  rewrite Hc. cbn [orb negb andb]. unfold tryCatch, bind.
  revert Hv Hdb Hclock Henv Hquiet.
  destruct (PurchaseService.validatePurchaseItems items w) as [o w1].
  cbn [fst snd]. intros -> Hdb Hclock Henv Hquiet.
  rewrite Hgt.
  split.
  - intros Hlow.
    assert (negb (Js.truthy_num (pd_paidAmount req_body)) ||
            match pd_paidAmount req_body with
            | Some paid => Js.lt paid (pd_totalAmount req_body)
            | None => false
            end = true) as ->.
    { destruct Hlow as [-> | (paid & -> & Hlt)]; [reflexivity |].
      rewrite Hlt. apply orb_true_r. }
    exists w1. rewrite Hdb. repeat split.
  - intros paid Hp Hnz Hge Hs Hf.
    rewrite Hp. cbn [Js.truthy_num]. rewrite Hnz, Hge.
    cbn [negb orb].
    rewrite <- Henv in Hs.
    destruct (completePurchase_cash req_body items userId paid w1
                Hu Hi Hne Hc Hp Hs (Hquiet Hf))
      as (result & w' & E & Hpur & Hst & Hat & Hcash & Hch & Hrc & _).
    rewrite E.
    exists result, w'. split; [reflexivity |].
    rewrite Hpur, Hdb, Hst, Hat, Hclock, Hcash, Hch, Hrc.
    repeat split.
Qed.

(** ** Reservation workflow *)

Lemma categoryName_truthy c :
  Js.or_str (Some (categoryName c)) "student" = categoryName c.
Proof. now destruct c. Qed.

(** Unless the recorded actual cost is zero (or not a number), the cost
    the code bills is the one the specification describes. *)
Lemma cost_is_recorded_cost r :
  (forall c, MealReservation.actualCost r = Some c -> Js.truthy c = true) ->
  ReservationService.cost r = recordedCost r.
Proof.
  unfold ReservationService.cost, recordedCost, Js.or_num.
  destruct (MealReservation.actualCost r) as [c |]; [| reflexivity].
  intros H. now rewrite (H c eq_refl).
Qed.

Lemma createPurchase_run
    (purchaseService : bool) (pr : PopulatedReservation) (w : World)
    (sid fid : ObjectId) (person : User.t) (food : Food.t) :
  pr_student pr = Some (sid, person) ->
  pr_food pr = Some (fid, food) ->
  schemaAccepts (process_env w) sid (User.uid person) (User.name person)
    (categoryName (User.user_category person))
    [mkItem fid (Food.name food) (ReservationService.cost (pr_doc pr))
            (MealReservation.quantity (pr_doc pr))
            (ReservationService.cost (pr_doc pr) *
             MealReservation.quantity (pr_doc pr))%float]
    (ReservationService.cost (pr_doc pr) *
     MealReservation.quantity (pr_doc pr))%float None ->
  faults w = [] ->
  exists purchase w',
    ReservationService.createPurchase purchaseService pr w =
      (Returned purchase, w') /\
    purchases (db w') = (purchases (db w) ++ [purchase])%list /\
    reservations (db w') = reservations (db w) /\
    faults w' = [] /\
    Purchase.userId purchase = sid /\
    Purchase.items purchase =
      [mkItem fid (Js.trim (Food.name food))
              (ReservationService.cost (pr_doc pr))
              (MealReservation.quantity (pr_doc pr))
              (ReservationService.cost (pr_doc pr) *
               MealReservation.quantity (pr_doc pr))%float] /\
    Purchase.paymentStatus purchase = ps_pending.
Proof.
  intros Hp Hfd Hs Hf.
  unfold ReservationService.createPurchase. rewrite Hp, Hfd.
  cbv [bind getEnv now].
  destruct purchaseService.
  - unfold PurchaseService.completePurchase, ReservationService.purchaseDataOf.
    cbn [pd_items pd_userId pd_userCategory pd_paymentMethod pd_paidAmount
         pd_notes pd_uid pd_userName pd_totalAmount pd_cafeteriaStation
         pd_processedBy fst snd].
    unfold PurchaseService.payment.
    cbn [pd_paymentMethod isCash isMonthlyBilling].
    cbv [tryCatch bind now getEnv ret].
    unfold Purchase_create; cbv [bind getEnv].
    rewrite !categoryName_truthy.
    match goal with
    | |- context [Purchase_validate ?e ?p] =>
        replace (Purchase_validate e p) with (@nil (string * string))
          by (symmetry; exact Hs)
    end.
    cbv [bind now storage writeDb modify ret User_findByIdAndUpdate].
    cbn [faults tick set_db]; rewrite Hf; cbn [tail faults tick set_db].
    rewrite ?Hf; cbn [tail faults tick set_db].
    eexists _, _. split; [reflexivity |]. cbn. rewrite Hf. auto 10.
  - unfold Purchase_create, inputOfData, ReservationService.purchaseDataOf.
    cbv [bind getEnv].
    cbn [pd_items pd_userId pd_userCategory pd_paymentMethod pd_paidAmount
         pd_notes pd_uid pd_userName pd_totalAmount pd_cafeteriaStation
         pd_processedBy pd_paymentStatus fst snd default from_option id].
    rewrite !categoryName_truthy.
    match goal with
    | |- context [Purchase_validate ?e ?p] =>
        replace (Purchase_validate e p) with (@nil (string * string))
          by (symmetry; exact Hs)
    end.
    cbv [bind now storage writeDb modify ret].
    cbn [faults tick set_db]; rewrite Hf; cbn [tail faults tick set_db].
    eexists _, _. split; [reflexivity |]. cbn. rewrite Hf. auto 10.
Qed.

(** Confirming a reservation twice.  On a store that answers, for a
    reservation that exists, is neither served nor cancelled, whose person
    and food resolve and whose data the Purchase schema accepts, the first
    call marks it served and appends exactly one purchase, billed with the
    reservation's food, quantity and cost and left [pending]; the second call
    throws "Reservation has already been served" and appends nothing. *)
Lemma confirm_then_confirm_again
    (reservationId : ObjectId) (purchaseService : bool) (w : World)
    (r : MealReservation.t) (person : User.t) (food : Food.t) :
  reservations (db w) !! reservationId = Some r ->
  MealReservation.status r <> served ->
  MealReservation.status r <> cancelled ->
  users (db w) !! MealReservation.studentId r = Some person ->
  foods (db w) !! MealReservation.foodId r = Some food ->
  schemaAccepts (process_env w) (MealReservation.studentId r)
    (User.uid person) (User.name person)
    (categoryName (User.user_category person))
    [mkItem (MealReservation.foodId r) (Food.name food)
            (ReservationService.cost r) (MealReservation.quantity r)
            (ReservationService.cost r * MealReservation.quantity r)%float]
    (ReservationService.cost r * MealReservation.quantity r)%float None ->
  faults w = [] ->
  exists result purchase w1,
    ReservationService.confirmReservation reservationId purchaseService w =
      (Returned result, w1) /\
    cr_purchase result = Some purchase /\
    (exists r1, reservations (db w1) !! reservationId = Some r1 /\
                MealReservation.status r1 = served /\
                MealReservation.servedAt r1 = Some (clock w)) /\
    purchases (db w1) = (purchases (db w) ++ [purchase])%list /\
    Purchase.userId purchase = MealReservation.studentId r /\
    Purchase.items purchase = [billedItem r food (ReservationService.cost r)] /\
    Purchase.paymentStatus purchase = ps_pending /\
    exists w2,
      ReservationService.confirmReservation reservationId purchaseService w1 =
        (Thrown (Error "Reservation has already been served"), w2) /\
      purchases (db w2) = purchases (db w1).
Proof.
  intros Hr Hns Hnc Hp Hfd Hs Hf.
  unfold ReservationService.confirmReservation at 1.
  unfold MealReservation_findById.
  cbv [tryCatch bind storage readDb ret getEnv]. rewrite Hf.
  cbn [db tick]. rewrite Hr.
  cbn [pr_doc populate snd fst].
  destruct (MealReservation.status r) eqn:St; try congruence.
  all: unfold ReservationService.markServedByRFID, MealReservation_save.
  all: cbv [bind now storage writeDb modify ret].
  all: cbn [faults tick set_db tail]; rewrite ?Hf; cbn [tail].
  all: match goal with
       | |- context [ReservationService.createPurchase ?ps ?pr ?w1] =>
           destruct (createPurchase_run ps pr w1 _ _ person food
                       ltac:(cbn; unfold withId; rewrite Hp; reflexivity)
                       ltac:(cbn; unfold withId; rewrite Hfd; reflexivity)
                       Hs ltac:(cbn; now rewrite Hf))
             as (purchase & w2 & E & Hpur & Hres & Hf2 & Hid & Hit & Hst);
           rewrite E
       end.
  all: eexists _, purchase, w2; split; [reflexivity |].
  all: split; [reflexivity |].
  all: split; [eexists; rewrite Hres; cbn; rewrite lookup_insert_eq; auto |].
  all: rewrite Hpur; split; [reflexivity |].
  all: split; [exact Hid |]; split; [exact Hit |]; split; [exact Hst |].
  all: unfold ReservationService.confirmReservation, MealReservation_findById.
  all: cbv [tryCatch bind storage readDb ret getEnv]; rewrite Hf2.
  all: cbn [db tick]; rewrite Hres; cbn [db set_db set_reservations reservations tick].
  all: rewrite lookup_insert_eq; cbn.
  all: eexists; split; [reflexivity | exact Hpur].
Qed.


(** C1, at the failing input.  A reservation whose recorded actual cost is
    0, with an estimate of 3.50 for 2 units, is marked served and billed at
    the estimate: the purchase carries the unit price 3.50 and the total
    3.50 * 2, not the recorded actual cost. *)
Theorem confirm_bills_estimate_when_actual_cost_is_zero :
  MealReservation.actualCost compedBooking = Some 0%float /\
  MealReservation.estimatedCost compedBooking = 3.5%float /\
  recordedCost compedBooking = 0%float /\
  exists result purchase w',
    ReservationService.confirmReservation 100 true compedWorld =
      (Returned result, w') /\
    cr_purchase result = Some purchase /\
    purchases (db w') = [purchase] /\
    map item_price (Purchase.items purchase) = [3.5%float] /\
    Purchase.totalAmount purchase = (3.5%float * 2)%float /\
    Purchase.paymentStatus purchase = ps_pending.
Proof.
  repeat split.
  eexists _, _, _. split; [vm_compute; reflexivity |]. repeat split.
Qed.

(** ** Instances on the sample terminal *)

Lemma unknown_uid_stops_after_lookup_witness :
  exists w',
    RFIDService.processCardScan (Given (StringUid "ffff")) sampleWorld = (Returned tt, w') /\
    emitted w' =
      (emitted sampleWorld ++
       [cardScanned "FFFF" sampleNoon;
        scanResult (UserNotFound "FFFF" sampleNoon)])%list /\
    dblog w' = (dblog sampleWorld ++ [UserFindOne "FFFF"])%list /\
    db w' = db sampleWorld /\
    users (db w') = users (db sampleWorld).
Proof.
  apply (unknown_uid_stops_after_lookup (StringUid "ffff") sampleWorld).
  reflexivity.
Defined.

Lemma inactive_person_scans_as_not_found_witness :
  exists w',
    RFIDService.processCardScan (Given (StringUid "c3d4")) inactiveWorld =
      (Returned tt, w') /\
    emitted w' =
      (emitted inactiveWorld ++
       [cardScanned "C3D4" sampleNoon;
        scanResult (UserNotFound "C3D4" sampleNoon)])%list /\
    sr_error (UserNotFound "C3D4" sampleNoon) = Some "User not found".
Proof.
  refine (proj1 (inactive_person_scans_as_not_found
                   (StringUid "c3d4") inactiveWorld 2 bobDeactivated
                   _ eq_refl eq_refl eq_refl)).
  intros i j a b Hi Hj _.
  change (users (db inactiveWorld)) with ({[ 2%nat := bobDeactivated ]} : gmap nat User.t) in Hi, Hj.
  apply lookup_singleton_Some in Hi as [<- _].
  apply lookup_singleton_Some in Hj as [<- _].
  reflexivity.
Defined.

Example confirm_then_confirm_again_sample :
  exists result purchase w1,
    ReservationService.confirmReservation 100 true sampleWorld =
      (Returned result, w1) /\
    cr_purchase result = Some purchase /\
    (exists r1, reservations (db w1) !! 100%nat = Some r1 /\
                MealReservation.status r1 = served /\
                MealReservation.servedAt r1 = Some sampleNoon) /\
    purchases (db w1) = [purchase] /\
    Purchase.userId purchase = 1%nat /\
    Purchase.items purchase = [billedItem booking soup 3.5%float] /\
    Purchase.paymentStatus purchase = ps_pending /\
    exists w2,
      ReservationService.confirmReservation 100 true w1 =
        (Thrown (Error "Reservation has already been served"), w2) /\
      purchases (db w2) = purchases (db w1).
Proof.
  apply (confirm_then_confirm_again 100 true sampleWorld booking alice soup);
    try reflexivity; discriminate.
Qed.

(** ** The other handlers leave the scan history alone *)

Lemma validatePurchaseItems_storeOnly items :
  storeOnly (PurchaseService.validatePurchaseItems items).
Proof.
  induction items as [| item rest IH];
    cbn [PurchaseService.validatePurchaseItems]; [frame |].
  unfold Food_findById, PurchaseService.checkItem. frame.
Qed.

Lemma Purchase_create_storeOnly p : storeOnly (Purchase_create p).
Proof. unfold Purchase_create. frame. Qed.

Lemma completePurchase_storeOnly purchaseData :
  storeOnly (PurchaseService.completePurchase purchaseData).
Proof.
  unfold PurchaseService.completePurchase, PurchaseService.payment,
    User_findByIdAndUpdate.
  pose proof Purchase_create_storeOnly.
  frame.
Qed.

Lemma complete_storeOnly req_body : storeOnly (PurchaseRoutes.complete req_body).
Proof.
  unfold PurchaseRoutes.complete, PurchaseRoutes.badRequest.
  pose proof validatePurchaseItems_storeOnly.
  pose proof completePurchase_storeOnly.
  frame.
Qed.

Lemma confirmReservation_storeOnly reservationId purchaseService :
  storeOnly (ReservationService.confirmReservation reservationId purchaseService).
Proof.
  unfold ReservationService.confirmReservation, MealReservation_findById,
    ReservationService.markServedByRFID, MealReservation_save,
    ReservationService.createPurchase.
  pose proof Purchase_create_storeOnly.
  pose proof completePurchase_storeOnly.
  frame.
Qed.

(** Purchase completion, reservation confirmation and reader discovery are
    steps of the kind [trace_other] allows. *)
Lemma handlers_keep_scan_history w :
  (forall req_body,
     scanHistory (rfid (snd (PurchaseRoutes.complete req_body w))) =
     scanHistory (rfid w)) /\
  (forall reservationId purchaseService,
     scanHistory (rfid (snd (ReservationService.confirmReservation
                               reservationId purchaseService w))) =
     scanHistory (rfid w)) /\
  (forall name,
     scanHistory (rfid (snd (RFIDService.onReader name w))) =
     scanHistory (rfid w)).
Proof.
  split; [| split].
  - intros b. destruct (complete_storeOnly b w) as (_ & -> & _). reflexivity.
  - intros i p. destruct (confirmReservation_storeOnly i p w) as (_ & -> & _).
    reflexivity.
  - intros name. unfold RFIDService.onReader.
    destruct (RFIDService.isTargetReader name); reflexivity.
Qed.

(** ** Reader names under the default configuration *)

Lemma prefix_append_l (p q s : string) :
  String.prefix (p ++ q) s = true -> String.prefix p s = true.
Proof.
  revert s. induction p as [| a p IH]; intros s; [now destruct s |].
  destruct s as [| b s]; simpl; [discriminate |].
  destruct (ascii_dec a b); [apply IH | discriminate].
Qed.

Lemma includes_append_l (s p q : string) :
  Js.includes s (p ++ q) = true -> Js.includes s p = true.
Proof.
  induction s as [| c s IH]; cbn [Js.includes];
    rewrite !orb_true_iff; intros [H | H]; try discriminate.
  - left. eapply prefix_append_l, H.
  - left. eapply prefix_append_l, H.
  - right. auto.
Qed.

(** With the family name left at its default, [ACR1252], every reader that
    matches the configured name is among the accepted ones. *)
Lemma default_family_is_accepted (env : Env) (name : string) :
  RFID_READER_NAME env = None ->
  matchesConfigured (readerConfig (RFIDService.construct env)) name = true ->
  RFIDService.isTargetReader name = true.
Proof.
  unfold matchesConfigured, RFIDService.construct. cbn [readerConfig readerName].
  intros ->. cbn [Js.or_str]. intros H.
  unfold RFIDService.isTargetReader. apply orb_true_iff. left.
  apply orb_true_iff. left.
  apply (includes_append_l _ "acr" "1252"). exact H.
Qed.

(** ** The socket command for purchase completion *)

(** C2, at the failing input.  The checks of [POST /complete] belong to
    the route; the [completePurchase] command of the real-time channel
    hands its data to the purchase service directly.  A cash purchase of
    7.00 with 3.00 tendered, which the route answers with 400 "Insufficient
    cash amount" and does not persist, is persisted by the socket command
    as paid, with the tendered 3.00 recorded and no change, and reported to
    the client as completed. *)
Theorem socket_purchase_accepts_short_cash :
  Js.lt 3 7 = true /\
  (exists w',
     PurchaseRoutes.complete shortCash sampleWorld =
       (Returned (mkResponse 400 (Failure "Insufficient cash amount")), w') /\
     purchases (db w') = []) /\
  (exists w' result,
     Server.onCompletePurchase "client" shortCash sampleWorld =
       (Returned tt, w') /\
     emitted w' =
       [toClient "client" (purchaseCompleted result);
        purchaseUpdate result sampleNoon] /\
     purchases (db w') = [res_purchase result] /\
     Purchase.totalAmount (res_purchase result) = 7%float /\
     Purchase.cashAmount (res_purchase result) = Some 3%float /\
     Purchase.change (res_purchase result) = None /\
     Purchase.paymentStatus (res_purchase result) = ps_paid /\
     Purchase.paidAt (res_purchase result) = Some sampleNoon).
Proof.
  split; [reflexivity |]. split.
  - eexists. split; [vm_compute; reflexivity | reflexivity].
  - eexists _, _. split; [vm_compute; reflexivity |]. repeat split.
Qed.

(** C3, at the failing input.  [calculateTotal] gives 7.00 for two soups
    at 3.50.  Submitted with a total of 5.00, more than 0.01 away, the
    purchase is answered by [POST /complete] with 400 "Total amount
    mismatch" and not persisted, but the socket command [completePurchase],
    which compares nothing, persists it with the total 5.00. *)
Theorem socket_purchase_accepts_wrong_total :
  PurchaseService.calculateTotal twoSoups = 7%float /\
  Js.gt (Js.abs (PurchaseService.calculateTotal twoSoups -
                 pd_totalAmount wrongTotal)%float) 0.01%float = true /\
  (exists w',
     PurchaseRoutes.complete wrongTotal sampleWorld =
       (Returned (mkResponse 400 (Failure "Total amount mismatch")), w') /\
     purchases (db w') = []) /\
  (exists w' result,
     Server.onCompletePurchase "client" wrongTotal sampleWorld =
       (Returned tt, w') /\
     emitted w' =
       [toClient "client" (purchaseCompleted result);
        purchaseUpdate result sampleNoon] /\
     purchases (db w') = [res_purchase result] /\
     Purchase.items (res_purchase result) = twoSoups /\
     Purchase.totalAmount (res_purchase result) = 5%float).
Proof.
  split; [reflexivity |]. split; [reflexivity |]. split.
  - eexists. split; [vm_compute; reflexivity | reflexivity].
  - eexists _, _. split; [vm_compute; reflexivity |]. repeat split.
Qed.

(** * Further properties of the services *)

(** ** Exact runs of the User Directory and the reservation query *)

Lemma validateUserAccess_exact id u w :
  exists w',
    UserService.validateUserAccess id u w =
      (Returned (verdict (clock w) (hd false (faults w)) u), w') /\
    sameShell w w' /\ sameButUsers (db w) (db w') /\
    faults w' =
      (if User.isActive u && User.isBlocked u &&
          UserService.blockExpired (clock w) u
       then tail (faults w) else faults w) /\
    dblog w' =
      (if User.isActive u && User.isBlocked u &&
          UserService.blockExpired (clock w) u
       then dblog w ++ [UserSave id] else dblog w)%list /\
    users (db w') =
      (if User.isActive u && User.isBlocked u &&
          UserService.blockExpired (clock w) u && negb (hd false (faults w))
       then <[id := User.clearBlock u]> (users (db w)) else users (db w)).
Proof.
  unfold UserService.validateUserAccess, verdict.
  destruct (User.isActive u); cbn [negb andb];
    [| eexists; split; [reflexivity |]; repeat split ].
  destruct (User.isBlocked u); cbn [andb];
    [| eexists; split; [reflexivity |]; repeat split ].
  cbv [bind now].
  destruct (UserService.blockExpired (clock w) u); cbn [andb];
    [| eexists; split; [reflexivity |]; repeat split ].
  cbv [tryCatch bind User_save storage writeDb modify ret].
  destruct (faults w) as [| [] fs] eqn:F; cbn [hd negb];
    (eexists; split; [reflexivity |]); repeat split;
    cbn; rewrite ?F; reflexivity.
Qed.

Lemma getTodayReservations_exact id w :
  ReservationService.getTodayReservations id w =
    (Returned (if hd false (faults w) then []
               else todayList (db w) (process_env w) (clock w) id),
     tick (ReservationFind id) w).
Proof.
  unfold ReservationService.getTodayReservations, MealReservation_find, todayList.
  cbv [tryCatch bind now getEnv storage readDb ret].
  destruct (faults w) as [| [] fs]; reflexivity.
Qed.

Lemma updateLastScan_exact id w :
  exists b w',
    UserService.updateLastScan id w = (Returned b, w') /\
    sameShell w w' /\ sameButUsers (db w) (db w') /\
    (forall j, j <> id -> users (db w') !! j = users (db w) !! j) /\
    match users (db w) !! id with
    | Some usr =>
        match faults w with
        | [] | [false] | false :: false :: _ =>
            b = true /\
            users (db w') = <[id := User.touch (clock w) usr]> (users (db w))
        | _ => b = false /\ users (db w') = users (db w)
        end
    | None => b = false /\ users (db w') = users (db w)
    end.
Proof.
  unfold UserService.updateLastScan, User_findById, User_save.
  cbv [tryCatch bind now storage readDb writeDb modify ret].
  destruct (faults w) as [| [] [| [] fs]] eqn:F; cbn [db tick];
    destruct (users (db w) !! id) as [usr |] eqn:U; cbn [faults tick tail];
    rewrite ?F; cbn [tail];
    (eexists _, _; split; [reflexivity |]); repeat split;
    intros j Hj; cbn; now rewrite ?lookup_insert_ne by congruence.
Qed.

Lemma pushScan_cons e h : RFIDService.pushScan e h = e :: take 99 h.
Proof. rewrite pushScan_take. reflexivity. Qed.

(** ** What one scan does *)

Lemma processCardScan_full uid w :
  let u := RFIDService.uidString uid in
  let t := clock w in
  exists r w',
    RFIDService.processCardScan (Given uid) w = (Returned tt, w') /\
    emitted w' = (emitted w ++ [cardScanned u t; scanResult r])%list /\
    scanHistory (rfid w') =
      mkScan u t (sr_success r) :: take 99 (scanHistory (rfid w)) /\
    lastScanTime (rfid w') = Some t /\
    sameButUsers (db w) (db w') /\
    match resolve u w with
    | None => r = UserNotFound u t /\ users (db w') = users (db w)
    | Some (id, usr) =>
        let v := verdict t (hd false (tail (faults w))) usr in
        (forall j, j <> id -> users (db w') !! j = users (db w) !! j) /\
        if canAccess (fst v) then
          exists l,
            r = ScanSuccess u (RFIDService.userView id (snd v)) l t
                  (Js.or_str (CAFETERIA_NAME (process_env w)) "School Cafeteria")
                  (Js.or_str (STATION_ID (process_env w)) "STATION_001")
        else
          r = AccessDenied u (ac_message (fst v)) (User.name (snd v))
                (User.uid (snd v)) (ac_reason (fst v)) t
    end.
Proof.
  intros u t.
  unfold RFIDService.processCardScan.
  cbv [tryCatch bind now RFIDService.setLastScanTime RFIDService.readProperty
       ret RFIDService.recordScan emit modify getEnv];
    cbn [rfid set_rfid reader connected lastScanTime scanHistory mockMode
         readerConfig cardHandlers db clock process_env faults dblog emitted].
  fold u. fold t.
  rewrite getUserByUID_run.
  match goal with |- context [resolve u ?w1] => change (resolve u w1) with (resolve u w) end.
  rewrite pushScan_cons.
  destruct (resolve u w) as [[id usr] |] eqn:R.
  2:{ eexists _, _. split; [reflexivity |]. cbn. rewrite <- app_assoc.
      repeat split. }
  match goal with |- context [UserService.validateUserAccess id usr ?w1] =>
    destruct (validateUserAccess_exact id usr w1)
      as (w2 & E & (Se & Sr & Sc & Sv) & Sd & _ & _ & Su);
    rewrite E end.
  cbn in Se, Sr, Sc, Sv, Sd, Su.
  assert (Ho : forall j, j <> id -> users (db w2) !! j = users (db w) !! j).
  { intros j Hj. rewrite Su.
    destruct (_ && _); [| reflexivity]. now apply lookup_insert_ne. }
  cbn [fst snd clock tick faults set_rfid]. fold t.
  set (v := verdict t (hd false (tail (faults w))) usr) in *.
  destruct (canAccess (fst v)); cbn [negb].
  2:{ eexists _, _. split; [reflexivity |]. cbn.
      rewrite Se, Sr, Sc, <- app_assoc. cbn. fold t.
      repeat split; try apply Sd. exact Ho. }
  rewrite getTodayReservations_exact.
  unfold RFIDService.markProcessed. cbv [modify]. cbv beta.
  cbn [rfid tick]. rewrite Sr. cbn [scanHistory].
  rewrite findIndex_head by (cbn; apply String.eqb_refl).
  match goal with |- context [UserService.updateLastScan id ?w4] =>
    destruct (updateLastScan_exact id w4)
      as (b & w5 & E5 & (Se5 & Sr5 & Sc5 & Sv5) & Sd5 & So5 & _);
    rewrite E5 end.
  cbn in Se5, Sr5, Sc5, Sv5, Sd5, So5.
  eexists _, _. split; [reflexivity |].
  rewrite Se5, Sr5, Sc, Sv, Se, <- app_assoc. cbn. fold t.
  destruct Sd as (d1 & d2 & d3 & d4), Sd5 as (e1 & e2 & e3 & e4).
  repeat split; try congruence.
  - intros j Hj. rewrite So5 by exact Hj. now apply Ho.
  - eexists. reflexivity.
Qed.











Lemma take_take_50 {A} (l : list A) : take 50 (take 100 l) = take 50 l.
Proof. rewrite take_take. reflexivity. Qed.

(** X3.  On any run of the terminal from the constructor state,
    [getScanHistory] reports the 50 most recent scans, newest first, and
    changes nothing. *)
Theorem getScanHistory_reports_latest_50
    (w0 w : World) (keys : list (string * Date)) :
  rfid w0 = RFIDService.construct (process_env w0) ->
  Trace w0 keys w ->
  exists l,
    RFIDService.getScanHistory w = (Returned l, w) /\
    (length l <= 50)%nat /\
    map scanKey l = take 50 keys.
Proof.
  intros Hinit Htr.
  destruct (scan_history_keeps_latest_100 w0 w keys Hinit Htr) as [_ Hk].
  eexists. split; [reflexivity |]. split.
  - rewrite length_take. lia.
  - change (scanKey <$> take 50 (scanHistory (rfid w)) = take 50 keys).
    rewrite fmap_take.
    change (take 50 (map scanKey (scanHistory (rfid w))) = take 50 keys).
    rewrite Hk. apply take_take_50.
Qed.

Lemma getScanHistory_reports_latest_50_witness :
  exists l,
    RFIDService.getScanHistory
      (snd (RFIDService.processCardScan (Given (StringUid "a1b2")) sampleWorld)) =
      (Returned l,
       snd (RFIDService.processCardScan (Given (StringUid "a1b2")) sampleWorld)) /\
    (length l <= 50)%nat /\
    map scanKey l = take 50 [("A1B2", sampleNoon)].
Proof.
  apply (getScanHistory_reports_latest_50 sampleWorld _ _ eq_refl
           (trace_scan sampleWorld [] sampleWorld (StringUid "a1b2")
              (trace_start sampleWorld))).
Defined.

(** X4.  A scan writes to nothing but person records, and among those to
    none but the record the lookup returned for the card: foods, parents,
    reservations and purchases are as before, and so is every person the
    lookup did not return. *)
Theorem scan_writes_only_the_scanned_person (uid : RawUid) (w : World) :
  exists w',
    RFIDService.processCardScan (Given uid) w = (Returned tt, w') /\
    foods (db w') = foods (db w) /\
    parents (db w') = parents (db w) /\
    reservations (db w') = reservations (db w) /\
    purchases (db w') = purchases (db w) /\
    forall j,
      (forall usr,
         fst (UserService.getUserByUID (RFIDService.uidString uid) w)
           <> Returned (Some (j, usr))) ->
      users (db w') !! j = users (db w) !! j.
Proof.
  destruct (processCardScan_full uid w)
    as (r & w' & E & _ & _ & _ & (Hf & Hp & Hr & Hq) & Hres).
  exists w'. repeat split; auto.
  intros j Hj. rewrite getUserByUID_run in Hj. cbn [fst] in Hj.
  destruct (resolve _ w) as [[id usr] |].
  - destruct Hres as [Ho _]. apply Ho. intros ->. now apply (Hj usr).
  - destruct Hres as [_ ->]. reflexivity.
Qed.

(** Reduces the projections of the worlds a handler builds. *)
Ltac world_simpl :=
  cbn [faults tick set_rfid set_db tail db hd clock process_env rfid
       emitted dblog].






(** X7.  A scan of a card that resolves to a person whose block has
    lapsed, on a store that answers, clears the block on the way: the
    success result shows the person unblocked, and afterwards the stored
    record has every block field reset, the scan count one higher and the
    last-scan stamp set. *)
Theorem scan_clears_lapsed_block
    (uid : RawUid) (w : World) (id : ObjectId) (usr : User.t) :
  fst (UserService.getUserByUID (RFIDService.uidString uid) w)
    = Returned (Some (id, usr)) ->
  User.isBlocked usr = true ->
  UserService.blockExpired (clock w) usr = true ->
  faults w = [] ->
  exists w' l,
    RFIDService.processCardScan (Given uid) w = (Returned tt, w') /\
    emitted w' =
      (emitted w ++
       [cardScanned (RFIDService.uidString uid) (clock w);
        scanResult
          (ScanSuccess (RFIDService.uidString uid)
             (RFIDService.userView id (User.clearBlock usr)) l (clock w)
             (Js.or_str (CAFETERIA_NAME (process_env w)) "School Cafeteria")
             (Js.or_str (STATION_ID (process_env w)) "STATION_001"))])%list /\
    uv_isBlocked (RFIDService.userView id (User.clearBlock usr)) = false /\
    users (db w') !! id = Some (User.touch (clock w) (User.clearBlock usr)) /\
    User.isBlocked (User.touch (clock w) (User.clearBlock usr)) = false /\
    User.blockInfo (User.touch (clock w) (User.clearBlock usr)) =
      mkBlockInfo "" "" None None None false /\
    User.scanCount (User.touch (clock w) (User.clearBlock usr)) =
      User.scanCount usr + 1.
Proof.
  rewrite getUserByUID_run. cbn [fst]. intros [= R] Hb He Hf.
  pose proof (resolve_active _ _ _ _ R) as (Ha & Hu & Hl).
  unfold RFIDService.processCardScan.
  cbv [tryCatch bind now RFIDService.setLastScanTime RFIDService.readProperty
       ret RFIDService.recordScan emit modify getEnv];
    cbn [rfid set_rfid reader connected lastScanTime scanHistory mockMode
         readerConfig cardHandlers db clock process_env faults dblog emitted].
  rewrite getUserByUID_run.
  match goal with
  | |- context [resolve ?u ?w1] => change (resolve u w1) with (resolve u w)
  end.
  rewrite R, pushScan_cons.
  unfold UserService.validateUserAccess. rewrite Ha, Hb. cbn [negb].
  cbv [bind now]. world_simpl. rewrite He.
  cbv [tryCatch bind User_save storage writeDb modify ret].
  world_simpl. rewrite ?Hf. world_simpl.
  cbn [fst snd canAccess UserService.allow negb].
  rewrite getTodayReservations_exact.
  unfold RFIDService.markProcessed. cbv [modify]. cbv beta.
  cbn [rfid tick set_rfid set_db scanHistory].
  rewrite findIndex_head by (cbn; apply String.eqb_refl).
  unfold UserService.updateLastScan, User_findById, User_save.
  cbv [tryCatch bind now storage readDb writeDb modify ret].
  world_simpl. rewrite ?Hf. world_simpl.
  cbn [users set_users]. rewrite lookup_insert_eq.
  world_simpl. rewrite ?Hf. world_simpl.
  eexists _, _. split; [reflexivity |].
  cbn. rewrite <- !app_assoc, lookup_insert_eq. repeat split.
Qed.

Lemma scan_clears_lapsed_block_witness :
  exists w' l,
    RFIDService.processCardScan (Given (StringUid "c3d4")) bobWorld = (Returned tt, w') /\
    emitted w' =
      (emitted bobWorld ++
       [cardScanned "C3D4" sampleNoon;
        scanResult
          (ScanSuccess "C3D4" (RFIDService.userView 2 (User.clearBlock bob)) l
             sampleNoon "School Cafeteria" "STATION_001")])%list /\
    uv_isBlocked (RFIDService.userView 2 (User.clearBlock bob)) = false /\
    users (db w') !! 2%nat = Some (User.touch sampleNoon (User.clearBlock bob)) /\
    User.isBlocked (User.touch sampleNoon (User.clearBlock bob)) = false /\
    User.blockInfo (User.touch sampleNoon (User.clearBlock bob)) =
      mkBlockInfo "" "" None None None false /\
    User.scanCount (User.touch sampleNoon (User.clearBlock bob)) =
      User.scanCount bob + 1.
Proof.
  apply (scan_clears_lapsed_block (StringUid "c3d4") bobWorld 2 bob);
    reflexivity.
Defined.

(** ** User Directory *)

(** X8.  When the write that clears a lapsed block fails, the access
    check does not throw: it denies access with reason "System error", and
    the stored record stays blocked although the document handed back has
    its block fields reset. *)
Theorem access_check_when_unblock_write_fails
    (userId : ObjectId) (usr : User.t) (w : World) :
  User.isActive usr = true ->
  User.isBlocked usr = true ->
  UserService.blockExpired (clock w) usr = true ->
  hd false (faults w) = true ->
  exists w',
    UserService.validateUserAccess userId usr w =
      (Returned (UserService.systemError, User.clearBlock usr), w') /\
    canAccess UserService.systemError = false /\
    ac_reason UserService.systemError = Some "System error" /\
    db w' = db w /\
    dblog w' = (dblog w ++ [UserSave userId])%list.
Proof.
  intros Ha Hb He Hf.
  unfold UserService.validateUserAccess. rewrite Ha, Hb. cbn [negb].
  cbv [bind now]. rewrite He.
  cbv [tryCatch bind User_save storage writeDb modify ret].
  destruct (faults w) as [| [] fs]; try discriminate.
  eexists. split; [reflexivity |]. repeat split.
Qed.

Lemma access_check_when_unblock_write_fails_witness :
  exists w',
    UserService.validateUserAccess 2 bob bobWorldFailing =
      (Returned (UserService.systemError, User.clearBlock bob), w') /\
    canAccess UserService.systemError = false /\
    ac_reason UserService.systemError = Some "System error" /\
    db w' = db bobWorldFailing /\
    dblog w' = (dblog bobWorldFailing ++ [UserSave 2])%list.
Proof.
  apply (access_check_when_unblock_write_fails 2 bob bobWorldFailing);
    reflexivity.
Defined.

(** X9.  [updateLastScan] never throws and touches no other person.  If
    the person exists and both storage calls succeed it returns [true] and
    the stored record has the scan count incremented by one and the
    last-scan stamp set to the current time; if the person does not exist or
    a storage call fails it returns [false] and the persons are as before. *)
Theorem updateLastScan_outcome (userId : ObjectId) (w : World) :
  exists b w',
    UserService.updateLastScan userId w = (Returned b, w') /\
    (forall j, j <> userId -> users (db w') !! j = users (db w) !! j) /\
    purchases (db w') = purchases (db w) /\
    reservations (db w') = reservations (db w) /\
    match users (db w) !! userId with
    | Some usr =>
        match faults w with
        | [] | [false] | false :: false :: _ =>
            b = true /\
            users (db w') !! userId = Some (User.touch (clock w) usr) /\
            User.scanCount (User.touch (clock w) usr) = User.scanCount usr + 1 /\
            User.lastScanAt (User.touch (clock w) usr) = Some (clock w)
        | _ => b = false /\ users (db w') = users (db w)
        end
    | None => b = false /\ users (db w') = users (db w)
    end.
Proof.
  destruct (updateLastScan_exact userId w)
    as (b & w' & E & _ & (_ & _ & Hr & Hp) & Ho & Hm).
  exists b, w'. repeat split; auto.
  destruct (users (db w) !! userId) as [usr |]; [| exact Hm].
  destruct (faults w) as [| [] [| [] fs]]; try exact Hm;
    destruct Hm as [-> ->]; rewrite lookup_insert_eq; auto.
Qed.

(** X10.  The model method [canAccess] grants exactly the active persons
    that are not blocked, whatever the expiry: for a lapsed block it still
    says no, where the access check of the User Directory (given a store
    that answers) grants access. *)
Theorem model_canAccess_ignores_expiry (t : Date) (u : User.t) :
  User.canAccess t u = User.isActive u && negb (User.isBlocked u) /\
  (User.isActive u = true -> User.isBlocked u = true ->
   UserService.blockExpired t u = true ->
   User.canAccess t u = false /\
   canAccess (fst (verdict t false u)) = true).
Proof.
  unfold User.canAccess, verdict. split.
  - destruct (User.isActive u), (User.isBlocked u); cbn; try reflexivity.
    destruct (expiresAt _) as [e |]; [destruct (e <? t) |]; reflexivity.
  - intros -> -> ->. cbn.
    destruct (expiresAt _) as [e |]; [destruct (e <? t) |]; auto.
Qed.


(** ** Purchase ledger, continued *)

Lemma string_append_empty (s : string) : s ++ "" = s.
Proof.
  induction s as [| c s IH]; [reflexivity |].
  change (String c (s ++ "") = String c s). now f_equal.
Qed.

Lemma completePurchase_ok
    (purchaseData : PurchaseData) (items : list PurchaseItem)
    (userId : ObjectId) (w : World) :
  pd_userId purchaseData = Some userId ->
  pd_items purchaseData = Some items -> items <> [] ->
  (isCash (pd_paymentMethod purchaseData) = true ->
   pd_paidAmount purchaseData <> None) ->
  schemaAccepts (process_env w) userId (pd_uid purchaseData)
    (pd_userName purchaseData)
    (Js.or_str (pd_userCategory purchaseData) "student")
    items (pd_totalAmount purchaseData) (pd_paymentMethod purchaseData) ->
  faults w = [] ->
  exists result w',
    PurchaseService.completePurchase purchaseData w = (Returned result, w') /\
    purchases (db w') = (purchases (db w) ++ [res_purchase result])%list /\
    users (db w') = alter (User.touch (clock w)) userId (users (db w)) /\
    reservations (db w') = reservations (db w) /\
    dblog w' = (dblog w ++ [PurchaseSave; UserFindByIdAndUpdate userId])%list /\
    Purchase.userId (res_purchase result) = userId /\
    Purchase.totalAmount (res_purchase result) = pd_totalAmount purchaseData /\
    Purchase.items (res_purchase result) = map trimItem items /\
    Purchase.purchasedAt (res_purchase result) = clock w /\
    Purchase.paymentStatus (res_purchase result) =
      (if isCash (pd_paymentMethod purchaseData) then ps_paid else ps_pending) /\
    Purchase.paidAt (res_purchase result) =
      (if isCash (pd_paymentMethod purchaseData) then Some (clock w) else None) /\
    Purchase.cashAmount (res_purchase result) =
      (if isCash (pd_paymentMethod purchaseData)
       then pd_paidAmount purchaseData else None) /\
    (isCash (pd_paymentMethod purchaseData) = false ->
     Purchase.change (res_purchase result) = None /\
     res_change result = 0%float /\
     res_message result = "Purchase added to monthly bill" /\
     Purchase.notes (res_purchase result) =
       Js.trim
         (Js.or_str (pd_notes purchaseData) "" ++
          (if isMonthlyBilling (pd_paymentMethod purchaseData)
           then " | Added to monthly bill - parent will be charged"
           else ""))).
Proof.
  intros Hu Hi Hne Hc Hs Hf.
  unfold PurchaseService.completePurchase.
  rewrite Hu, Hi.
  destruct items as [| item rest]; [congruence |].
  set (items := item :: rest) in *.
  unfold PurchaseService.payment.
  cbv [tryCatch bind now getEnv].
  destruct (isCash (pd_paymentMethod purchaseData)) eqn:C.
  - destruct (pd_paidAmount purchaseData) as [paid |] eqn:P;
      [| now destruct (Hc eq_refl)].
    destruct (Js.gt paid (pd_totalAmount purchaseData)); cbv [ret].
    all: unfold Purchase_create; cbv [bind getEnv].
    all: match goal with
         | |- context [Purchase_validate ?e ?p] =>
             replace (Purchase_validate e p) with (@nil (string * string))
               by (symmetry; exact Hs)
         end.
    all: cbv [bind now storage writeDb modify ret User_findByIdAndUpdate].
    all: do 3 (world_simpl; rewrite ?Hf); world_simpl.
    all: eexists _, _; split; [reflexivity |]; cbn.
    all: rewrite <- ?app_assoc; repeat split; discriminate.
  - destruct (isMonthlyBilling (pd_paymentMethod purchaseData)) eqn:B;
      cbv [ret].
    all: unfold Purchase_create; cbv [bind getEnv].
    all: match goal with
         | |- context [Purchase_validate ?e ?p] =>
             replace (Purchase_validate e p) with (@nil (string * string))
               by (symmetry; exact Hs)
         end.
    all: cbv [bind now storage writeDb modify ret User_findByIdAndUpdate].
    all: do 3 (world_simpl; rewrite ?Hf); world_simpl.
    all: eexists _, _; split; [reflexivity |]; cbn.
    all: rewrite <- ?app_assoc; repeat split.
    all: try (destruct (pd_paidAmount purchaseData); reflexivity).
    now rewrite string_append_empty.
Qed.

Lemma monthly_is_not_cash m : isMonthlyBilling m = true -> isCash m = false.
Proof.
  destruct m as [s |]; [| discriminate]. cbn.
  intros H. apply String.eqb_eq in H. now subst.
Qed.

(** X12.  A purchase on the monthly bill, on a store that answers and for
    data the schema accepts, is persisted once with status [pending], no
    paid-at stamp, no cash amount and no change; the note "Added to monthly
    bill - parent will be charged" is appended to the notes and the response
    reports a change of 0. *)
Theorem monthly_billing_purchase_stays_pending
    (purchaseData : PurchaseData) (items : list PurchaseItem)
    (userId : ObjectId) (w : World) :
  pd_userId purchaseData = Some userId ->
  pd_items purchaseData = Some items -> items <> [] ->
  isMonthlyBilling (pd_paymentMethod purchaseData) = true ->
  schemaAccepts (process_env w) userId (pd_uid purchaseData)
    (pd_userName purchaseData)
    (Js.or_str (pd_userCategory purchaseData) "student")
    items (pd_totalAmount purchaseData) (pd_paymentMethod purchaseData) ->
  faults w = [] ->
  exists result w',
    PurchaseService.completePurchase purchaseData w = (Returned result, w') /\
    purchases (db w') = (purchases (db w) ++ [res_purchase result])%list /\
    Purchase.paymentStatus (res_purchase result) = ps_pending /\
    Purchase.paidAt (res_purchase result) = None /\
    Purchase.cashAmount (res_purchase result) = None /\
    Purchase.change (res_purchase result) = None /\
    Purchase.notes (res_purchase result) =
      Js.trim (Js.or_str (pd_notes purchaseData) "" ++
               " | Added to monthly bill - parent will be charged") /\
    res_message result = "Purchase added to monthly bill" /\
    res_change result = 0%float.
Proof.
  intros Hu Hi Hne Hm Hs Hf.
  pose proof (monthly_is_not_cash _ Hm) as Hc.
  destruct (completePurchase_ok purchaseData items userId w Hu Hi Hne
              ltac:(congruence) Hs Hf)
    as (result & w' & E & Hp & _ & _ & _ & _ & _ & _ & _ & Hst & Hat & Hca & Hn).
  rewrite Hc in *. rewrite Hm in Hn.
  destruct (Hn eq_refl) as (Hch & Hrc & Hmsg & Hnotes).
  exists result, w'. auto 10.
Qed.

Lemma monthly_billing_purchase_stays_pending_witness :
  exists result w',
    PurchaseService.completePurchase billingRequest sampleWorld =
      (Returned result, w') /\
    purchases (db w') = (purchases (db sampleWorld) ++ [res_purchase result])%list /\
    Purchase.paymentStatus (res_purchase result) = ps_pending /\
    Purchase.paidAt (res_purchase result) = None /\
    Purchase.cashAmount (res_purchase result) = None /\
    Purchase.change (res_purchase result) = None /\
    Purchase.notes (res_purchase result) =
      Js.trim (Js.or_str (pd_notes billingRequest) "" ++
               " | Added to monthly bill - parent will be charged") /\
    res_message result = "Purchase added to monthly bill" /\
    res_change result = 0%float.
Proof.
  apply (monthly_billing_purchase_stays_pending billingRequest twoSoups 1
           sampleWorld); try reflexivity; discriminate.
Defined.

(** X13.  [completePurchase] does not look the person up before it
    persists: on a store that answers, the purchase is persisted for any
    person id; the scan bookkeeping (count plus one, last-scan stamp) is
    applied to the record with that id if there is one, no other person is
    touched, and if there is none the persons are left as they were. *)
Theorem purchase_bookkeeping_and_unknown_person
    (purchaseData : PurchaseData) (items : list PurchaseItem)
    (userId : ObjectId) (w : World) :
  pd_userId purchaseData = Some userId ->
  pd_items purchaseData = Some items -> items <> [] ->
  (isCash (pd_paymentMethod purchaseData) = true ->
   pd_paidAmount purchaseData <> None) ->
  schemaAccepts (process_env w) userId (pd_uid purchaseData)
    (pd_userName purchaseData)
    (Js.or_str (pd_userCategory purchaseData) "student")
    items (pd_totalAmount purchaseData) (pd_paymentMethod purchaseData) ->
  faults w = [] ->
  exists result w',
    PurchaseService.completePurchase purchaseData w = (Returned result, w') /\
    purchases (db w') = (purchases (db w) ++ [res_purchase result])%list /\
    Purchase.userId (res_purchase result) = userId /\
    users (db w') !! userId =
      User.touch (clock w) <$> users (db w) !! userId /\
    (forall j, j <> userId -> users (db w') !! j = users (db w) !! j) /\
    (users (db w) !! userId = None -> users (db w') = users (db w)).
Proof.
  intros Hu Hi Hne Hc Hs Hf.
  destruct (completePurchase_ok purchaseData items userId w Hu Hi Hne Hc Hs Hf)
    as (result & w' & E & Hp & Husers & _ & _ & Hid & _).
  exists result, w'. rewrite Husers. repeat split; auto.
  - apply lookup_alter_eq.
  - intros j Hj. apply lookup_alter_ne. congruence.
  - intros Hnone. apply map_eq. intros j.
    destruct (decide (j = userId)) as [-> | Hj].
    + now rewrite lookup_alter_eq, Hnone.
    + apply lookup_alter_ne. congruence.
Qed.

Lemma purchase_bookkeeping_and_unknown_person_witness :
  exists result w',
    PurchaseService.completePurchase strangerRequest sampleWorld =
      (Returned result, w') /\
    purchases (db w') = (purchases (db sampleWorld) ++ [res_purchase result])%list /\
    Purchase.userId (res_purchase result) = 9%nat /\
    users (db w') !! 9%nat =
      User.touch (clock sampleWorld) <$> users (db sampleWorld) !! 9%nat /\
    (forall j, j <> 9%nat -> users (db w') !! j = users (db sampleWorld) !! j) /\
    (users (db sampleWorld) !! 9%nat = None ->
     users (db w') = users (db sampleWorld)).
Proof.
  apply (purchase_bookkeeping_and_unknown_person strangerRequest twoSoups 9
           sampleWorld); try reflexivity; discriminate.
Defined.

(** X14.  Without a person id, or with an empty item list,
    [completePurchase] throws "Invalid purchase data" before any storage
    call: the world is exactly as it was. *)
Theorem completePurchase_rejects_incomplete_data
    (purchaseData : PurchaseData) (items : list PurchaseItem) (w : World) :
  pd_items purchaseData = Some items ->
  pd_userId purchaseData = None \/ items = [] ->
  PurchaseService.completePurchase purchaseData w =
    (Thrown (Error "Invalid purchase data"), w).
Proof.
  intros Hi H. unfold PurchaseService.completePurchase. rewrite Hi.
  cbv [tryCatch].
  destruct (pd_userId purchaseData) as [u |]; destruct items as [| i l];
    try reflexivity.
  destruct H; discriminate.
Qed.

Lemma completePurchase_rejects_incomplete_data_witness :
  PurchaseService.completePurchase emptyBasket sampleWorld =
  (Thrown (Error "Invalid purchase data"), sampleWorld).
Proof.
  apply (completePurchase_rejects_incomplete_data emptyBasket [] sampleWorld);
    [reflexivity | now right].
Defined.

(** X15.  When the Purchase schema rejects the data, [completePurchase]
    throws an error whose message is the validators' messages joined by
    ", " (those for the paths of the document first, then those for the
    items), and it does so before any storage call: nothing is persisted
    and the world is as it was. *)
Theorem completePurchase_reports_schema_errors
    (purchaseData : PurchaseData) (items : list PurchaseItem)
    (userId : ObjectId) (w : World) :
  pd_userId purchaseData = Some userId ->
  pd_items purchaseData = Some items -> items <> [] ->
  (isCash (pd_paymentMethod purchaseData) = true ->
   pd_paidAmount purchaseData <> None) ->
  schemaErrors (process_env w) userId (pd_uid purchaseData)
    (pd_userName purchaseData)
    (Js.or_str (pd_userCategory purchaseData) "student")
    items (pd_totalAmount purchaseData) (pd_paymentMethod purchaseData)
    <> [] ->
  PurchaseService.completePurchase purchaseData w =
    (Thrown
       (Error
          (Js.join ", "
             (map snd
                (schemaErrors (process_env w) userId (pd_uid purchaseData)
                   (pd_userName purchaseData)
                   (Js.or_str (pd_userCategory purchaseData) "student")
                   items (pd_totalAmount purchaseData)
                   (pd_paymentMethod purchaseData))))),
     w).
Proof.
  intros Hu Hi Hne Hc Hs.
  unfold PurchaseService.completePurchase.
  rewrite Hu, Hi.
  destruct items as [| item rest]; [congruence |].
  set (items := item :: rest) in *.
  unfold PurchaseService.payment.
  cbv [tryCatch bind now getEnv].
  set (errs := schemaErrors _ _ _ _ _ _ _ _) in *.
  destruct (isCash (pd_paymentMethod purchaseData)) eqn:C.
  - destruct (pd_paidAmount purchaseData) as [paid |] eqn:P;
      [| now destruct (Hc eq_refl)].
    destruct (Js.gt paid (pd_totalAmount purchaseData)); cbv [ret].
    all: unfold Purchase_create; cbv [bind getEnv].
    all: match goal with
         | |- context [Purchase_validate ?e ?p] =>
             change (Purchase_validate e p) with errs
         end.
    all: destruct errs as [| e l]; [congruence | reflexivity].
  - destruct (isMonthlyBilling (pd_paymentMethod purchaseData)); cbv [ret].
    all: unfold Purchase_create; cbv [bind getEnv].
    all: match goal with
         | |- context [Purchase_validate ?e ?p] =>
             change (Purchase_validate e p) with errs
         end.
    all: destruct errs as [| e l]; [congruence | reflexivity].
Qed.

Lemma completePurchase_reports_schema_errors_witness :
  PurchaseService.completePurchase malformedRequest sampleWorld =
    (Thrown
       (Error
          (Js.join ", "
             (map snd
                (schemaErrors sampleEnv 1 "A1B2" "  " "student" badSoup
                              (-7)%float (Some "monthly_billing"))))),
     sampleWorld).
Proof.
  apply (completePurchase_reports_schema_errors malformedRequest badSoup 1
           sampleWorld); try reflexivity; discriminate.
Defined.

(** The three errors of [malformedRequest] in the order of the message:
    the paths of the document, then the path of the item. *)
Lemma schema_errors_of_malformed_request :
  map fst (schemaErrors sampleEnv 1 "A1B2" "  " "student" badSoup (-7)%float
                        (Some "monthly_billing")) =
    ["userName"; "totalAmount"; "items.0.price"].
Proof. reflexivity. Qed.

Ltac enter_completePurchase :=
  unfold PurchaseService.completePurchase, PurchaseService.payment;
  cbv [tryCatch bind now getEnv].

Ltac enter_Purchase_create :=
  cbv [ret]; unfold Purchase_create; cbv [bind getEnv].

(** X16.  The purchase and the scan bookkeeping are two separate storage
    calls with nothing undoing the first: when the first succeeds and the
    second fails, [completePurchase] throws the storage error's message,
    yet the purchase stays persisted, and the person record is as before. *)
Theorem purchase_is_kept_when_bookkeeping_fails
    (purchaseData : PurchaseData) (items : list PurchaseItem)
    (userId : ObjectId) (rest : list bool) (w : World) :
  pd_userId purchaseData = Some userId ->
  pd_items purchaseData = Some items -> items <> [] ->
  (isCash (pd_paymentMethod purchaseData) = true ->
   pd_paidAmount purchaseData <> None) ->
  schemaAccepts (process_env w) userId (pd_uid purchaseData)
    (pd_userName purchaseData)
    (Js.or_str (pd_userCategory purchaseData) "student")
    items (pd_totalAmount purchaseData) (pd_paymentMethod purchaseData) ->
  faults w = false :: true :: rest ->
  exists purchase w',
    PurchaseService.completePurchase purchaseData w =
      (Thrown (Error "storage operation failed"), w') /\
    purchases (db w') = (purchases (db w) ++ [purchase])%list /\
    Purchase.userId purchase = userId /\
    Purchase.totalAmount purchase = pd_totalAmount purchaseData /\
    users (db w') = users (db w) /\
    dblog w' = (dblog w ++ [PurchaseSave; UserFindByIdAndUpdate userId])%list.
Proof.
  intros Hu Hi Hne Hc Hs Hf.
  enter_completePurchase.
  rewrite Hu, Hi.
  destruct items as [| item more]; [congruence |].
  set (items := item :: more) in *.
  destruct (isCash (pd_paymentMethod purchaseData)) eqn:C.
  - destruct (pd_paidAmount purchaseData) as [paid |] eqn:P;
      [| now destruct (Hc eq_refl)].
    destruct (Js.gt paid (pd_totalAmount purchaseData)).
    all: enter_Purchase_create.
    all: match goal with
         | |- context [Purchase_validate ?e ?p] =>
             replace (Purchase_validate e p) with (@nil (string * string))
               by (symmetry; exact Hs)
         end.
    all: cbv [bind now storage writeDb modify ret User_findByIdAndUpdate].
    all: do 3 (world_simpl; rewrite ?Hf); world_simpl.
    all: eexists _, _; split; [reflexivity |]; cbn.
    all: rewrite <- ?app_assoc; repeat split.
  - destruct (isMonthlyBilling (pd_paymentMethod purchaseData)) eqn:B.
    all: enter_Purchase_create.
    all: match goal with
         | |- context [Purchase_validate ?e ?p] =>
             replace (Purchase_validate e p) with (@nil (string * string))
               by (symmetry; exact Hs)
         end.
    all: cbv [bind now storage writeDb modify ret User_findByIdAndUpdate].
    all: do 3 (world_simpl; rewrite ?Hf); world_simpl.
    all: eexists _, _; split; [reflexivity |]; cbn.
    all: rewrite <- ?app_assoc; repeat split.
Qed.

Lemma purchase_is_kept_when_bookkeeping_fails_witness :
  exists purchase w',
    PurchaseService.completePurchase billingRequest secondCallFails =
      (Thrown (Error "storage operation failed"), w') /\
    purchases (db w') = (purchases (db secondCallFails) ++ [purchase])%list /\
    Purchase.userId purchase = 1%nat /\
    Purchase.totalAmount purchase = pd_totalAmount billingRequest /\
    users (db w') = users (db secondCallFails) /\
    dblog w' =
      (dblog secondCallFails ++ [PurchaseSave; UserFindByIdAndUpdate 1])%list.
Proof.
  apply (purchase_is_kept_when_bookkeeping_fails billingRequest twoSoups 1 []
           secondCallFails); try reflexivity; discriminate.
Defined.

(** The footprint of [completePurchase] on the store, for every input. *)
Lemma completePurchase_effect
    (purchaseData : PurchaseData) (w : World) :
  exists added,
    purchases (db (snd (PurchaseService.completePurchase purchaseData w))) =
      (purchases (db w) ++ added)%list /\
    (length added <= 1)%nat /\
    foods (db (snd (PurchaseService.completePurchase purchaseData w))) =
      foods (db w) /\
    parents (db (snd (PurchaseService.completePurchase purchaseData w))) =
      parents (db w) /\
    reservations (db (snd (PurchaseService.completePurchase purchaseData w))) =
      reservations (db w) /\
    match fst (PurchaseService.completePurchase purchaseData w) with
    | Returned result => added = [res_purchase result]
    | Thrown e => exists m, e = Error m
    end.
Proof.
  assert (nothing : forall (m : string),
    exists added : list Purchase.t,
      purchases (db w) = (purchases (db w) ++ added)%list /\
      (length added <= 1)%nat /\ foods (db w) = foods (db w) /\
      parents (db w) = parents (db w) /\
      reservations (db w) = reservations (db w) /\
      exists m', Error m = Error m').
  { intros m. exists []. rewrite app_nil_r. repeat split; eauto. }
  enter_completePurchase.
  destruct (pd_items purchaseData) as [items |]; [| apply nothing].
  destruct (pd_userId purchaseData) as [userId |]; [| apply nothing].
  destruct items as [| item more]; [apply nothing |].
  set (items := item :: more) in *.
  assert (create : forall p,
    match Purchase_create p w with
    | (Returned doc, w1) =>
        purchases (db w1) = (purchases (db w) ++ [doc])%list /\
        foods (db w1) = foods (db w) /\ parents (db w1) = parents (db w) /\
        reservations (db w1) = reservations (db w) /\ clock w1 = clock w
    | (Thrown _, w1) => db w1 = db w
    end).
  { intros p. unfold Purchase_create. cbv [bind getEnv].
    destruct (Purchase_validate _ _); [| reflexivity].
    cbv [bind now storage writeDb modify ret].
    destruct (faults w) as [| [] ?]; cbn; auto. }
  destruct (isCash (pd_paymentMethod purchaseData)).
  - destruct (pd_paidAmount purchaseData) as [paid |]; [| apply nothing].
    destruct (Js.gt paid (pd_totalAmount purchaseData)); cbv [ret].
    all: match goal with
         | |- context [Purchase_create ?p ?w0] =>
             specialize (create p);
             destruct (Purchase_create p w0) as [[doc | e] w1]
         end.
    all: cbv [bind User_findByIdAndUpdate storage writeDb modify ret].
    all: try (destruct create as (Hp & Hfo & Hpa & Hre & _);
              destruct (faults w1) as [| [] ?]; cbn;
              exists [doc]; repeat split; eauto).
    all: destruct e; cbv [throw]; cbn [fst snd]; rewrite create;
      apply nothing.
  - destruct (isMonthlyBilling (pd_paymentMethod purchaseData)); cbv [ret].
    all: match goal with
         | |- context [Purchase_create ?p ?w0] =>
             specialize (create p);
             destruct (Purchase_create p w0) as [[doc | e] w1]
         end.
    all: cbv [bind User_findByIdAndUpdate storage writeDb modify ret].
    all: try (destruct create as (Hp & Hfo & Hpa & Hre & _);
              destruct (faults w1) as [| [] ?]; cbn;
              exists [doc]; repeat split; eauto).
    all: destruct e; cbv [throw]; cbn [fst snd]; rewrite create;
      apply nothing.
Qed.

(** X17.  Whatever the data, the store and its failures: one call of
    [completePurchase] appends at most one purchase and never touches
    foods, parents or reservations; when it returns, the appended purchase
    is the one in its result; when it throws, it throws a plain [Error]. *)
Theorem completePurchase_appends_at_most_one
    (purchaseData : PurchaseData) (w : World) :
  exists added,
    purchases (db (snd (PurchaseService.completePurchase purchaseData w))) =
      (purchases (db w) ++ added)%list /\
    (length added <= 1)%nat /\
    foods (db (snd (PurchaseService.completePurchase purchaseData w))) =
      foods (db w) /\
    parents (db (snd (PurchaseService.completePurchase purchaseData w))) =
      parents (db w) /\
    reservations (db (snd (PurchaseService.completePurchase purchaseData w))) =
      reservations (db w) /\
    match fst (PurchaseService.completePurchase purchaseData w) with
    | Returned result => added = [res_purchase result]
    | Thrown e => exists m, e = Error m
    end.
Proof. exact (completePurchase_effect purchaseData w). Qed.

Lemma checkItem_returns env item food w :
  fst (PurchaseService.checkItem env item food w) = Returned tt <->
  exists f, food = Some f /\ Food.isAvailable f = true /\
            Food.isActive f = true /\
            pricesDiffer (item_price item) (Food.price f) = false.
Proof.
  unfold PurchaseService.checkItem.
  destruct food as [f |].
  - change (Js.gt (Js.abs (item_price item - Food.price f)%float) 0.01%float)
      with (pricesDiffer (item_price item) (Food.price f)).
    destruct (Food.isAvailable f) eqn:A, (Food.isActive f) eqn:B;
      cbn [negb orb].
    2-4: split; [discriminate | intros (f' & [= <-] & ? & ? & _); congruence].
    destruct (pricesDiffer (item_price item) (Food.price f)) eqn:G;
      cbn [fst throw ret].
    + split; [discriminate |].
      intros (f' & [= <-] & _ & _ & Hle). congruence.
    + split; [| reflexivity]. intros _. exists f. auto.
  - cbn. split; [discriminate | intros (f' & [=] & _)].
Qed.

(** Prices one cent apart can already differ by more than 0.01 as the code
    computes it: 0.07 against 0.06 is refused, 0.06 against 0.05 is not. *)
Lemma one_cent_apart :
  pricesDiffer 0.07%float 0.06%float = true /\
  pricesDiffer 0.06%float 0.05%float = false.
Proof. split; reflexivity. Qed.

(** X18.  On a store that answers, [validatePurchaseItems] returns [true]
    exactly when every item names a food of the catalogue that is
    available and active and from whose price the item's price does not
    differ by more than 0.01, the difference being taken and compared in
    double arithmetic; otherwise it throws.  Neither the item's name, nor its quantity,
    nor its subtotal is looked at.  When it returns it has made one food
    lookup per item, in order, and nothing else. *)
Theorem validatePurchaseItems_accepts_iff
    (items : list PurchaseItem) (w : World) :
  faults w = [] ->
  (fst (PurchaseService.validatePurchaseItems items w) = Returned true <->
   Forall (catalogueAccepts (db w)) items) /\
  (fst (PurchaseService.validatePurchaseItems items w) = Returned true \/
   exists e, fst (PurchaseService.validatePurchaseItems items w) = Thrown e) /\
  (Forall (catalogueAccepts (db w)) items ->
   dblog (snd (PurchaseService.validatePurchaseItems items w)) =
     (dblog w ++ lookupsOf items)%list).
Proof.
  revert w. induction items as [| item rest IH]; intros w Hf.
  - cbn. rewrite app_nil_r. repeat split; auto.
  - cbn [PurchaseService.validatePurchaseItems].
    cbv [bind Food_findById storage readDb ret getEnv]. rewrite Hf.
    world_simpl.
    pose proof (checkItem_returns (process_env w) item
                  (foods (db w) !! item_foodId item)
                  (tick (FoodFindById (item_foodId item)) w)) as Hc.
    pose proof (checkItem_preserves db (process_env w) item
                  (foods (db w) !! item_foodId item)
                  (tick (FoodFindById (item_foodId item)) w)) as Hdb.
    pose proof (checkItem_preserves faults
                  (process_env w) item
                  (foods (db w) !! item_foodId item)
                  (tick (FoodFindById (item_foodId item)) w)) as Hfa.
    pose proof (checkItem_preserves dblog
                  (process_env w) item
                  (foods (db w) !! item_foodId item)
                  (tick (FoodFindById (item_foodId item)) w)) as Hlog.
    destruct (PurchaseService.checkItem _ _ _ _) as [[[] | e] w1].
    + cbn in Hdb, Hfa, Hlog.
      assert (Hf1 : faults w1 = []) by (rewrite Hfa, Hf; reflexivity).
      destruct (IH w1 Hf1) as (Hiff & Hor & Hl).
      rewrite Hdb in Hiff, Hl.
      assert (Hitem : catalogueAccepts (db w) item)
        by (apply Hc; reflexivity).
      repeat split.
      * intros H. constructor; [exact Hitem | now apply Hiff].
      * intros H. inversion H; subst. now apply Hiff.
      * exact Hor.
      * intros H. inversion H; subst. rewrite Hl by assumption.
        rewrite Hlog. cbn. now rewrite <- app_assoc.
    + assert (Hno : ~ catalogueAccepts (db w) item).
      { intros H. apply Hc in H. discriminate. }
      cbn. repeat split.
      * discriminate.
      * intros H. inversion H; subst. contradiction.
      * right. now exists e.
      * intros H. inversion H; subst. contradiction.
Qed.

Lemma validatePurchaseItems_accepts_iff_witness :
  (fst (PurchaseService.validatePurchaseItems [oddSoup] sampleWorld) =
     Returned true <->
   Forall (catalogueAccepts (db sampleWorld)) [oddSoup]) /\
  (fst (PurchaseService.validatePurchaseItems [oddSoup] sampleWorld) =
     Returned true \/
   exists e,
     fst (PurchaseService.validatePurchaseItems [oddSoup] sampleWorld) =
       Thrown e) /\
  (Forall (catalogueAccepts (db sampleWorld)) [oddSoup] ->
   dblog (snd (PurchaseService.validatePurchaseItems [oddSoup] sampleWorld)) =
     (dblog sampleWorld ++ lookupsOf [oddSoup])%list).
Proof.
  apply (validatePurchaseItems_accepts_iff [oddSoup] sampleWorld).
  reflexivity.
Defined.

(** X20.  [POST /complete] never lets an error escape and answers 200 or
    400, nothing else; it appends at most one purchase, and with a 200 the
    body carries exactly the purchase that was appended.  A 400 does not
    mean that nothing was appended. *)
Theorem complete_route_answers_200_or_400 (req_body : PurchaseData) (w : World) :
  exists response w' added,
    PurchaseRoutes.complete req_body w = (Returned response, w') /\
    (statusCode response = 200%nat \/ statusCode response = 400%nat) /\
    purchases (db w') = (purchases (db w) ++ added)%list /\
    (length added <= 1)%nat /\
    (statusCode response = 200%nat ->
     exists result,
       body response = Completed result /\ added = [res_purchase result]).
Proof.
  assert (bad : forall error w1, db w1 = db w ->
    exists response w' added,
      PurchaseRoutes.badRequest error w1 = (Returned response, w') /\
      (statusCode response = 200%nat \/ statusCode response = 400%nat) /\
      purchases (db w') = (purchases (db w) ++ added)%list /\
      (length added <= 1)%nat /\
      (statusCode response = 200%nat ->
       exists result,
         body response = Completed result /\ added = [res_purchase result])).
  { intros error w1 H. eexists _, w1, []. split; [reflexivity |].
    rewrite app_nil_r, H. cbn. repeat split; auto. discriminate. }
  unfold PurchaseRoutes.complete. cbv [tryCatch].
  destruct (pd_userId req_body) as [userId |]; [| now apply bad].
  destruct (pd_items req_body) as [[| item rest] |]; [now apply bad | | now apply bad].
  destruct (negb _); [now apply bad |].
  cbv [bind].
  pose proof (validatePurchaseItems_keeps_db (item :: rest) w) as Hdb.
  destruct (PurchaseService.validatePurchaseItems (item :: rest) w)
    as [[b | e] w1]; cbn in Hdb; [| now apply bad].
  destruct (Js.gt _ _); [now apply bad |].
  destruct (_ && _); [now apply bad |].
  destruct (completePurchase_effect req_body w1)
    as (added & Hp & Hlen & _ & _ & _ & Hres).
  rewrite Hdb in Hp.
  destruct (PurchaseService.completePurchase req_body w1) as [[result | e] w2];
    cbn in Hp, Hres.
  - eexists _, w2, added. split; [reflexivity |]. cbn.
    repeat split; auto. intros _. now exists result.
  - eexists _, w2, added. split; [reflexivity |]. cbn.
    repeat split; auto. discriminate.
Qed.

(** ** Reservation workflow, continued *)

(** X21.  When the lookup answers and the reservation is missing, already
    served or cancelled, [confirmReservation] throws the matching message
    after that one lookup and has written nothing: the world differs from
    the one before only by the logged lookup. *)
Theorem confirmReservation_refuses_without_writing
    (reservationId : ObjectId) (purchaseService : bool) (w : World)
    (reason : string) :
  refusal (reservations (db w) !! reservationId) = Some reason ->
  hd false (faults w) = false ->
  ReservationService.confirmReservation reservationId purchaseService w =
    (Thrown (Error reason), tick (ReservationFindById reservationId) w).
Proof.
  intros Hr Hf.
  unfold ReservationService.confirmReservation, MealReservation_findById.
  cbv [tryCatch bind storage readDb ret getEnv].
  destruct (faults w) as [| [] rest] eqn:F; try discriminate.
  all: cbn [db tick].
  all: destruct (reservations (db w) !! reservationId) as [r |];
    cbn in Hr |- *.
  all: try (destruct (MealReservation.status r); try discriminate).
  all: injection Hr as <-; reflexivity.
Qed.

Lemma confirmReservation_refuses_without_writing_witness :
  ReservationService.confirmReservation 100 true cancelledWorld =
    (Thrown (Error "Cannot confirm a cancelled reservation"),
     tick (ReservationFindById 100) cancelledWorld).
Proof.
  apply (confirmReservation_refuses_without_writing 100 true cancelledWorld);
    reflexivity.
Defined.

(** X22.  The reservation is marked served before the purchase is built,
    and nothing undoes it: when the reservation's person or food reference
    does not resolve, [confirmReservation] throws "Reservation served but
    failed to create purchase record: ...", the reservation is stored as
    served, and no purchase exists for it. *)
Theorem confirmReservation_serves_without_billing
    (reservationId : ObjectId) (purchaseService : bool) (w : World)
    (r : MealReservation.t) :
  reservations (db w) !! reservationId = Some r ->
  MealReservation.status r <> served ->
  MealReservation.status r <> cancelled ->
  users (db w) !! MealReservation.studentId r = None \/
  foods (db w) !! MealReservation.foodId r = None ->
  faults w = [] ->
  exists w',
    ReservationService.confirmReservation reservationId purchaseService w =
      (Thrown
         (Error
            ("Reservation served but failed to create purchase record: " ++
             "Cannot read properties of null (reading '_id')")), w') /\
    reservations (db w') !! reservationId =
      Some (MealReservation.markServed (clock w)
              (Js.or_str (STATION_ID (process_env w)) "STATION_001") r) /\
    purchases (db w') = purchases (db w) /\
    users (db w') = users (db w) /\
    dblog w' =
      (dblog w ++ [ReservationFindById reservationId;
                   ReservationSave reservationId])%list.
Proof.
  intros Hr Hns Hnc Hmiss Hf.
  unfold ReservationService.confirmReservation, MealReservation_findById.
  cbv [tryCatch bind storage readDb ret getEnv]. rewrite Hf.
  cbn [db tick]. rewrite Hr.
  cbn [pr_doc populate snd fst].
  destruct (MealReservation.status r) eqn:St; try congruence.
  all: unfold ReservationService.markServedByRFID, MealReservation_save.
  all: cbv [bind now storage writeDb modify ret].
  all: cbn [faults tick set_db tail]; rewrite ?Hf; cbn [tail].
  all: unfold ReservationService.createPurchase.
  all: unfold populate, withId.
  all: cbn [pr_student pr_food pr_doc pr_id fst snd db tick set_db
            set_reservations users foods clock process_env].
  all: destruct Hmiss as [Hm | Hm];
    [ rewrite Hm
    | rewrite Hm; destruct (users (db w) !! MealReservation.studentId r) ].
  all: cbn.
  all: eexists; split; [reflexivity |]; cbn.
  all: rewrite lookup_insert_eq, <- ?app_assoc; auto.
Qed.

Lemma confirmReservation_serves_without_billing_witness :
  exists w',
    ReservationService.confirmReservation 100 true orphanWorld =
      (Thrown
         (Error
            ("Reservation served but failed to create purchase record: " ++
             "Cannot read properties of null (reading '_id')")), w') /\
    reservations (db w') !! 100%nat =
      Some (MealReservation.markServed (clock orphanWorld)
              (Js.or_str (STATION_ID (process_env orphanWorld)) "STATION_001")
              orphanBooking) /\
    purchases (db w') = purchases (db orphanWorld) /\
    users (db w') = users (db orphanWorld) /\
    dblog w' =
      (dblog orphanWorld ++ [ReservationFindById 100;
                             ReservationSave 100])%list.
Proof.
  apply (confirmReservation_serves_without_billing 100 true orphanWorld
           orphanBooking); try reflexivity; try discriminate.
  now left.
Defined.

(** [createPurchase] with its whole effect on the world. *)
Lemma createPurchase_full
    (purchaseService : bool) (pr : PopulatedReservation) (w : World)
    (sid fid : ObjectId) (person : User.t) (food : Food.t) :
  pr_student pr = Some (sid, person) ->
  pr_food pr = Some (fid, food) ->
  schemaAccepts (process_env w) sid (User.uid person) (User.name person)
    (categoryName (User.user_category person))
    [mkItem fid (Food.name food) (ReservationService.cost (pr_doc pr))
            (MealReservation.quantity (pr_doc pr))
            (ReservationService.cost (pr_doc pr) *
             MealReservation.quantity (pr_doc pr))%float]
    (ReservationService.cost (pr_doc pr) *
     MealReservation.quantity (pr_doc pr))%float None ->
  faults w = [] ->
  exists purchase w',
    ReservationService.createPurchase purchaseService pr w =
      (Returned purchase, w') /\
    purchases (db w') = (purchases (db w) ++ [purchase])%list /\
    reservations (db w') = reservations (db w) /\
    foods (db w') = foods (db w) /\
    users (db w') =
      (if purchaseService
       then alter (User.touch (clock w)) sid (users (db w))
       else users (db w)) /\
    faults w' = [] /\ clock w' = clock w /\
    process_env w' = process_env w /\
    Purchase.userId purchase = sid /\
    Purchase.items purchase =
      [mkItem fid (Js.trim (Food.name food))
              (ReservationService.cost (pr_doc pr))
              (MealReservation.quantity (pr_doc pr))
              (ReservationService.cost (pr_doc pr) *
               MealReservation.quantity (pr_doc pr))%float] /\
    Purchase.paymentStatus purchase = ps_pending.
Proof.
  intros Hp Hfd Hs Hf.
  unfold ReservationService.createPurchase. rewrite Hp, Hfd.
  cbv [bind getEnv now].
  destruct purchaseService.
  - unfold PurchaseService.completePurchase, ReservationService.purchaseDataOf.
    cbn [pd_items pd_userId pd_userCategory pd_paymentMethod pd_paidAmount
         pd_notes pd_uid pd_userName pd_totalAmount pd_cafeteriaStation
         pd_processedBy fst snd].
    unfold PurchaseService.payment.
    cbn [pd_paymentMethod isCash isMonthlyBilling].
    cbv [tryCatch bind now getEnv ret].
    unfold Purchase_create; cbv [bind getEnv].
    rewrite !categoryName_truthy.
    match goal with
    | |- context [Purchase_validate ?e ?p] =>
        replace (Purchase_validate e p) with (@nil (string * string))
          by (symmetry; exact Hs)
    end.
    cbv [bind now storage writeDb modify ret User_findByIdAndUpdate].
    cbn [faults tick set_db]; rewrite Hf; cbn [tail faults tick set_db].
    rewrite ?Hf; cbn [tail faults tick set_db].
    eexists _, _. split; [reflexivity |]. cbn. rewrite Hf. auto 12.
  - unfold Purchase_create, inputOfData, ReservationService.purchaseDataOf.
    cbv [bind getEnv].
    cbn [pd_items pd_userId pd_userCategory pd_paymentMethod pd_paidAmount
         pd_notes pd_uid pd_userName pd_totalAmount pd_cafeteriaStation
         pd_processedBy pd_paymentStatus fst snd default from_option id].
    rewrite !categoryName_truthy.
    match goal with
    | |- context [Purchase_validate ?e ?p] =>
        replace (Purchase_validate e p) with (@nil (string * string))
          by (symmetry; exact Hs)
    end.
    cbv [bind now storage writeDb modify ret].
    cbn [faults tick set_db]; rewrite Hf; cbn [tail faults tick set_db].
    eexists _, _. split; [reflexivity |]. cbn. rewrite Hf. auto 12.
Qed.

(** A successful confirmation with its whole effect on the world. *)
Lemma confirmReservation_full
    (reservationId : ObjectId) (purchaseService : bool) (w : World)
    (r : MealReservation.t) (person : User.t) (food : Food.t) :
  reservations (db w) !! reservationId = Some r ->
  MealReservation.status r <> served ->
  MealReservation.status r <> cancelled ->
  users (db w) !! MealReservation.studentId r = Some person ->
  foods (db w) !! MealReservation.foodId r = Some food ->
  schemaAccepts (process_env w) (MealReservation.studentId r)
    (User.uid person) (User.name person)
    (categoryName (User.user_category person))
    [mkItem (MealReservation.foodId r) (Food.name food)
            (ReservationService.cost r) (MealReservation.quantity r)
            (ReservationService.cost r * MealReservation.quantity r)%float]
    (ReservationService.cost r * MealReservation.quantity r)%float None ->
  faults w = [] ->
  exists result purchase w1,
    ReservationService.confirmReservation reservationId purchaseService w =
      (Returned result, w1) /\
    cr_purchase result = Some purchase /\
    reservations (db w1) =
      <[reservationId :=
          MealReservation.markServed (clock w)
            (Js.or_str (STATION_ID (process_env w)) "STATION_001") r]>
        (reservations (db w)) /\
    purchases (db w1) = (purchases (db w) ++ [purchase])%list /\
    foods (db w1) = foods (db w) /\
    users (db w1) =
      (if purchaseService
       then alter (User.touch (clock w)) (MealReservation.studentId r)
                  (users (db w))
       else users (db w)) /\
    faults w1 = [] /\ clock w1 = clock w /\
    process_env w1 = process_env w /\
    Purchase.userId purchase = MealReservation.studentId r /\
    Purchase.items purchase = [billedItem r food (ReservationService.cost r)] /\
    Purchase.paymentStatus purchase = ps_pending.
Proof.
  intros Hr Hns Hnc Hp Hfd Hs Hf.
  unfold ReservationService.confirmReservation.
  unfold MealReservation_findById.
  cbv [tryCatch bind storage readDb ret getEnv]. rewrite Hf.
  cbn [db tick]. rewrite Hr.
  cbn [pr_doc populate snd fst].
  destruct (MealReservation.status r) eqn:St; try congruence.
  all: unfold ReservationService.markServedByRFID, MealReservation_save.
  all: cbv [bind now storage writeDb modify ret].
  all: cbn [faults tick set_db tail]; rewrite ?Hf; cbn [tail].
  all: match goal with
       | |- context [ReservationService.createPurchase ?ps ?pr ?w1] =>
           destruct (createPurchase_full ps pr w1 _ _ person food
                       ltac:(cbn; unfold withId; rewrite Hp; reflexivity)
                       ltac:(cbn; unfold withId; rewrite Hfd; reflexivity)
                       Hs ltac:(cbn; now rewrite Hf))
             as (purchase & w2 & E & Hpur & Hres & Hfo & Hus & Hf2 & Hcl &
                 Hen & Hid & Hit & Hst);
           rewrite E
       end.
  all: eexists _, purchase, w2; split; [reflexivity |].
  all: split; [reflexivity |].
  all: rewrite Hres, Hpur, Hfo, Hus, Hf2, Hcl, Hen.
  all: cbn.
  all: repeat split; auto.
Qed.

(** X23.  [updateReservationStatus] accepts any status for a reservation
    in any status: it stores the status and the trimmed notes, stamps served-at,
    processed-at and the station only when the new status is [served], and
    otherwise leaves those stamps as they were.  It records no purchase,
    also when the new status is [served], and leaves the booking's person,
    food, quantity and costs alone. *)
Theorem updateReservationStatus_sets_any_status
    (reservationId : ObjectId) (status : ReservationStatus) (notes : string)
    (w : World) (r : MealReservation.t) :
  reservations (db w) !! reservationId = Some r ->
  faults w = [] ->
  exists r' w',
    ReservationService.updateReservationStatus reservationId status notes w =
      (Returned r', w') /\
    reservations (db w') = <[reservationId := r']> (reservations (db w)) /\
    purchases (db w') = purchases (db w) /\
    users (db w') = users (db w) /\
    MealReservation.status r' = status /\
    MealReservation.notes r' = Js.trim notes /\
    MealReservation.servedAt r' =
      match status with
      | served => Some (clock w)
      | _ => MealReservation.servedAt r
      end /\
    MealReservation.rfidProcessedAt r' =
      match status with
      | served => Some (clock w)
      | _ => MealReservation.rfidProcessedAt r
      end /\
    MealReservation.servedByStation r' =
      match status with
      | served => Js.or_str (STATION_ID (process_env w)) "STATION_001"
      | _ => MealReservation.servedByStation r
      end /\
    MealReservation.studentId r' = MealReservation.studentId r /\
    MealReservation.foodId r' = MealReservation.foodId r /\
    MealReservation.quantity r' = MealReservation.quantity r /\
    ReservationService.cost r' = ReservationService.cost r.
Proof.
  intros Hr Hf.
  unfold ReservationService.updateReservationStatus, MealReservation_save.
  cbv [bind storage readDb ret getEnv now writeDb modify]. rewrite Hf.
  cbn [db tick]. rewrite Hr.
  cbn [faults tick tail]. rewrite Hf.
  eexists _, _. split; [reflexivity |].
  destruct status; cbn; auto 15.
Qed.

Lemma updateReservationStatus_sets_any_status_witness :
  exists r' w',
    ReservationService.updateReservationStatus 100 pending " reopened "
      cancelledWorld = (Returned r', w') /\
    reservations (db w') =
      <[100%nat := r']> (reservations (db cancelledWorld)) /\
    purchases (db w') = purchases (db cancelledWorld) /\
    users (db w') = users (db cancelledWorld) /\
    MealReservation.status r' = pending /\
    MealReservation.notes r' = Js.trim " reopened " /\
    MealReservation.servedAt r' = MealReservation.servedAt cancelledBooking /\
    MealReservation.rfidProcessedAt r' =
      MealReservation.rfidProcessedAt cancelledBooking /\
    MealReservation.servedByStation r' =
      MealReservation.servedByStation cancelledBooking /\
    MealReservation.studentId r' = MealReservation.studentId cancelledBooking /\
    MealReservation.foodId r' = MealReservation.foodId cancelledBooking /\
    MealReservation.quantity r' = MealReservation.quantity cancelledBooking /\
    ReservationService.cost r' = ReservationService.cost cancelledBooking.
Proof.
  apply (updateReservationStatus_sets_any_status 100 pending " reopened "
           cancelledWorld cancelledBooking); reflexivity.
Defined.

(** [updateReservationStatus] on a store that answers. *)
Lemma updateReservationStatus_run
    (reservationId : ObjectId) (status : ReservationStatus) (notes : string)
    (w : World) (r : MealReservation.t) :
  reservations (db w) !! reservationId = Some r ->
  faults w = [] ->
  exists w',
    ReservationService.updateReservationStatus reservationId status notes w =
      (Returned
         (ReservationService.applyStatus (clock w)
            (Js.or_str (STATION_ID (process_env w)) "STATION_001")
            status notes r), w') /\
    reservations (db w') =
      <[reservationId :=
          ReservationService.applyStatus (clock w)
            (Js.or_str (STATION_ID (process_env w)) "STATION_001")
            status notes r]> (reservations (db w)) /\
    purchases (db w') = purchases (db w) /\
    users (db w') = users (db w) /\
    foods (db w') = foods (db w) /\
    faults w' = [] /\
    process_env w' = process_env w.
Proof.
  intros Hr Hf.
  unfold ReservationService.updateReservationStatus, MealReservation_save.
  cbv [bind storage readDb ret getEnv now writeDb modify]. rewrite Hf.
  cbn [db tick]. rewrite Hr.
  cbn [faults tick tail]. rewrite Hf.
  eexists. split; [reflexivity |]. cbn. rewrite Hf. auto 10.
Qed.

(** X24.  Nothing ties a purchase to the reservation it bills, and the
    status of a served reservation can be set back.  So: confirm a
    reservation, set it back to [pending] with [updateReservationStatus],
    confirm it again, and the same meal is billed twice: the purchase list
    ends with two purchases for the reservation's person, each with the
    reservation's food, quantity and cost. *)
Theorem reopened_reservation_is_billed_again
    (reservationId : ObjectId) (purchaseService : bool) (notes : string)
    (w : World) (r : MealReservation.t) (person : User.t) (food : Food.t) :
  reservations (db w) !! reservationId = Some r ->
  MealReservation.status r <> served ->
  MealReservation.status r <> cancelled ->
  users (db w) !! MealReservation.studentId r = Some person ->
  foods (db w) !! MealReservation.foodId r = Some food ->
  schemaAccepts (process_env w) (MealReservation.studentId r)
    (User.uid person) (User.name person)
    (categoryName (User.user_category person))
    [mkItem (MealReservation.foodId r) (Food.name food)
            (ReservationService.cost r) (MealReservation.quantity r)
            (ReservationService.cost r * MealReservation.quantity r)%float]
    (ReservationService.cost r * MealReservation.quantity r)%float None ->
  faults w = [] ->
  exists first w1 reopened w2 second w3 p1 p2,
    ReservationService.confirmReservation reservationId purchaseService w =
      (Returned first, w1) /\
    ReservationService.updateReservationStatus reservationId pending notes w1 =
      (Returned reopened, w2) /\
    ReservationService.confirmReservation reservationId purchaseService w2 =
      (Returned second, w3) /\
    cr_purchase first = Some p1 /\ cr_purchase second = Some p2 /\
    purchases (db w3) = (purchases (db w) ++ [p1; p2])%list /\
    Purchase.userId p1 = MealReservation.studentId r /\
    Purchase.userId p2 = MealReservation.studentId r /\
    Purchase.items p1 = [billedItem r food (ReservationService.cost r)] /\
    Purchase.items p2 = [billedItem r food (ReservationService.cost r)].
Proof.
  intros Hr Hns Hnc Hp Hfd Hs Hf.
  destruct (confirmReservation_full reservationId purchaseService w r person
              food Hr Hns Hnc Hp Hfd Hs Hf)
    as (first & p1 & w1 & E1 & Hc1 & Hres1 & Hpur1 & Hfo1 & Hus1 & Hf1 &
        Hcl1 & Hen1 & Hid1 & Hit1 & _).
  set (r1 := MealReservation.markServed (clock w)
               (Js.or_str (STATION_ID (process_env w)) "STATION_001") r) in *.
  assert (Hr1 : reservations (db w1) !! reservationId = Some r1)
    by (rewrite Hres1; apply lookup_insert_eq).
  destruct (updateReservationStatus_run reservationId pending notes w1 r1
              Hr1 Hf1)
    as (w2 & E2 & Hres2 & Hpur2 & Hus2 & Hfo2 & Hf2 & Hen2).
  set (r2 := ReservationService.applyStatus (clock w1)
               (Js.or_str (STATION_ID (process_env w1)) "STATION_001")
               pending notes r1) in *.
  set (person2 := if purchaseService then User.touch (clock w) person
                  else person).
  assert (Hr2 : reservations (db w2) !! reservationId = Some r2)
    by (rewrite Hres2; apply lookup_insert_eq).
  assert (Hp2 : users (db w2) !! MealReservation.studentId r2 = Some person2).
  { rewrite Hus2, Hus1. subst person2. cbn. destruct purchaseService.
    - now rewrite lookup_alter_eq, Hp.
    - exact Hp. }
  assert (Hfd2 : foods (db w2) !! MealReservation.foodId r2 = Some food)
    by (rewrite Hfo2, Hfo1; exact Hfd).
  assert (Hs2 : schemaAccepts (process_env w2) (MealReservation.studentId r2)
            (User.uid person2) (User.name person2)
            (categoryName (User.user_category person2))
            [mkItem (MealReservation.foodId r2) (Food.name food)
               (ReservationService.cost r2) (MealReservation.quantity r2)
               (ReservationService.cost r2 * MealReservation.quantity r2)%float]
            (ReservationService.cost r2 * MealReservation.quantity r2)%float None).
  { rewrite Hen2, Hen1. subst person2. destruct purchaseService; exact Hs. }
  destruct (confirmReservation_full reservationId purchaseService w2 r2
              person2 food Hr2 ltac:(discriminate) ltac:(discriminate)
              Hp2 Hfd2 Hs2 Hf2)
    as (second & p2 & w3 & E3 & Hc3 & _ & Hpur3 & _ & _ & _ & _ & _ & Hid3 &
        Hit3 & _).
  exists first, w1, r2, w2, second, w3, p1, p2.
  repeat split; auto.
  rewrite Hpur3, Hpur2, Hpur1, <- app_assoc. reflexivity.
Qed.

Lemma reopened_reservation_is_billed_again_witness :
  exists first w1 reopened w2 second w3 p1 p2,
    ReservationService.confirmReservation 100 true sampleWorld =
      (Returned first, w1) /\
    ReservationService.updateReservationStatus 100 pending "" w1 =
      (Returned reopened, w2) /\
    ReservationService.confirmReservation 100 true w2 =
      (Returned second, w3) /\
    cr_purchase first = Some p1 /\ cr_purchase second = Some p2 /\
    purchases (db w3) = (purchases (db sampleWorld) ++ [p1; p2])%list /\
    Purchase.userId p1 = MealReservation.studentId booking /\
    Purchase.userId p2 = MealReservation.studentId booking /\
    Purchase.items p1 =
      [billedItem booking soup (ReservationService.cost booking)] /\
    Purchase.items p2 =
      [billedItem booking soup (ReservationService.cost booking)].
Proof.
  apply (reopened_reservation_is_billed_again 100 true "" sampleWorld booking
           alice soup); try reflexivity; discriminate.
Defined.

(** Whatever [confirmReservation] throws is a plain [Error]. *)
Lemma confirmReservation_throws_Error reservationId purchaseService w :
  match fst (ReservationService.confirmReservation reservationId
               purchaseService w) with
  | Returned _ => True
  | Thrown e => exists m, e = Error m
  end.
Proof.
  unfold ReservationService.confirmReservation.
  cbv [tryCatch].
  match goal with
  | |- context [let (_, _) := ?m w in _] => destruct (m w) as [[a | e] w1]
  | |- context [match ?m w with _ => _ end] => destruct (m w) as [[a | e] w1]
  end; cbn; eauto.
Qed.

(** ** Socket commands and routes *)

(** X25.  The socket command [completePurchase] never throws and always
    reports: when the purchase service returns, the calling client gets
    [purchaseCompleted] and then every client gets [purchaseUpdate] with
    the same result; when it throws, only the calling client hears of it,
    through one [purchaseError] carrying the error's message.  Nothing else
    is emitted and the store is left as the service left it. *)
Theorem socket_purchase_always_reports
    (socketId : string) (data : PurchaseData) (w : World) :
  exists w',
    Server.onCompletePurchase socketId data w = (Returned tt, w') /\
    db w' = db (snd (PurchaseService.completePurchase data w)) /\
    emitted w' =
      (emitted w ++
       match fst (PurchaseService.completePurchase data w) with
       | Returned result =>
           [toClient socketId (purchaseCompleted result);
            purchaseUpdate result (clock w)]
       | Thrown error =>
           [toClient socketId
              (purchaseError "Failed to complete purchase" (message error))]
       end)%list.
Proof.
  unfold Server.onCompletePurchase. cbv [tryCatch bind].
  destruct (completePurchase_storeOnly data w) as (Hem & _ & Hcl & _).
  destruct (PurchaseService.completePurchase data w) as [[result | e] w1];
    cbn [fst snd] in *.
  - cbv [emit modify now]. eexists. split; [reflexivity |].
    cbn. rewrite Hem, Hcl, <- app_assoc. auto.
  - cbv [emit modify]. eexists. split; [reflexivity |].
    cbn. rewrite Hem. auto.
Qed.

(** X26.  The socket command [confirmReservation] never throws and always
    reports: on success the calling client gets [reservationConfirmed] and
    every client [reservationUpdate]; on failure only the calling client
    gets one [reservationError] with the error's message.  So a client told
    "Reservation served but failed to create purchase record" is the only
    one to learn that the reservation is now served. *)
Theorem socket_confirmation_always_reports
    (socketId : string) (reservationId : ObjectId) (w : World) :
  exists w',
    Server.onConfirmReservation socketId reservationId w = (Returned tt, w') /\
    db w' =
      db (snd (ReservationService.confirmReservation reservationId true w)) /\
    emitted w' =
      (emitted w ++
       match fst (ReservationService.confirmReservation reservationId true w)
       with
       | Returned result =>
           [toClient socketId (reservationConfirmed result);
            reservationUpdate result (clock w)]
       | Thrown error =>
           [toClient socketId
              (reservationError "Failed to confirm reservation"
                                (message error))]
       end)%list.
Proof.
  unfold Server.onConfirmReservation. cbv [tryCatch bind].
  destruct (confirmReservation_storeOnly reservationId true w)
    as (Hem & _ & Hcl & _).
  destruct (ReservationService.confirmReservation reservationId true w)
    as [[result | e] w1]; cbn [fst snd] in *.
  - cbv [emit modify now]. eexists. split; [reflexivity |].
    cbn. rewrite Hem, Hcl, <- app_assoc. auto.
  - cbv [emit modify]. eexists. split; [reflexivity |].
    cbn. rewrite Hem. auto.
Qed.

Lemma getReservationById_exact id w :
  ReservationService.getReservationById id w =
    (Returned
       (if hd false (faults w) then None
        else match reservations (db w) !! id with
             | Some r => Some (populate (db w) (id, r))
             | None => None
             end),
     tick (ReservationFindById id) w).
Proof.
  unfold ReservationService.getReservationById, MealReservation_findById.
  cbv [tryCatch bind storage readDb ret].
  destruct (faults w) as [| [] fs]; reflexivity.
Qed.

(** X27.  The reservation read routes never answer 500, because the
    service turns every storage failure into an empty answer.
    [GET /:id] answers 404 "Reservation not found" both when there is no
    such reservation and when the lookup fails, and 200 with the
    reservation and its resolved references otherwise;
    [GET /user/:userId/today] always answers 200, with an empty list when
    the query fails.  Neither writes. *)
Theorem reservation_read_routes_never_500 (id : ObjectId) (w : World) :
  ReservationRoutes.byId id w =
    (Returned
       (match reservations (db w) !! id with
        | Some r =>
            if hd false (faults w)
            then replyError 404 "Reservation not found"
            else replyOk 200 (populate (db w) (id, r))
        | None => replyError 404 "Reservation not found"
        end),
     tick (ReservationFindById id) w) /\
  ReservationRoutes.today id w =
    (Returned
       (replyOk 200
          (if hd false (faults w) then []
           else todayList (db w) (process_env w) (clock w) id)),
     tick (ReservationFind id) w).
Proof.
  unfold ReservationRoutes.byId, ReservationRoutes.today.
  cbv [tryCatch bind].
  rewrite getReservationById_exact, getTodayReservations_exact.
  split; [| reflexivity].
  destruct (hd false (faults w)), (reservations (db w) !! id); reflexivity.
Qed.

(** X28.  [POST /:id/confirm] never lets an error escape and answers 200
    or 400: 200 with the service's result when the confirmation returns,
    400 with the error's message when it throws.  In both cases the store
    is as the service left it, so a 400 "Reservation served but failed to
    create purchase record" comes with the reservation stored as served. *)
Theorem reservation_confirm_route (id : ObjectId) (w : World) :
  exists reply,
    ReservationRoutes.confirm id w =
      (Returned reply,
       snd (ReservationService.confirmReservation id true w)) /\
    match fst (ReservationService.confirmReservation id true w) with
    | Returned result => reply = replyOk 200 result
    | Thrown error =>
        exists m, error = Error m /\
                  reply = replyError 400 (Js.or_str (Some m)
                                            "Failed to confirm reservation")
    end.
Proof.
  unfold ReservationRoutes.confirm. cbv [tryCatch bind].
  pose proof (confirmReservation_throws_Error id true w) as Hth.
  destruct (ReservationService.confirmReservation id true w)
    as [[result | e] w1]; cbn [fst snd] in *.
  - eexists. split; reflexivity.
  - destruct Hth as (m & ->). eexists. split; [reflexivity |].
    exists m. split; reflexivity.
Qed.

(** ** Reader manager and administrators *)

(** X29.  When the hardware cannot be initialised and mock mode is off,
    [initialize] falls back to the mock reader without turning mock mode
    on.  The manager then reports itself connected, but everything keyed on
    mock mode treats it as hardware: [simulateScan] throws, [POST
    /manual-scan] answers 400, the reader list names one [nfc-pcsc] reader
    without a name, and the capabilities are those of the hardware reader.
    Nothing is stored or emitted along the way. *)
Theorem fallback_reader_is_not_in_mock_mode (error : JsError) (w : World) :
  mockMode (rfid w) = false ->
  exists w',
    RFIDService.initialize (Some error) w = (Returned tt, w') /\
    connected (rfid w') = true /\
    reader (rfid w') = Some MockReader /\
    mockMode (rfid w') = false /\
    db w' = db w /\ emitted w' = emitted w /\
    scanHistory (rfid w') = scanHistory (rfid w) /\
    (forall uid,
       RFIDService.simulateScan uid w' =
         (Thrown (Error "Simulate scan only available in mock mode"), w')) /\
    (forall uid,
       uid <> "" ->
       RfidRoutes.manualScan (Some uid) w' =
         (Returned
            (replyError 400 "Manual scan only available in mock mode"), w')) /\
    RFIDService.getConnectedReaders w' =
      (Returned [RFIDService.mkReaderEntry None true "nfc-pcsc"], w') /\
    RFIDService.getReaderCapabilities w' =
      (Returned
         (Some (RFIDService.mkCapabilities None
                  ["ISO14443A"; "ISO14443B"; "MIFARE"; "NTAG"; "FeliCa"]
                  false (Some true))), w').
Proof.
  intros Hm.
  unfold RFIDService.initialize, RFIDService.initializeNFCReader,
    RFIDService.initializeMockReader.
  cbv [tryCatch bind getWorld throw modify ret]. rewrite !Hm. cbn [negb].
  eexists. split; [reflexivity |].
  cbn [rfid set_rfid connected reader mockMode db emitted scanHistory].
  rewrite Hm. do 6 (split; [reflexivity |]).
  split; [| split; [| split]].
  - intros uid. unfold RFIDService.simulateScan.
    cbv [bind getWorld]. cbn [rfid set_rfid mockMode]. rewrite ?Hm.
    reflexivity.
  - intros uid Hne. unfold RfidRoutes.manualScan.
    apply String.eqb_neq in Hne. rewrite Hne.
    cbv [tryCatch bind getWorld]. cbn [rfid set_rfid mockMode]. rewrite ?Hm.
    reflexivity.
  - unfold RFIDService.getConnectedReaders.
    cbv [bind getWorld]. cbn [rfid set_rfid mockMode]. rewrite ?Hm.
    reflexivity.
  - unfold RFIDService.getReaderCapabilities.
    cbv [bind getWorld]. cbn [rfid set_rfid mockMode]. rewrite ?Hm.
    reflexivity.
Qed.

Lemma fallback_reader_is_not_in_mock_mode_witness :
  exists w',
    RFIDService.initialize (Some (Error "no PC/SC service")) hardwareWorld =
      (Returned tt, w') /\
    connected (rfid w') = true /\
    reader (rfid w') = Some MockReader /\
    mockMode (rfid w') = false /\
    db w' = db hardwareWorld /\ emitted w' = emitted hardwareWorld /\
    scanHistory (rfid w') = scanHistory (rfid hardwareWorld) /\
    (forall uid,
       RFIDService.simulateScan uid w' =
         (Thrown (Error "Simulate scan only available in mock mode"), w')) /\
    (forall uid,
       uid <> "" ->
       RfidRoutes.manualScan (Some uid) w' =
         (Returned
            (replyError 400 "Manual scan only available in mock mode"), w')) /\
    RFIDService.getConnectedReaders w' =
      (Returned [RFIDService.mkReaderEntry None true "nfc-pcsc"], w') /\
    RFIDService.getReaderCapabilities w' =
      (Returned
         (Some (RFIDService.mkCapabilities None
                  ["ISO14443A"; "ISO14443B"; "MIFARE"; "NTAG"; "FeliCa"]
                  false (Some true))), w').
Proof.
  apply (fallback_reader_is_not_in_mock_mode (Error "no PC/SC service")
           hardwareWorld).
  reflexivity.
Defined.


